(** * Bank-review analytics: sentiment, themes, keywords and insights

    A shallow embedding of the classification and aggregation code of the
    fintech-reviews pipeline:

    - [src/utils/text_preprocessor.py]    ([TextPreprocessor.clean_text]),
    - [src/nlp_analysis/theme_analyzer.py] ([ThemeAnalyzer]),
    - [src/nlp_analysis/sentiment_analyzer.py] ([SentimentAnalyzer]),
    - [src/insights/analyzer.py]          ([InsightsAnalyzer]).

    Text is a Python [str]; it is modelled as a [string] of 8-bit characters
    and the model covers ASCII text (code points below 128): [lower] maps
    [A-Z] to [a-z] and leaves every other character alone, the regular
    expression classes [\w], [\d], [\s] are their ASCII parts.  A DataFrame
    cell that may be missing is a [cell].  Python [int] is [Z].  A Python
    [float] is a binary64 [float] where the values are few enough to be
    evaluated exhaustively (the theme threshold), and an exact rational [Q]
    where the code does arithmetic on unbounded data (polarity, shares,
    means); the second is an idealisation that ignores rounding. *)

From Stdlib Require Import List Bool Arith ZArith QArith Lia String Ascii.
From Stdlib Require Import Floats Uint63 Permutation Lqa.
From Stdlib Require Reals Qreals Lra.
From Stdlib Require Import Sorted.
From Stdlib Require DecimalString.
Import ListNotations.

Local Open Scope string_scope.
Local Open Scope list_scope.

(** ** Python [str] primitives *)

Module PyStr.

(** Code point of a character. *)
Definition code (c : ascii) : nat := nat_of_ascii c.

Definition in_range (lo hi : nat) (c : ascii) : bool :=
  (lo <=? code c)%nat && (code c <=? hi)%nat.

Definition is_upper (c : ascii) : bool := in_range 65 90 c.
Definition is_lower (c : ascii) : bool := in_range 97 122 c.
Definition is_digit (c : ascii) : bool := in_range 48 57 c.

(** [str.isspace] on one character, ASCII part: tab, line feed, vertical
    tab, form feed, carriage return, the separators 28..31 and space. *)
Definition is_space (c : ascii) : bool :=
  in_range 9 13 c || in_range 28 32 c.

(** The class [\w] of [re] on [str] patterns, ASCII part. *)
Definition is_word (c : ascii) : bool :=
  is_upper c || is_lower c || is_digit c || (code c =? 95)%nat.

Definition lower_char (c : ascii) : ascii :=
  if is_upper c then ascii_of_nat (code c + 32) else c.

(** [s.lower()] *)
Fixpoint lower (s : string) : string :=
  match s with
  | EmptyString => EmptyString
  | String c r => String (lower_char c) (lower r)
  end.

(** [sub in s]: [sub] occurs in [s] as a contiguous substring. *)
Fixpoint contains (sub s : string) : bool :=
  prefix sub s ||
  match s with
  | EmptyString => false
  | String _ r => contains sub r
  end.

(** [s.lstrip()] *)
Fixpoint lstrip (s : string) : string :=
  match s with
  | EmptyString => EmptyString
  | String c r => if is_space c then lstrip r else s
  end.

Definition all_space (s : string) : bool :=
  match lstrip s with EmptyString => true | _ => false end.

(** [s.rstrip()] *)
Fixpoint rstrip (s : string) : string :=
  match s with
  | EmptyString => EmptyString
  | String c r => if all_space s then EmptyString else String c (rstrip r)
  end.

(** [s.strip()] *)
Definition strip (s : string) : string := rstrip (lstrip s).

(** [s[:n]] *)
Fixpoint take (n : nat) (s : string) : string :=
  match n, s with
  | S n', String c r => String c (take n' r)
  | _, _ => EmptyString
  end.

(** [s.split()] with no argument: the maximal runs of non-space
    characters.  [cur] is the run being read. *)
Fixpoint split_ws_aux (cur : string) (s : string) : list string :=
  match s with
  | EmptyString =>
      match cur with EmptyString => [] | _ => [cur] end
  | String c r =>
      if is_space c
      then match cur with
           | EmptyString => split_ws_aux EmptyString r
           | _ => cur :: split_ws_aux EmptyString r
           end
      else split_ws_aux (cur ++ String c EmptyString) r
  end.

Definition split_ws (s : string) : list string := split_ws_aux EmptyString s.

(** [s.split(sep)] for a one-character separator: always at least one
    piece, empty pieces kept. *)
Fixpoint split_on_aux (sep : ascii) (cur : string) (s : string) : list string :=
  match s with
  | EmptyString => [cur]
  | String c r =>
      if Ascii.eqb c sep
      then cur :: split_on_aux sep EmptyString r
      else split_on_aux sep (cur ++ String c EmptyString) r
  end.

Definition split_on (sep : ascii) (s : string) : list string :=
  split_on_aux sep EmptyString s.

(** [sep.join(l)] *)
Definition join (sep : string) (l : list string) : string := concat sep l.

End PyStr.

(** A Python [int] used where a [float] is expected (exact below 2^53). *)
Definition float_of_int (z : Z) : float := PrimFloat.of_uint63 (Uint63.of_Z z).

(** A DataFrame cell holding text: a string, or missing ([NaN]/[None]). *)
Inductive cell : Type :=
| NaN : cell
| Text : string -> cell.

(** ** [ThemeAnalyzer]: the rule-based theme classifier *)

Module ThemeAnalyzer.
Import PyStr.

(** A Python [dict] iterated in insertion order, keys distinct. *)
Definition dict (V : Type) : Type := list (string * V).

(** [_initialize_theme_keywords] *)
Definition theme_keywords : dict (list string) :=
  [ ("APP_PERFORMANCE",
      ["slow"; "fast"; "speed"; "loading"; "crash"; "freeze"; "lag";
       "performance"; "responsive"; "smooth"; "hanging"]);
    ("RELIABILITY_ISSUES",
      ["error"; "bug"; "glitch"; "not working"; "problem"; "issue";
       "failed"; "broken"; "technical"; "malfunction"; "down"]);
    ("USER_INTERFACE",
      ["interface"; "design"; "layout"; "navigation"; "menu";
       "button"; "screen"; "display"; "theme"; "color"; "font"]);
    ("SECURITY_ACCESS",
      ["login"; "password"; "security"; "authentication"; "biometric";
       "fingerprint"; "face id"; "pin"; "verification"; "access"]);
    ("TRANSACTIONS",
      ["transfer"; "payment"; "transaction"; "send money"; "receive";
       "bill"; "airtime"; "mobile banking"; "fund"; "amount"]);
    ("CUSTOMER_SUPPORT",
      ["support"; "service"; "help"; "assistance"; "response";
       "contact"; "complaint"; "feedback"; "representative"]);
    ("FEATURE_REQUEST",
      ["should"; "could"; "would"; "please add"; "need"; "want";
       "missing"; "suggestion"; "improvement"; "enhancement"]) ].

(** What one keyword adds to its theme's score: the body of the inner
    loop, lines 101-106. *)
Definition keyword_weight (text_lower keyword : string) : Z :=
  if contains keyword text_lower then
    if contains (" " ++ keyword ++ " ") (" " ++ text_lower ++ " ")
    then 2 else 1
  else 0.

(** The inner loop: [score] after all keywords of one theme. *)
Definition theme_score (text_lower : string) (keywords : list string) : Z :=
  fold_left (fun score keyword => (score + keyword_weight text_lower keyword)%Z)
            keywords 0%Z.

(** The outer loop: [theme_scores], holding the themes with [score > 0]
    in the order the taxonomy lists them. *)
Fixpoint score_themes (taxonomy : dict (list string)) (text_lower : string)
  : dict Z :=
  match taxonomy with
  | [] => []
  | (theme, keywords) :: rest =>
      let score := theme_score text_lower keywords in
      if (0 <? score)%Z
      then (theme, score) :: score_themes rest text_lower
      else score_themes rest text_lower
  end.

(** [max(theme_scores.values())] on a non-empty dict. *)
Definition max_value (d : dict Z) : Z :=
  match d with
  | [] => 0%Z
  | (_, v) :: rest => fold_left (fun m kv => Z.max m (snd kv)) rest v
  end.

(** [score / max_score >= threshold]: true division of two ints, then a
    float comparison. *)
Definition passes (threshold : float) (score max_score : Z) : bool :=
  PrimFloat.leb threshold
    (PrimFloat.div (float_of_int score) (float_of_int max_score)).

(** The literal [0.1]: the binary64 value nearest to one tenth. *)
Definition default_threshold : float := 0x1.999999999999ap-4%float.

(** [classify_review_themes(text, threshold)] for an arbitrary taxonomy. *)
Definition classify_with (taxonomy : dict (list string))
           (text : cell) (threshold : float) : list string :=
  match text with
  | NaN => []
  | Text EmptyString => []
  | Text t =>
      let text_lower := lower t in
      let theme_scores := score_themes taxonomy text_lower in
      match theme_scores with
      | [] => []
      | _ =>
          let max_score := max_value theme_scores in
          map fst (filter (fun ts => passes threshold (snd ts) max_score)
                          theme_scores)
      end
  end.

(** The method of the class: the taxonomy is [self.theme_keywords]. *)
Definition classify_review_themes (text : cell) (threshold : float)
  : list string :=
  classify_with theme_keywords text threshold.

(** [ThemeClassifier.classify]: the call with the default threshold. *)
Definition classify (text : cell) : list string :=
  classify_review_themes text default_threshold.

End ThemeAnalyzer.

(** ** [TextPreprocessor.clean_text] *)

Module TextPreprocessor.
Import PyStr.

(** [re.sub(pattern, '', s)] for a pattern made of a fixed head followed by
    a greedy run [X+] of a character class, when the match, once begun, is
    the head's first character followed by a maximal run of characters of
    the class.  [starts s] says that a match begins at the front of [s];
    [skipping] says that the scan is inside a match. *)
Fixpoint remove_runs (starts : string -> bool) (cont : ascii -> bool)
         (skipping : bool) (s : string) : string :=
  match s with
  | EmptyString => EmptyString
  | String c r =>
      if skipping && cont c then remove_runs starts cont true r
      else if starts s then remove_runs starts cont true r
      else String c (remove_runs starts cont false r)
  end.

(** A match of [http\S+] begins here: the four letters and at least one
    more non-space character.  The letters are themselves non-space, so
    the match is the whole run of non-space characters from the [h]. *)
Definition url_at (s : string) : bool :=
  match s with
  | String "h" (String "t" (String "t" (String "p" (String c _)))) =>
      negb (is_space c)
  | _ => false
  end.

(** A match of [c\w+] begins here, for the one-character head [c]. *)
Definition tag_at (head : ascii) (s : string) : bool :=
  match s with
  | String c (String d _) => Ascii.eqb c head && is_word d
  | _ => false
  end.

(** [re.sub(r'http\S+', '', s)] *)
Definition remove_urls (s : string) : string :=
  remove_runs url_at (fun c => negb (is_space c)) false s.

(** [re.sub(r'@\w+', '', s)] *)
Definition remove_mentions (s : string) : string :=
  remove_runs (tag_at "@") is_word false s.

(** [re.sub(r'#\w+', '', s)] *)
Definition remove_hashtags (s : string) : string :=
  remove_runs (tag_at "#") is_word false s.

(** [re.sub(r'\d+', '', s)]: deleting every maximal run of digits deletes
    the digits. *)
Fixpoint remove_numbers (s : string) : string :=
  match s with
  | EmptyString => EmptyString
  | String c r =>
      if is_digit c then remove_numbers r else String c (remove_numbers r)
  end.

(** [re.sub(r'[^\w\s]', ' ', s)] *)
Fixpoint remove_punctuation (s : string) : string :=
  match s with
  | EmptyString => EmptyString
  | String c r =>
      String (if is_word c || is_space c then c else " "%char)
             (remove_punctuation r)
  end.

(** [re.sub(r'\s+', ' ', s)]: every maximal run of whitespace becomes one
    space.  [in_run] says that the previous character was whitespace. *)
Fixpoint collapse_spaces (in_run : bool) (s : string) : string :=
  match s with
  | EmptyString => EmptyString
  | String c r =>
      if is_space c
      then if in_run then collapse_spaces true r
           else String " "%char (collapse_spaces true r)
      else String c (collapse_spaces false r)
  end.

(** [clean_text(text)] *)
Definition clean_text (text : cell) : string :=
  match text with
  | NaN => ""
  | Text t =>
      let t := lower t in
      let t := remove_urls t in
      let t := remove_mentions t in
      let t := remove_hashtags t in
      let t := remove_numbers t in
      let t := remove_punctuation t in
      let t := collapse_spaces false t in
      strip t
  end.

(** The basic tokenizer of [tokenize_text] (no spaCy model): the words of
    the cleaned text longer than two characters. *)
Definition tokenize_text (text : cell) : list string :=
  filter (fun w => (2 <? String.length w)%nat) (split_ws (clean_text text)).

End TextPreprocessor.

(** ** The pandas and [collections] operations the code uses *)

Module Pandas.

Section Counting.
Context {K : Type} (eqb : K -> K -> bool).

(** [Series.unique()]: the distinct values, in order of first
    appearance. *)
Fixpoint unique (l : list K) : list K :=
  match l with
  | [] => []
  | x :: r => x :: filter (fun y => negb (eqb y x)) (unique r)
  end.

(** How many entries of [l] equal [k]. *)
Definition count (k : K) (l : list K) : Z :=
  Z.of_nat (List.length (filter (eqb k) l)).

(** One step of a stable sort by decreasing count: [x] goes in front of
    the first entry whose count is not larger. *)
Fixpoint insert_desc (x : K * Z) (l : list (K * Z)) : list (K * Z) :=
  match l with
  | [] => [x]
  | y :: r => if (snd y <=? snd x)%Z then x :: l else y :: insert_desc x r
  end.

Definition sort_desc (l : list (K * Z)) : list (K * Z) :=
  fold_right insert_desc [] l.

(** [Series.value_counts()] and [Counter(l).most_common()]: each distinct
    value with its number of occurrences, largest count first.  Equal
    counts are put in order of first appearance, as [Counter] documents;
    pandas promises no order among them, and no statement below depends on
    one. *)
Definition value_counts (l : list K) : list (K * Z) :=
  sort_desc (map (fun k => (k, count k l)) (unique l)).

(** [d.get(k, default)] on a dict or Series. *)
Fixpoint get {V : Type} (d : list (K * V)) (k : K) (default : V) : V :=
  match d with
  | [] => default
  | (k', v) :: r => if eqb k' k then v else get r k default
  end.

End Counting.

(** [Series.sum()] and [Series.mean()] in exact arithmetic; the mean of an
    empty Series is NaN, here [None]. *)
Definition sum (l : list Q) : Q := fold_right Qplus 0%Q l.

Definition mean (l : list Q) : option Q :=
  match l with
  | [] => None
  | _ => Some (sum l / inject_Z (Z.of_nat (List.length l)))%Q
  end.

(** The square of [Series.std()], the sample variance (ddof = 1); NaN for
    fewer than two values. *)
Definition var (l : list Q) : option Q :=
  match mean l with
  | None => None
  | Some m =>
      if (List.length l <? 2)%nat then None
      else Some (sum (map (fun x => (x - m) * (x - m)) l)
                 / inject_Z (Z.of_nat (List.length l) - 1))%Q
  end.

Definition Qgtb (x y : Q) : bool := negb (Qle_bool x y).

(** [a > b] where either side may be NaN: false then. *)
Definition gt_nan (a : option Q) (b : Q) : bool :=
  match a with Some x => Qgtb x b | None => false end.

End Pandas.

(** ** [SentimentAnalyzer] *)

Module SentimentAnalyzer.
Import PyStr.

(** The analyzers outside the repository: the transformers pipeline
    ([self.classifier]; [None] when the call raises) and TextBlob's
    polarity. *)
Record Backends : Type := {
  classifier : string -> option (string * Q);
  polarity : string -> Q
}.

(** A call of an analyzer, with its input. *)
Inductive Invocation : Type :=
| CallClassifier : string -> Invocation
| CallTextBlob : string -> Invocation.

(** A computation that returns a value and the analyzer calls it made. *)
Definition M (A : Type) : Type := (A * list Invocation)%type.
Definition ret {A} (a : A) : M A := (a, []).
Definition bind {A B} (m : M A) (f : A -> M B) : M B :=
  let (a, log) := m in let (b, log') := f a in (b, log ++ log').
Definition invoke {A} (i : Invocation) (a : A) : M A := (a, [i]).

Local Notation "x <- c ;; k" := (bind c (fun x => k))
  (at level 61, c at next level, right associativity).

(** What [__init__] and [_setup_fallback] leave on the object. *)
Record t : Type := {
  model_loaded : bool;
  use_textblob : bool
}.

Definition Sentiment : Type := (string * Q)%type.

(** [analyze_sentiment_distilbert(text)] *)
Definition analyze_sentiment_distilbert (B : Backends) (text : string)
  : M Sentiment :=
  if (text =? "") || (String.length (strip text) =? 0)%nat
  then ret ("NEUTRAL", 1 # 2)
  else
    result <- invoke (CallClassifier (take 512 text))
                     (classifier B (take 512 text)) ;;
    match result with
    | Some (label, score) =>
        if label =? "POSITIVE" then ret ("POSITIVE", score)
        else if label =? "NEGATIVE" then ret ("NEGATIVE", score)
        else ret ("NEUTRAL", 1 # 2)
    | None => ret ("NEUTRAL", 1 # 2)
    end.

(** [analyze_sentiment_textblob(text)] *)
Definition analyze_sentiment_textblob (B : Backends) (text : string)
  : M Sentiment :=
  (polarity <- invoke (CallTextBlob text) (polarity B text) ;;
   if Pandas.Qgtb polarity (1 # 10)
   then ret ("POSITIVE", (polarity + 1) / 2)
   else if Pandas.Qgtb (- (1 # 10)) polarity
   then ret ("NEGATIVE", (1 - polarity) / 2)
   else ret ("NEUTRAL", 1 # 2))%Q.

(** The body of the loop of [analyze_dataframe]: the strategy chosen by
    the flags set at initialization. *)
Definition analyze_one (self : t) (B : Backends) (text : string)
  : M Sentiment :=
  if model_loaded self then analyze_sentiment_distilbert B text
  else if use_textblob self then analyze_sentiment_textblob B text
  else ret ("NEUTRAL", 1 # 2).

(** [analyze_dataframe]: the two new columns, as one list of pairs. *)
Fixpoint analyze_dataframe (self : t) (B : Backends) (texts : list string)
  : M (list Sentiment) :=
  match texts with
  | [] => ret []
  | text :: rest =>
      r <- analyze_one self B text ;;
      rs <- analyze_dataframe self B rest ;;
      ret (r :: rs)
  end.

(** [SentimentClassifier.classify]: one call, under the object's
    strategy. *)
Definition classify := analyze_one.

End SentimentAnalyzer.

(** ** Annotated reviews *)

(** A row of the annotated DataFrame: the columns the reports read.  The
    theme column holds the comma-joined tags, ["No themes"], or is
    missing. *)
Record Review : Type := {
  bank : string;
  rating : Z;
  sentiment_label : string;
  sentiment_score : Q;
  identified_themes : cell
}.

Definition DataFrame : Type := list Review.

(** [df[df[column] == value]] for the two columns the code filters on. *)
Definition where_bank (b : string) (df : DataFrame) : DataFrame :=
  filter (fun r => bank r =? b) df.

Definition where_label (l : string) (df : DataFrame) : DataFrame :=
  filter (fun r => sentiment_label r =? l) df.

(** ** [SentimentAnalyzer.generate_sentiment_report]: counts per bank *)

Module SentimentReport.
Import Pandas.

(** [df.groupby('bank')['sentiment_label'].value_counts()]: for each
    bank, the counts of the labels that occur in it.  (pandas orders the
    groups by key; the entries are the same.) *)
Definition label_counts_by_bank (df : DataFrame)
  : list (string * list (string * Z)) :=
  map (fun b => (b, value_counts String.eqb
                      (map sentiment_label (where_bank b df))))
      (unique String.eqb (map bank df)).

(** [.unstack().to_dict()]: label, then bank, then the count, NaN
    ([None]) where the label does not occur in the bank. *)
Definition sentiment_by_bank (df : DataFrame)
  : list (string * list (string * option Z)) :=
  let grouped := label_counts_by_bank df in
  map (fun label =>
         (label,
          map (fun g => (fst g,
                         get String.eqb (map (fun lc => (fst lc, Some (snd lc))) (snd g))
                             label None))
              grouped))
      (unique String.eqb (map sentiment_label df)).

(** [report['sentiment_by_bank'][label][bank]], a missing entry or a NaN
    read as no review. *)
Definition label_count (df : DataFrame) (label b : string) : Z :=
  match get String.eqb (get String.eqb (sentiment_by_bank df) label []) b None with
  | Some n => n
  | None => 0
  end.

(** The labels of the report: its outer keys. *)
Definition report_labels (df : DataFrame) : list string :=
  map fst (sentiment_by_bank df).

End SentimentReport.

(** ** [InsightsAnalyzer] *)

Module InsightsAnalyzer.
Import PyStr Pandas.

(** The list comprehension of lines 86, 113 and 148:
    [[t.strip() for t in str(themes).split(',') if t.strip() != 'No themes']] *)
Definition theme_list (themes : string) : list string :=
  map strip
      (filter (fun t => negb (strip t =? "No themes")) (split_on "," themes)).

(** The loop over [rows['identified_themes'].dropna()], extending one
    list. *)
Definition collect_themes (rows : DataFrame) : list string :=
  flat_map (fun r => match identified_themes r with
                     | NaN => []
                     | Text s => theme_list s
                     end) rows.

Definition ratings (rows : DataFrame) : list Q :=
  map (fun r => inject_Z (rating r)) rows.

Definition len (rows : DataFrame) : Z := Z.of_nat (List.length rows).

Record PainPoints : Type := {
  negative_review_count : Z;
  negative_percentage : Q;
  top_pain_points : list (string * Z);
  avg_rating_negative : option Q
}.

(** The body of the loop of [identify_pain_points] for one bank. *)
Definition pain_points_of (bank_data : DataFrame) : PainPoints :=
  let negative_reviews := where_label "NEGATIVE" bank_data in
  if (0 <? len negative_reviews)%Z then
    let negative_themes := collect_themes negative_reviews in
    let theme_counts := value_counts String.eqb negative_themes in
    {| negative_review_count := len negative_reviews;
       negative_percentage :=
         (inject_Z (len negative_reviews) / inject_Z (len bank_data) * 100)%Q;
       top_pain_points := firstn 3 theme_counts;
       avg_rating_negative := mean (ratings negative_reviews) |}
  else
    {| negative_review_count := 0;
       negative_percentage := 0;
       top_pain_points := [];
       avg_rating_negative := None |}.

(** [identify_pain_points()] *)
Definition identify_pain_points (df : DataFrame) : list (string * PainPoints) :=
  map (fun b => (b, pain_points_of (where_bank b df)))
      (unique String.eqb (map bank df)).

Record Drivers : Type := {
  positive_review_count : Z;
  positive_percentage : Q;
  top_drivers : list (string * Z);
  avg_rating_positive : option Q
}.

(** The body of the loop of [identify_drivers] for one bank. *)
Definition drivers_of (bank_data : DataFrame) : Drivers :=
  let positive_reviews := where_label "POSITIVE" bank_data in
  if (0 <? len positive_reviews)%Z then
    let positive_themes := collect_themes positive_reviews in
    let theme_counts := value_counts String.eqb positive_themes in
    {| positive_review_count := len positive_reviews;
       positive_percentage :=
         (inject_Z (len positive_reviews) / inject_Z (len bank_data) * 100)%Q;
       top_drivers := firstn 3 theme_counts;
       avg_rating_positive := mean (ratings positive_reviews) |}
  else
    {| positive_review_count := 0;
       positive_percentage := 0;
       top_drivers := [];
       avg_rating_positive := None |}.

(** [identify_drivers()] *)
Definition identify_drivers (df : DataFrame) : list (string * Drivers) :=
  map (fun b => (b, drivers_of (where_bank b df)))
      (unique String.eqb (map bank df)).

(** The strings [identify_ethical_considerations] can append; the first
    carries the percentage that the message prints. *)
Inductive Consideration : Type :=
| HighNegativeBias : Q -> Consideration
| PolarizedRatings : Consideration
| UnevenSampleSizes : Consideration.

(** [(df['sentiment_label'] == 'NEGATIVE').mean() * 100] *)
Definition negative_pct (df : DataFrame) : option Q :=
  match mean (map (fun r => if sentiment_label r =? "NEGATIVE" then 1%Q else 0%Q) df) with
  | Some m => Some (m * 100)%Q
  | None => None
  end.

(** [df['rating'].value_counts(normalize=True)] *)
Definition rating_dist (df : DataFrame) : list (Z * Q) :=
  map (fun rc => (fst rc, (inject_Z (snd rc) / inject_Z (len df))%Q))
      (value_counts Z.eqb (map rating df)).

(** [df['bank'].value_counts()], the counts alone. *)
Definition reviews_per_bank (df : DataFrame) : list Q :=
  map (fun bc => inject_Z (snd bc)) (value_counts String.eqb (map bank df)).

(** [s.std() / s.mean() > limit] for a Series of positive numbers and a
    limit that is not negative: the standard deviation is the root of
    [var], so the test is [var > (limit * mean)^2]; false when either
    statistic is NaN. *)
Definition std_over_mean_gt (s : list Q) (limit : Q) : bool :=
  match var s, mean s with
  | Some v, Some m => Qgtb v ((limit * m) * (limit * m))
  | _, _ => false
  end.

(** [identify_ethical_considerations()] *)
Definition identify_ethical_considerations (df : DataFrame)
  : list Consideration :=
  let considerations := [] in
  let considerations :=
    if gt_nan (negative_pct df) 70
    then considerations ++ [HighNegativeBias
                              (match negative_pct df with Some p => p | None => 0 end)]
    else considerations in
  let considerations :=
    if Qgtb (get Z.eqb (rating_dist df) 1%Z 0%Q) (4 # 10)
       || Qgtb (get Z.eqb (rating_dist df) 5%Z 0%Q) (4 # 10)
    then considerations ++ [PolarizedRatings]
    else considerations in
  let considerations :=
    if std_over_mean_gt (reviews_per_bank df) (3 # 10)
    then considerations ++ [UnevenSampleSizes]
    else considerations in
  considerations.

End InsightsAnalyzer.

(** ** The keyword extractor of [ThemeAnalyzer] *)

Module KeywordExtractor.
Import PyStr Pandas.

(** [extract_ngrams(texts, n, top_n)] *)
Definition extract_ngrams (texts : list string) (n top_n : nat)
  : list (string * Z) :=
  let ngrams :=
    flat_map (fun text =>
                let words := split_ws text in
                map (fun i => join " " (firstn n (skipn i words)))
                    (seq 0 (List.length words + 1 - n)))
             texts in
  firstn top_n (value_counts String.eqb ngrams).

(** The constructor arguments of [TfidfVectorizer] that decide which terms
    are kept. *)
Record Params : Type := {
  max_features : option nat;
  min_df : Z;
  max_df : float
}.

(** [ThemeAnalyzer.__init__], lines 19-25; [0.8] is its nearest
    binary64 value. *)
Definition params : Params :=
  {| max_features := Some 100%nat;
     min_df := 2;
     max_df := 0x1.999999999999ap-1%float |}.

(** The [ValueError]s of [CountVectorizer.fit_transform], and the error of
    reading the features of a vectorizer that was never fitted. *)
Inductive Exn : Type :=
| EmptyVocabulary
| MaxDfBelowMinDf
| NoTermsRemain
| NotFitted.

(** A term with its count in each document: one column of the
    document-term matrix. *)
Definition Column : Type := (string * list Z)%type.

(** [sorted] on strings. *)
Fixpoint insert_sorted (x : string) (l : list string) : list string :=
  match l with
  | [] => [x]
  | y :: r => if String.leb x y then x :: l else y :: insert_sorted x r
  end.

Definition sorted (l : list string) : list string :=
  fold_right insert_sorted [] l.

Definition document_frequency (c : Column) : Z :=
  Z.of_nat (List.length (filter (fun k => (0 <? k)%Z) (snd c))).

Definition term_frequency (c : Column) : Z :=
  fold_right Z.add 0%Z (snd c).

(** The mask of [_limit_features]: [dfs <= high] and [dfs >= low]. *)
Definition within_df (high : float) (low : Z) (c : Column) : bool :=
  PrimFloat.leb (float_of_int (document_frequency c)) high
  && (low <=? document_frequency c)%Z.

(** The entries of [l] at the positions that [keep] accepts, counted from
    [i]. *)
Fixpoint select_at {A} (keep : nat -> bool) (i : nat) (l : list A) : list A :=
  match l with
  | [] => []
  | x :: r => if keep i then x :: select_at keep (S i) r
              else select_at keep (S i) r
  end.

Section Vectorizer.

(** Modelled from the spec: scikit-learn's [TfidfVectorizer] is a
    library outside the repository.  Section 4.4 of the spec fixes what
    is modelled here: unigrams and bigrams without stop words, terms in
    fewer than [min_df] documents or in more than [max_df] of them
    dropped, at most [max_features] terms kept, an error when no
    document or no term is left.  What the library computes beyond that
    is a parameter: the analyzer that turns a document into its terms,
    the inverse-document-frequency fit, the weighted matrix with its
    column means, the order on scores and numpy's [argsort]. *)
Variable analyzer : string -> list string.
Variables Idf Tfidf Score : Type.
Variable fit_idf : list Column -> Idf.
Variable transform : Idf -> list Column -> Tfidf.
Variable column_means : Tfidf -> list Score.
Variable score_ltb : Score -> Score -> bool.
Variable argsort : list Z -> list nat.

(** The attributes a fit leaves on the vectorizer object. *)
Record Fitted : Type := {
  vocabulary_ : option (list string);
  idf_ : option Idf
}.

(** The vectorizer as [__init__] leaves it. *)
Definition unfitted : Fitted := {| vocabulary_ := None; idf_ := None |}.

(** Modelled from the spec: [_count_vocab] followed by the sorting of
    the features; no term at all is an error. *)
Definition count_vocab (texts : list string) : Exn + list Column :=
  let docs := map analyzer texts in
  let vocabulary := sorted (unique String.eqb (List.concat docs)) in
  match vocabulary with
  | [] => inl EmptyVocabulary
  | _ => inr (map (fun t => (t, map (fun d => count String.eqb t d) docs))
                  vocabulary)
  end.

(** Modelled from the spec: [_limit_features], the document-frequency
    bounds and then the cap on the number of terms (the [limit] terms of
    largest total count, in vocabulary order). *)
Definition limit_features (cols : list Column) (high : float) (low : Z)
           (limit : option nat) : Exn + list Column :=
  let kept := filter (within_df high low) cols in
  let kept :=
    match limit with
    | Some lim =>
        if (lim <? List.length kept)%nat then
          let mask_inds :=
            firstn lim (argsort (map (fun c => (- term_frequency c)%Z) kept)) in
          select_at (fun i => existsb (Nat.eqb i) mask_inds) 0 kept
        else kept
    | None => kept
    end in
  match kept with
  | [] => inl NoTermsRemain
  | _ => inr kept
  end.

(** Modelled from the spec: [CountVectorizer.fit_transform]. *)
Definition count_fit_transform (p : Params) (texts : list string)
  : Exn + list Column :=
  match count_vocab texts with
  | inl e => inl e
  | inr cols =>
      let n_doc := Z.of_nat (List.length texts) in
      let max_doc_count := PrimFloat.mul (max_df p) (float_of_int n_doc) in
      let min_doc_count := min_df p in
      if PrimFloat.ltb max_doc_count (float_of_int min_doc_count)
      then inl MaxDfBelowMinDf
      else limit_features cols max_doc_count min_doc_count (max_features p)
  end.

(** Modelled from the spec: [TfidfVectorizer.fit_transform] on the
    shared object.  A fit that succeeds replaces the fitted attributes; one
    that raises before the vocabulary is assigned keeps what an earlier fit
    stored (the model keeps all of it: the worst case for a leak between
    groups). *)
Definition fit_transform (p : Params) (self : Fitted) (texts : list string)
  : Fitted * (Exn + Tfidf) :=
  match count_fit_transform p texts with
  | inl e => (self, inl e)
  | inr cols =>
      let idf := fit_idf cols in
      ({| vocabulary_ := Some (map fst cols); idf_ := Some idf |},
       inr (transform idf cols))
  end.

(** Modelled from the spec: [get_feature_names_out] reads the fitted
    vocabulary. *)
Definition get_feature_names_out (self : Fitted) : Exn + list string :=
  match vocabulary_ self with
  | Some v => inr v
  | None => inl NotFitted
  end.

(** [keyword_scores.sort(key=lambda x: x[1], reverse=True)]: stable,
    larger scores first. *)
Fixpoint insert_by_score (x : string * Score) (l : list (string * Score))
  : list (string * Score) :=
  match l with
  | [] => [x]
  | y :: r => if score_ltb (snd x) (snd y) then y :: insert_by_score x r
              else x :: l
  end.

Definition sort_by_score (l : list (string * Score)) : list (string * Score) :=
  fold_right insert_by_score [] l.

(** [extract_keywords_tfidf(texts, top_n)] on the vectorizer [self]: the
    object after the call, and the list returned.  Any exception inside
    the [try] gives the empty list. *)
Definition extract_keywords_tfidf (self : Fitted) (texts : list string)
           (top_n : nat) : Fitted * list (string * Score) :=
  let (self, result) := fit_transform params self texts in
  match result with
  | inl _ => (self, [])
  | inr tfidf_matrix =>
      match get_feature_names_out self with
      | inl _ => (self, [])
      | inr feature_names =>
          let scores := column_means tfidf_matrix in
          let keyword_scores := combine feature_names scores in
          (self, firstn top_n (sort_by_score keyword_scores))
      end
  end.

(** What [extract_keywords_tfidf] returns, read off the counting step
    alone. *)
Definition ranking_of (texts : list string) (top_n : nat)
  : list (string * Score) :=
  match count_fit_transform params texts with
  | inl _ => []
  | inr cols =>
      firstn top_n
        (sort_by_score
           (combine (map fst cols)
                    (column_means (transform (fit_idf cols) cols))))
  end.

(** What [analyze_themes_by_bank] stores for one bank (the sample
    reviews, which only quote the input, are left out). *)
Record BankThemes : Type := {
  top_keywords : list (string * Score);
  top_bigrams : list (string * Z);
  top_trigrams : list (string * Z);
  theme_distribution : list (string * Z)
}.

(** The body of the loop of [analyze_themes_by_bank]. *)
Definition analyze_bank (self : Fitted) (bank_reviews : list string)
  : Fitted * BankThemes :=
  let (self, keywords) := extract_keywords_tfidf self bank_reviews 20 in
  let bigrams := extract_ngrams bank_reviews 2 15 in
  let trigrams := extract_ngrams bank_reviews 3 15 in
  let all_themes :=
    flat_map (fun t => ThemeAnalyzer.classify (Text t)) bank_reviews in
  (self,
   {| top_keywords := firstn 10 keywords;
      top_bigrams := bigrams;
      top_trigrams := trigrams;
      theme_distribution := value_counts String.eqb all_themes |}).

(** The rows of the frame: the bank and the processed text. *)
Definition texts_of (b : string) (df : list (string * string)) : list string :=
  map snd (filter (fun r => fst r =? b) df).

(** The loop over the banks, handing the one vectorizer from each bank
    to the next. *)
Fixpoint analyze_banks (self : Fitted) (banks : list string)
         (df : list (string * string))
  : Fitted * list (string * BankThemes) :=
  match banks with
  | [] => (self, [])
  | b :: rest =>
      let (self, analysis) := analyze_bank self (texts_of b df) in
      let (self, others) := analyze_banks self rest df in
      (self, (b, analysis) :: others)
  end.

(** [analyze_themes_by_bank(df)] on a new [ThemeAnalyzer]. *)
Definition analyze_themes_by_bank (df : list (string * string))
  : list (string * BankThemes) :=
  snd (analyze_banks unfitted (unique String.eqb (map fst df)) df).

End Vectorizer.

Arguments vocabulary_ {Idf}.
Arguments idf_ {Idf}.
Arguments fit_transform analyzer {Idf Tfidf}.
Arguments get_feature_names_out {Idf}.
Arguments insert_by_score {Score}.
Arguments sort_by_score {Score}.
Arguments extract_keywords_tfidf analyzer {Idf Tfidf Score}.
Arguments ranking_of analyzer {Idf Tfidf Score}.
Arguments top_keywords {Score}.
Arguments top_bigrams {Score}.
Arguments top_trigrams {Score}.
Arguments theme_distribution {Score}.
Arguments analyze_bank analyzer {Idf Tfidf Score}.
Arguments analyze_banks analyzer {Idf Tfidf Score}.
Arguments analyze_themes_by_bank analyzer {Idf Tfidf Score}.

End KeywordExtractor.

(** ** The vocabulary of the specification *)

(** What the specification calls a substring match and a whole-word match,
    stated on the text itself.  [delim] is the class of characters that may
    bound a word. *)
Module WordMatch.

Definition occurs (keyword text : string) : Prop :=
  exists pre post, text = (pre ++ keyword ++ post)%string.

Definition ends_with (delim : ascii -> bool) (s : string) : Prop :=
  exists p c, s = (p ++ String c "")%string /\ delim c = true.

Definition starts_with (delim : ascii -> bool) (s : string) : Prop :=
  exists c q, s = String c q /\ delim c = true.

(** [keyword] occurs in [text] with, on each side, the end of the text or
    a delimiter. *)
Definition occurs_as_word (delim : ascii -> bool) (keyword text : string)
  : Prop :=
  exists pre post,
    text = (pre ++ keyword ++ post)%string
    /\ (pre = "" \/ ends_with delim pre)
    /\ (post = "" \/ starts_with delim post).

(** The space character, U+0020. *)
Definition is_blank (c : ascii) : bool := Ascii.eqb c " ".

(** The weight the specification gives a keyword: 2 for a whole-word
    match, 1 for a match as a substring only, 0 for no match. *)
Definition weight_spec (delim : ascii -> bool) (text keyword : string)
           (w : Z) : Prop :=
  (occurs_as_word delim keyword text -> w = 2%Z)
  /\ (occurs keyword text -> ~ occurs_as_word delim keyword text -> w = 1%Z)
  /\ (~ occurs keyword text -> w = 0%Z).

Definition sum_Z (l : list Z) : Z := fold_right Z.add 0%Z l.

(** The score the specification gives a theme: the sum of the weights of
    its keywords. *)
Definition is_score (delim : ascii -> bool) (text : string)
           (keywords : list string) (score : Z) : Prop :=
  exists weights,
    Forall2 (weight_spec delim text) keywords weights
    /\ score = sum_Z weights.

(** [m] is the largest score of a theme of the taxonomy. *)
Definition is_max_score (delim : ascii -> bool)
           (taxonomy : list (string * list string)) (text : string) (m : Z)
  : Prop :=
  (exists theme keywords,
      In (theme, keywords) taxonomy /\ is_score delim text keywords m)
  /\ (forall theme keywords score,
         In (theme, keywords) taxonomy ->
         is_score delim text keywords score -> (score <= m)%Z).

End WordMatch.

(** The shape of cleaned text. *)
Module Normal.
Import PyStr TextPreprocessor.

(** Every character of [s] satisfies [p]. *)
Fixpoint forall_chars (p : ascii -> bool) (s : string) : bool :=
  match s with
  | EmptyString => true
  | String c r => p c && forall_chars p r
  end.

(** No match of a pattern begins anywhere in [s]. *)
Fixpoint never_starts (starts : string -> bool) (s : string) : bool :=
  negb (starts s)
  && match s with
     | EmptyString => true
     | String _ r => never_starts starts r
     end.

(** [s] holds no ["http"] followed by a non-space character. *)
Definition url_free (s : string) : bool := never_starts url_at s.

(** A lowercase ASCII letter or the underscore. *)
Definition plain (c : ascii) : bool :=
  is_word c && negb (is_digit c) && negb (is_upper c).

(** What cleaned text is made of. *)
Definition final_char (c : ascii) : bool := plain c || Ascii.eqb c " ".

(** No two whitespace characters in a row; none in front when [prev]. *)
Fixpoint spaced (prev : bool) (s : string) : bool :=
  match s with
  | EmptyString => true
  | String c r =>
      if is_space c then negb prev && spaced true r else spaced false r
  end.

(** As [spaced], and no whitespace at the end. *)
Fixpoint tidy_from (prev : bool) (s : string) : bool :=
  match s with
  | EmptyString => true
  | String c r =>
      if is_space c
      then negb prev
           && match r with EmptyString => false | _ => true end
           && tidy_from true r
      else tidy_from false r
  end.

Definition tidy (s : string) : bool := tidy_from true s.

End Normal.

(** ** Inputs and notions the statements below use *)

Module Cases.
Import PyStr ThemeAnalyzer SentimentAnalyzer.

(** On every pair of scores up to 22 (eleven keywords of weight 2) the
    float test [score / max_score >= 0.1] decides [max_score <= 10 * score]. *)
Definition threshold_table : bool :=
  forallb (fun s =>
    forallb (fun m =>
      Bool.eqb (passes default_threshold (Z.of_nat s) (Z.of_nat m))
               (Z.of_nat m <=? 10 * Z.of_nat s)%Z)
      (seq 1 22))
    (seq 1 22).

(** Six performance keywords separated by spaces, then a tab and a
    reliability keyword. *)
Definition tab : ascii := ascii_of_nat 9.

Definition six_words_tab_error : string :=
  ("slow fast speed loading crash freeze" ++ String tab "error")%string.

Definition performance_keywords : list string :=
  ["slow"; "fast"; "speed"; "loading"; "crash"; "freeze"; "lag";
   "performance"; "responsive"; "smooth"; "hanging"].

Definition reliability_keywords : list string :=
  ["error"; "bug"; "glitch"; "not working"; "problem"; "issue";
   "failed"; "broken"; "technical"; "malfunction"; "down"].

(** [l] lists some entries of [L], in the order of [L]. *)
Inductive subseq {A : Type} : list A -> list A -> Prop :=
| subseq_nil : forall L, subseq [] L
| subseq_keep : forall x l L, subseq l L -> subseq (x :: l) (x :: L)
| subseq_skip : forall x l L, subseq l L -> subseq l (x :: L).

Definition taxonomy_order : list string :=
  ["APP_PERFORMANCE"; "RELIABILITY_ISSUES"; "USER_INTERFACE";
   "SECURITY_ACCESS"; "TRANSACTIONS"; "CUSTOMER_SUPPORT"; "FEATURE_REQUEST"].

Definition starts_visible (keyword : string) : bool :=
  match keyword with
  | EmptyString => false
  | String c _ => negb (is_space c)
  end.

(** The strategies of the fallback chain, as the flags encode them. *)
Definition primary : SentimentAnalyzer.t :=
  {| model_loaded := true; use_textblob := false |}.
Definition lexicon : SentimentAnalyzer.t :=
  {| model_loaded := false; use_textblob := true |}.
Definition no_analyzer : SentimentAnalyzer.t :=
  {| model_loaded := false; use_textblob := false |}.

(** Replacing the theme column of the rows that are not NEGATIVE. *)
Definition retheme (g : Review -> cell) (df : DataFrame) : DataFrame :=
  map (fun r => if sentiment_label r =? "NEGATIVE" then r
                else {| bank := bank r; rating := rating r;
                        sentiment_label := sentiment_label r;
                        sentiment_score := sentiment_score r;
                        identified_themes := g r |}) df.

(** A lexicon that finds every text mildly positive, and one that finds
    every text as positive as can be. *)
Definition half_polarity : Backends :=
  {| classifier := fun _ => None; polarity := fun _ => 1 # 2 |}.
Definition full_polarity : Backends :=
  {| classifier := fun _ => None; polarity := fun _ => 1 |}.

(** The three reviews of bank A of the end-to-end example. *)
Definition bank_a_reviews : DataFrame :=
  [ {| bank := "A"; rating := 5; sentiment_label := "POSITIVE";
       sentiment_score := 9 # 10; identified_themes := Text "TRANSACTIONS" |};
    {| bank := "A"; rating := 1; sentiment_label := "NEGATIVE";
       sentiment_score := 9 # 10; identified_themes := Text "SECURITY_ACCESS" |};
    {| bank := "A"; rating := 2; sentiment_label := "NEGATIVE";
       sentiment_score := 8 # 10;
       identified_themes := Text "APP_PERFORMANCE, TRANSACTIONS" |} ].

End Cases.

(** ** [ThemeAnalyzer._get_theme_samples] *)

Module ThemeSamples.
Import PyStr ThemeAnalyzer.

(** A row of [bank_df]: the columns [review_cleaned] and [themes]. *)
Record Row : Type := {
  review_cleaned : cell;
  themes : list string
}.

(** [df[df['themes'].apply(lambda x: theme in x)]] *)
Definition with_theme (theme : string) (df : list Row) : list Row :=
  filter (fun r => existsb (String.eqb theme) (themes r)) df.

(** [_get_theme_samples(df, n_samples)], for an arbitrary taxonomy. *)
Definition get_theme_samples_with (taxonomy : dict (list string))
           (df : list Row) (n_samples : nat) : dict (list cell) :=
  flat_map (fun tk =>
              let theme := fst tk in
              let theme_reviews := with_theme theme df in
              if (0 <? List.length theme_reviews)%nat
              then [(theme, map review_cleaned (firstn n_samples theme_reviews))]
              else [])
           taxonomy.

(** The method of the class, with its default [n_samples=2]. *)
Definition get_theme_samples (df : list Row) : dict (list cell) :=
  get_theme_samples_with theme_keywords df 2.

(** [bank_df] as [analyze_themes_by_bank] builds it (lines 136-137) from
    the rows of a bank, each the cleaned review and the processed text. *)
Definition bank_df (rows : list (cell * string)) : list Row :=
  map (fun r => {| review_cleaned := fst r;
                   themes := classify (Text (snd r)) |}) rows.

End ThemeSamples.

(** ** [TextPreprocessor.preprocess_dataframe] *)

Module Preprocess.
Import PyStr TextPreprocessor.

(** The four columns [preprocess_dataframe] adds. *)
Record Features : Type := {
  processed_text : string;
  tokens : list string;
  token_count : Z;
  char_count : Z
}.

(** One row of [preprocess_dataframe] (lines 61-68), with the basic
    tokenizer: the tokens are computed from the processed text, which
    [tokenize_text] cleans once more. *)
Definition preprocess_row (review_cleaned : cell) : Features :=
  let processed_text := clean_text review_cleaned in
  let tokens := tokenize_text (Text processed_text) in
  {| processed_text := processed_text;
     tokens := tokens;
     token_count := Z.of_nat (List.length tokens);
     char_count := Z.of_nat (String.length processed_text) |}.

Definition preprocess_dataframe (column : list cell) : list Features :=
  map preprocess_row column.

End Preprocess.

(** ** [NLPAnalysisPipeline]: the analyzed frame and what is saved *)

Module Pipeline.
Import PyStr Pandas TextPreprocessor ThemeAnalyzer SentimentAnalyzer.

Local Notation "x <- c ;; k" := (bind c (fun x => k))
  (at level 61, c at next level, right associativity).

(** The columns of the cleaned reviews that the pipeline reads. *)
Record Input : Type := {
  review_cleaned : cell;
  input_bank : string;
  input_rating : Z
}.

(** [', '.join(x) if x else 'No themes'], line 94 of [save_results]. *)
Definition join_themes (x : list string) : string :=
  match x with
  | [] => "No themes"
  | _ => join ", " x
  end.

(** A row of the main analysis frame. *)
Definition analysis_row (r : Input) (s : Sentiment) (x : list string) : Review :=
  {| bank := input_bank r;
     rating := input_rating r;
     sentiment_label := fst s;
     sentiment_score := snd s;
     identified_themes := Text (join_themes x) |}.

(** Steps 1 to 3 of [run_complete_analysis] and the main frame of
    [save_results]: the processed text of every row, then the sentiment of
    every row, then the themes of every row. *)
Definition main_analysis (self : SentimentAnalyzer.t) (B : Backends)
           (df : list Input) : M DataFrame :=
  let processed_text := map (fun r => clean_text (review_cleaned r)) df in
  sentiments <- analyze_dataframe self B processed_text ;;
  let themes := map (fun t => ThemeAnalyzer.classify (Text t)) processed_text in
  ret (map (fun row => analysis_row (fst row) (fst (snd row)) (snd (snd row)))
           (combine df (combine sentiments themes))).

(** A row of [theme_clusters.csv]. *)
Record ThemeCluster : Type := {
  cluster_bank : string;
  cluster_theme : string;
  review_count : Z;
  percentage : Q
}.

(** The third frame of [save_results], lines 128-136; [df] holds the bank
    and the processed text of every row. *)
Definition theme_clusters {Score : Type} (df : list (string * string))
           (theme_analysis : list (string * KeywordExtractor.BankThemes Score))
  : list ThemeCluster :=
  flat_map (fun ba =>
              map (fun tc =>
                     {| cluster_bank := fst ba;
                        cluster_theme := fst tc;
                        review_count := snd tc;
                        percentage :=
                          (inject_Z (snd tc)
                           / inject_Z (Z.of_nat (List.length
                                                   (KeywordExtractor.texts_of (fst ba) df)))
                           * 100)%Q |})
                  (KeywordExtractor.theme_distribution (snd ba)))
           theme_analysis.

End Pipeline.

(** ** [InsightsAnalyzer]: the per-bank statistics and the recommendations *)

Module InsightsReport.
Import PyStr Pandas InsightsAnalyzer.

(** What [analyze_sentiment_by_bank] stores for one bank. *)
Record BankSentiment : Type := {
  total_reviews : Z;
  avg_rating : option Q;
  positive_pct : option Q;
  avg_sentiment_score : option Q;
  rating_distribution : list (Z * Z)
}.

(** [(rows['sentiment_label'] == 'POSITIVE').mean() * 100] *)
Definition positive_share (rows : DataFrame) : option Q :=
  match mean (map (fun r => if sentiment_label r =? "POSITIVE" then 1%Q else 0%Q)
                  rows) with
  | Some m => Some (m * 100)%Q
  | None => None
  end.

(** The body of the loop of [analyze_sentiment_by_bank]. *)
Definition sentiment_of (bank_data : DataFrame) : BankSentiment :=
  {| total_reviews := len bank_data;
     avg_rating := mean (ratings bank_data);
     positive_pct := positive_share bank_data;
     avg_sentiment_score := mean (map sentiment_score bank_data);
     rating_distribution := value_counts Z.eqb (map rating bank_data) |}.

(** [analyze_sentiment_by_bank()] *)
Definition analyze_sentiment_by_bank (df : DataFrame)
  : list (string * BankSentiment) :=
  map (fun b => (b, sentiment_of (where_bank b df)))
      (unique String.eqb (map bank df)).

(** What [analyze_themes_by_bank] stores for one bank. *)
Record BankThemeStats : Type := {
  total_theme_mentions : Z;
  unique_themes : Z;
  top_themes : list (string * Z)
}.

(** The body of the loop of [analyze_themes_by_bank]. *)
Definition theme_stats_of (bank_data : DataFrame) : BankThemeStats :=
  let all_themes := collect_themes bank_data in
  let theme_counts := value_counts String.eqb all_themes in
  {| total_theme_mentions := Z.of_nat (List.length all_themes);
     unique_themes := Z.of_nat (List.length theme_counts);
     top_themes := firstn 5 theme_counts |}.

(** [analyze_themes_by_bank()] *)
Definition analyze_themes_by_bank (df : DataFrame)
  : list (string * BankThemeStats) :=
  map (fun b => (b, theme_stats_of (where_bank b df)))
      (unique String.eqb (map bank df)).

(** An entry of a bank's list of recommendations. *)
Record Recommendation : Type := {
  priority : string;
  area : string;
  recommendation : string;
  rationale : string
}.

(** [str(count)] in an f-string: the decimal digits. *)
Definition str_of_int (count : Z) : string :=
  DecimalString.NilZero.string_of_int (Z.to_int count).

(** The body of the loop over the top pain points, lines 183-203. *)
Definition pain_point_rec (theme : string) (count : Z) : list Recommendation :=
  if theme =? "TRANSACTIONS" then
    [{| priority := "HIGH";
        area := "Transactions";
        recommendation := "Optimize transaction processing speed and reliability";
        rationale := str_of_int count ++ " negative reviews mention transaction issues" |}]
  else if theme =? "APP_PERFORMANCE" then
    [{| priority := "HIGH";
        area := "App Performance";
        recommendation := "Improve app loading times and reduce crashes";
        rationale := str_of_int count ++ " negative reviews mention performance issues" |}]
  else if theme =? "RELIABILITY_ISSUES" then
    [{| priority := "HIGH";
        area := "Reliability";
        recommendation := "Address app crashes and error messages";
        rationale := str_of_int count ++ " negative reviews mention reliability problems" |}]
  else [].

(** The body of the loop over the top drivers, lines 208-214. *)
Definition driver_rec (theme : string) (count : Z) : list Recommendation :=
  if theme =? "APP_PERFORMANCE" then
    [{| priority := "MEDIUM";
        area := "Performance Maintenance";
        recommendation := "Continue optimizing app performance as it is a key strength";
        rationale := str_of_int count ++ " positive reviews highlight good performance" |}]
  else [].

(** [d[k]] guarded by [k in d]. *)
Fixpoint lookup {V : Type} (d : list (string * V)) (k : string) : option V :=
  match d with
  | [] => None
  | (k', v) :: r => if k' =? k then Some v else lookup r k
  end.

(** The body of the loop of [generate_recommendations] for one bank. *)
Definition recommendations_of (pain_points : list (string * PainPoints))
           (drivers : list (string * Drivers)) (b : string)
  : list Recommendation :=
  let bank_recs := [] in
  let bank_recs :=
    match lookup pain_points b with
    | Some pp =>
        match top_pain_points pp with
        | [] => bank_recs
        | top => bank_recs ++ flat_map (fun tc => pain_point_rec (fst tc) (snd tc)) top
        end
    | None => bank_recs
    end in
  let bank_recs :=
    match lookup drivers b with
    | Some d =>
        match top_drivers d with
        | [] => bank_recs
        | top => bank_recs ++ flat_map (fun tc => driver_rec (fst tc) (snd tc)) top
        end
    | None => bank_recs
    end in
  bank_recs.

(** [generate_recommendations()]; the sentiment analysis it also computes
    is not read. *)
Definition generate_recommendations (df : DataFrame)
  : list (string * list Recommendation) :=
  let pain_points := identify_pain_points df in
  let drivers := identify_drivers df in
  map (fun b => (b, recommendations_of pain_points drivers b))
      (unique String.eqb (map bank df)).

(** The summary statistics of the report. *)
Record Summary : Type := {
  summary_total_reviews : Z;
  banks_analyzed : Z;
  overall_positive_pct : option Q;
  overall_avg_rating : option Q
}.

Record Report : Type := {
  summary_statistics : Summary;
  sentiment_analysis : list (string * BankSentiment);
  theme_analysis : list (string * BankThemeStats);
  pain_points : list (string * PainPoints);
  drivers : list (string * Drivers);
  recommendations : list (string * list Recommendation);
  ethical_considerations : list Consideration
}.

(** The report for a loaded frame. *)
Definition report_of (df : DataFrame) : Report :=
  {| summary_statistics :=
       {| summary_total_reviews := len df;
          banks_analyzed := Z.of_nat (List.length (unique String.eqb (map bank df)));
          overall_positive_pct := positive_share df;
          overall_avg_rating := mean (ratings df) |};
     sentiment_analysis := analyze_sentiment_by_bank df;
     theme_analysis := analyze_themes_by_bank df;
     pain_points := identify_pain_points df;
     drivers := identify_drivers df;
     recommendations := generate_recommendations df;
     ethical_considerations := identify_ethical_considerations df |}.

(** [generate_insights_report()]: [self_df] is [self.df], [load_data] what
    loading the file gives, [None] when it fails; the empty dict is
    [None]. *)
Definition generate_insights_report (self_df load_data : option DataFrame)
  : option Report :=
  match self_df with
  | Some df => Some (report_of df)
  | None =>
      match load_data with
      | Some df => Some (report_of df)
      | None => None
      end
  end.

End InsightsReport.

(** ** [ReviewPreprocessor]: cleaning the scraped reviews *)

Module ReviewPreprocessor.
Import PyStr TextPreprocessor.

(** A row of the raw frame: the columns the row filters read; a missing
    value is [NaN] or [None].  The date column, which the steps fill and
    reformat but never filter on, is left out. *)
Record Raw : Type := {
  review : cell;
  rating : option Z;
  bank : option string;
  source : option string
}.

(** Equality of two cells as [drop_duplicates] sees it: two missing
    values are duplicates of each other. *)
Definition cell_eqb (a b : cell) : bool :=
  match a, b with
  | NaN, NaN => true
  | Text s, Text t => s =? t
  | _, _ => false
  end.

(** [df.drop_duplicates(subset=['review'], keep='first')]; [seen] holds
    the reviews of the rows already passed. *)
Fixpoint drop_duplicates_from (seen : list cell) (df : list Raw) : list Raw :=
  match df with
  | [] => []
  | r :: rest =>
      if existsb (cell_eqb (review r)) seen
      then drop_duplicates_from seen rest
      else r :: drop_duplicates_from (review r :: seen) rest
  end.

(** [remove_duplicates], the frame it leaves. *)
Definition remove_duplicates (df : list Raw) : list Raw :=
  drop_duplicates_from [] df.

(** A row with none of the critical columns missing. *)
Definition complete (r : Raw) : bool :=
  match review r, rating r, bank r with
  | Text _, Some _, Some _ => true
  | _, _, _ => false
  end.

(** [handle_missing_data]: [dropna] on the critical columns, then the
    default for a missing source. *)
Definition handle_missing_data (df : list Raw) : list Raw :=
  map (fun r => {| review := review r;
                   rating := rating r;
                   bank := bank r;
                   source := Some (match source r with
                                   | Some s => s
                                   | None => "Google Play Store"
                                   end) |})
      (filter complete df).

(** [clean_text_content(text)], the function [clean_text] applies to the
    review column. *)
Definition clean_text_content (text : cell) : string :=
  match text with
  | NaN => ""
  | Text t => strip (collapse_spaces false t)
  end.

(** A row with the column [review_cleaned]. *)
Record Cleaned : Type := {
  raw : Raw;
  review_cleaned : string
}.

(** [clean_text], lines 112 and 116: the new column, then the rows whose
    cleaned review is not empty. *)
Definition add_review_cleaned (df : list Raw) : list Cleaned :=
  map (fun r => {| raw := r; review_cleaned := clean_text_content (review r) |}) df.

Definition drop_empty (df : list Cleaned) : list Cleaned :=
  filter (fun c => (0 <? String.length (review_cleaned c))%nat) df.

(** [Series.between(1, 5)]: both ends included, false for a missing
    value. *)
Definition between_1_5 (x : option Z) : bool :=
  match x with
  | Some z => (1 <=? z)%Z && (z <=? 5)%Z
  | None => false
  end.

(** [validate_data], the frame it leaves. *)
Definition validate_data (df : list Cleaned) : list Cleaned :=
  let invalid_ratings :=
    filter (fun c => negb (between_1_5 (rating (raw c)))) df in
  if (0 <? List.length invalid_ratings)%nat
  then filter (fun c => between_1_5 (rating (raw c))) df
  else df.

(** The counts [process] stores in [self.stats] and [generate_report]
    prints. *)
Record Stats : Type := {
  original_count : Z;
  duplicates_removed : Z;
  empty_reviews_removed : Z;
  final_count : Z
}.

Definition rows {A : Type} (df : list A) : Z := Z.of_nat (List.length df).

(** [process], after a successful [load_data]: the frame that is saved and
    the counts. *)
Definition process_loaded (df : list Raw) : list Cleaned * Stats :=
  let deduplicated := remove_duplicates df in
  let filled := handle_missing_data deduplicated in
  let cleaned := add_review_cleaned filled in
  let kept := drop_empty cleaned in
  let valid := validate_data kept in
  (valid,
   {| original_count := rows df;
      duplicates_removed := rows df - rows deduplicated;
      empty_reviews_removed := rows cleaned - rows kept;
      final_count := rows valid |}).

(** [process()]: [None] stands for [False], returned when [load_data]
    fails. *)
Definition process (load_data : option (list Raw))
  : option (list Cleaned * Stats) :=
  match load_data with
  | None => None
  | Some df => Some (process_loaded df)
  end.

(** The rates [generate_report] prints when [original_count > 0]:
    retention, error rate, and whether the quality is called
    excellent. *)
Definition rates (s : Stats) : option (Q * Q * bool) :=
  if (0 <? original_count s)%Z then
    let retention :=
      (inject_Z (final_count s) / inject_Z (original_count s) * 100)%Q in
    let error_rate := (100 - retention)%Q in
    Some (retention, error_rate, Pandas.Qgtb 5 error_rate)
  else None.

End ReviewPreprocessor.

(** ** Further notions the statements below use *)

Module Notions.
Import PyStr Normal.

(** What can be written to the theme column and read back: no comma, no
    whitespace at either end, and not the marker of an empty list. *)
Definition storable (t : string) : bool :=
  (strip t =? t) && forall_chars (fun c => negb (Ascii.eqb c ",")) t
  && negb (t =? "No themes").

(** A word of [str.split()]: not empty, no whitespace in it. *)
Definition word (w : string) : bool :=
  negb (w =? "") && forall_chars (fun c => negb (is_space c)) w.

Fixpoint list_eqb (a b : list string) : bool :=
  match a, b with
  | [], [] => true
  | x :: a', y :: b' => (x =? y) && list_eqb a' b'
  | _, _ => false
  end.

(** The positions at which the words [ws] stand one after the other in
    [words]. *)
Definition occurrences (ws words : list string) : list nat :=
  filter (fun i => list_eqb (firstn (List.length ws) (skipn i words)) ws)
         (seq 0 (List.length words + 1 - List.length ws)).

(** Counts in decreasing order. *)
Definition by_count_desc {K : Type} (l : list (K * Z)) : Prop :=
  StronglySorted (fun a b => (snd b <= snd a)%Z) l.

(** A lexicon that finds every text as negative as can be. *)
Definition gloomy : SentimentAnalyzer.Backends :=
  {| SentimentAnalyzer.classifier := fun _ => None;
     SentimentAnalyzer.polarity := fun _ => (- (1))%Q |}.

(** A one-star review of bank A. *)
Definition slow_review : Pipeline.Input :=
  {| Pipeline.review_cleaned := Text "App is slow!";
     Pipeline.input_bank := "A";
     Pipeline.input_rating := 1 |}.

(** The themes a pain point of which leads to a recommendation. *)
Definition actionable : list string :=
  ["TRANSACTIONS"; "APP_PERFORMANCE"; "RELIABILITY_ISSUES"].

(** A character that is not whitespace, or is the space. *)
Definition only_blank (c : ascii) : bool :=
  negb (is_space c) || Ascii.eqb c " ".

(** Two raw reviews that differ in whitespace only. *)
Definition both_spaced : ReviewPreprocessor.Raw :=
  {| ReviewPreprocessor.review := Text "good  app";
     ReviewPreprocessor.rating := Some 5%Z;
     ReviewPreprocessor.bank := Some "A";
     ReviewPreprocessor.source := None |}.

Definition single_spaced : ReviewPreprocessor.Raw :=
  {| ReviewPreprocessor.review := Text "good app";
     ReviewPreprocessor.rating := Some 4%Z;
     ReviewPreprocessor.bank := Some "A";
     ReviewPreprocessor.source := None |}.

(** How [str.split()] reads a text: nothing, a whitespace character and
    the rest, a last word, or a word, a whitespace character and the
    rest. *)
Inductive text_shape : string -> Prop :=
| shape_empty : text_shape ""
| shape_space : forall c r,
    is_space c = true -> text_shape r -> text_shape (String c r)
| shape_word : forall w, word w = true -> text_shape w
| shape_word_space : forall w c r,
    word w = true -> is_space c = true -> text_shape r ->
    text_shape (w ++ String c r)%string.

(** A step that treats every word by itself and keeps the whitespace
    between the words. *)
Record wordwise (f : string -> string) : Prop := {
  wordwise_empty : f "" = "";
  wordwise_space : forall c r,
    is_space c = true ->
    exists c', is_space c' = true /\ f (String c r) = String c' (f r);
  wordwise_word : forall w c r,
    word w = true -> is_space c = true ->
    f (w ++ String c r)%string = (f w ++ f (String c r))%string
}.

End Notions.

(** * Properties *)

(** ** Strings *)

Section StringFacts.
Import PyStr.

Lemma append_assoc (a b c : string) : ((a ++ b) ++ c = a ++ (b ++ c))%string.
Proof. induction a as [|x a IH]; simpl; [reflexivity | now rewrite IH]. Qed.

Lemma append_empty_r (a : string) : (a ++ "" = a)%string.
Proof. induction a as [|x a IH]; simpl; [reflexivity | now rewrite IH]. Qed.

Lemma prefix_iff (p s : string) :
  prefix p s = true <-> exists rest, s = (p ++ rest)%string.
Proof.
  revert s; induction p as [|x p IH]; intros s.
  - split; [intros _; exists s; reflexivity | intros _; destruct s; reflexivity].
  - destruct s as [|y s]; simpl.
    + split; [discriminate | intros [rest H]; discriminate].
    + destruct (ascii_dec x y) as [->|Hne].
      * rewrite IH. split; intros [rest H]; exists rest; [now rewrite H | now injection H].
      * split; [discriminate | intros [rest H]; injection H; intros; congruence].
Qed.

(** Python's [in] on strings is the existence of a decomposition. *)
Lemma contains_iff (sub s : string) :
  contains sub s = true <-> exists pre post, s = (pre ++ sub ++ post)%string.
Proof.
  induction s as [|c s IH].
  - cbn [contains]. rewrite orb_false_r, prefix_iff. split.
    + intros [rest H]. exists "", rest. exact H.
    + intros [pre [post H]]. destruct pre; [exists post; exact H | discriminate].
  - cbn [contains]. rewrite orb_true_iff, prefix_iff, IH. split.
    + intros [[rest H] | [pre [post H]]].
      * exists "", rest. exact H.
      * exists (String c pre), post. simpl. now rewrite H.
    + intros [pre [post H]]. destruct pre as [|x pre].
      * left. exists post. exact H.
      * right. exists pre, post. simpl in H. now injection H.
Qed.

End StringFacts.


(** ** The theme classifier *)

Section ThemeFacts.
Import PyStr ThemeAnalyzer WordMatch Cases.

Lemma snoc_blank_split (k r rest : string) :
  (r ++ " " = k ++ " " ++ rest)%string ->
  exists b, r = (k ++ b)%string /\ (b = "" \/ starts_with is_blank b).
Proof.
  revert r; induction k as [|x k IH]; intros r H.
  - exists r. split; [reflexivity|]. destruct r as [|c r]; [now left|].
    right. exists c, r. split; [reflexivity|]. simpl in H. injection H as Hc _.
    subst c. reflexivity.
  - destruct r as [|c r]; simpl in H.
    + injection H as _ H. destruct k; discriminate.
    + injection H as Hc H. subst x. destruct (IH _ H) as [b [-> Hb]].
      exists b. split; [reflexivity | exact Hb].
Qed.

Lemma blank_is (c : ascii) : is_blank c = true -> c = " "%char.
Proof. unfold is_blank. apply Ascii.eqb_eq. Qed.

(** The padded test of line 103 is the whole-word match bounded by space
    characters or the ends of the text. *)
Lemma padded_contains_iff (keyword text : string) :
  contains (" " ++ keyword ++ " ") (" " ++ text ++ " ") = true
  <-> occurs_as_word is_blank keyword text.
Proof.
  rewrite contains_iff. split.
  - intros [pre [post H]].
    assert (H' : ((" " ++ text) ++ " " = (pre ++ " " ++ keyword) ++ " " ++ post)%string).
    { rewrite !append_assoc. simpl. simpl in H. rewrite H.
      rewrite !append_assoc. reflexivity. }
    destruct (snoc_blank_split _ _ _ H') as [b [Hb Hpost]].
    destruct pre as [|c pre]; simpl in Hb.
    + injection Hb as Hb. exists "", b. simpl. auto.
    + injection Hb as Hc Hb. subst c. exists (pre ++ " ")%string, b. split.
      * rewrite Hb, !append_assoc. reflexivity.
      * split; [right; exists pre, " "%char; split; reflexivity | exact Hpost].
  - intros [pre [post [-> [Hpre Hpost]]]].
    assert (Hp : exists post', ((keyword ++ post) ++ " " = keyword ++ " " ++ post')%string).
    { destruct Hpost as [-> | [c [q [-> Hc]]]].
      - exists "". now rewrite append_empty_r.
      - apply blank_is in Hc. subst c. exists (q ++ " ")%string.
        rewrite !append_assoc. reflexivity. }
    destruct Hp as [post' Hp].
    destruct Hpre as [-> | [p [c [-> Hc]]]].
    + exists "", post'. simpl. f_equal. rewrite Hp, append_assoc. reflexivity.
    + apply blank_is in Hc. subst c. exists (" " ++ p)%string, post'.
      simpl. f_equal. rewrite !append_assoc. f_equal. simpl. f_equal.
      rewrite <- (append_assoc keyword post). rewrite Hp. reflexivity.
Qed.

(** A whole-word match is in particular a match. *)
Lemma occurs_as_word_occurs delim keyword text :
  occurs_as_word delim keyword text -> occurs keyword text.
Proof. intros [pre [post [H _]]]. exists pre, post. exact H. Qed.

(** The weight of one keyword is the one the specification describes, for
    words bounded by space characters. *)
Lemma keyword_weight_spec (text_lower keyword : string) :
  weight_spec is_blank text_lower keyword (keyword_weight text_lower keyword).
Proof.
  unfold weight_spec, keyword_weight.
  destruct (contains keyword text_lower) eqn:Hsub;
    [destruct (contains (" " ++ keyword ++ " ") (" " ++ text_lower ++ " ")) eqn:Hword|].
  - repeat split; try reflexivity.
    + intros _ Hn. exfalso. apply Hn. now apply padded_contains_iff.
    + intros Hn. exfalso. apply Hn. now apply contains_iff.
  - repeat split; try reflexivity.
    + intros Hw. apply padded_contains_iff in Hw. congruence.
    + intros Hn. exfalso. apply Hn. now apply contains_iff.
  - repeat split; try reflexivity.
    + intros Hw. apply occurs_as_word_occurs, contains_iff in Hw. congruence.
    + intros Ho. apply contains_iff in Ho. congruence.
Qed.

(** For space-bounded words the specified weight is the computed one. *)
Lemma weight_spec_unique (text_lower keyword : string) (w : Z) :
  weight_spec is_blank text_lower keyword w ->
  w = keyword_weight text_lower keyword.
Proof.
  intros [A [B C]]. unfold keyword_weight.
  destruct (contains keyword text_lower) eqn:Hsub;
    [destruct (contains (" " ++ keyword ++ " ") (" " ++ text_lower ++ " ")) eqn:Hword|].
  - apply A. now apply padded_contains_iff.
  - apply B; [now apply contains_iff|].
    intros Hw. apply padded_contains_iff in Hw. congruence.
  - apply C. intros Ho. apply contains_iff in Ho. congruence.
Qed.

Lemma fold_left_add_shift (f : string -> Z) (l : list string) (a : Z) :
  fold_left (fun score k => (score + f k)%Z) l a = (a + sum_Z (map f l))%Z.
Proof.
  revert a; induction l as [|k l IH]; intros a; simpl; [lia|].
  rewrite IH. lia.
Qed.

(** The inner loop adds up the weights. *)
Lemma theme_score_sum (text_lower : string) (keywords : list string) :
  theme_score text_lower keywords
  = sum_Z (map (keyword_weight text_lower) keywords).
Proof. unfold theme_score. rewrite fold_left_add_shift. lia. Qed.

Lemma is_score_iff (text_lower : string) (keywords : list string) (s : Z) :
  is_score is_blank text_lower keywords s
  <-> s = theme_score text_lower keywords.
Proof.
  rewrite theme_score_sum. split.
  - intros [weights [HF ->]]. f_equal.
    induction HF as [|k w ks ws Hw _ IH]; simpl; [reflexivity|].
    now rewrite (weight_spec_unique _ _ _ Hw), IH.
  - intros ->. exists (map (keyword_weight text_lower) keywords).
    split; [|reflexivity].
    induction keywords; simpl; constructor; auto using keyword_weight_spec.
Qed.

Lemma keyword_weight_range (text_lower keyword : string) :
  (0 <= keyword_weight text_lower keyword <= 2)%Z.
Proof.
  unfold keyword_weight.
  destruct (contains keyword text_lower);
    [destruct (contains _ _)|]; lia.
Qed.

Lemma theme_score_range (text_lower : string) (keywords : list string) :
  (0 <= theme_score text_lower keywords
   <= 2 * Z.of_nat (List.length keywords))%Z.
Proof.
  rewrite theme_score_sum.
  induction keywords as [|k ks IH]; simpl List.length; simpl map; simpl sum_Z.
  - lia.
  - pose proof (keyword_weight_range text_lower k). lia.
Qed.

(** [theme_scores] holds exactly the themes of positive score. *)
Lemma score_themes_In taxonomy text_lower theme s :
  In (theme, s) (score_themes taxonomy text_lower)
  <-> exists keywords,
      In (theme, keywords) taxonomy
      /\ s = theme_score text_lower keywords /\ (0 < s)%Z.
Proof.
  induction taxonomy as [|[t ks] rest IH]; simpl.
  - split; [tauto | intros [? [[] _]]].
  - destruct (0 <? theme_score text_lower ks)%Z eqn:Hpos.
    + simpl. rewrite IH. apply Z.ltb_lt in Hpos. split.
      * intros [E | [k [Hin Hk]]].
        -- injection E as <- <-. exists ks. auto.
        -- exists k. auto.
      * intros [k [[E | Hin] [Hs Hp]]].
        -- injection E as <- <-. left. now subst s.
        -- right. exists k. auto.
    + rewrite IH. apply Z.ltb_ge in Hpos. split.
      * intros [k [Hin Hk]]. exists k. auto.
      * intros [k [[E | Hin] [Hs Hp]]].
        -- injection E as <- <-. lia.
        -- exists k. auto.
Qed.

Lemma fold_max_ge (l : list (string * Z)) (a : Z) :
  (a <= fold_left (fun m kv => Z.max m (snd kv)) l a)%Z
  /\ (forall kv, In kv l ->
                 (snd kv <= fold_left (fun m kv => Z.max m (snd kv)) l a)%Z).
Proof.
  revert a; induction l as [|x l IH]; intros a; simpl.
  - split; [lia | tauto].
  - destruct (IH (Z.max a (snd x))) as [H1 H2]. split; [lia|].
    intros kv [<- | Hin]; [lia | auto].
Qed.

Lemma fold_max_attained (l : list (string * Z)) (a : Z) :
  fold_left (fun m kv => Z.max m (snd kv)) l a = a
  \/ exists kv, In kv l
                /\ snd kv = fold_left (fun m kv => Z.max m (snd kv)) l a.
Proof.
  revert a; induction l as [|x l IH]; intros a; simpl; [now left|].
  destruct (IH (Z.max a (snd x))) as [E | [kv [Hin E]]].
  - rewrite E. destruct (Z.max_spec a (snd x)) as [[_ ->] | [_ ->]].
    + right. exists x. auto.
    + now left.
  - right. exists kv. auto.
Qed.

(** [max(theme_scores.values())] is a value of the dict and bounds them
    all. *)
Lemma max_value_spec (d : dict Z) :
  d <> [] ->
  (exists k, In (k, max_value d) d)
  /\ (forall k v, In (k, v) d -> (v <= max_value d)%Z).
Proof.
  destruct d as [|[k0 v0] rest]; [congruence|]. intros _.
  unfold max_value. split.
  - destruct (fold_max_attained rest v0) as [E | [[k v] [Hin E]]].
    + rewrite E. exists k0. now left.
    + simpl in E. rewrite <- E. exists k. now right.
  - intros k v [E | Hin].
    + injection E as _ <-. apply fold_max_ge.
    + apply (proj2 (fold_max_ge rest v0) (k, v) Hin).
Qed.

(** *** The threshold test in binary64 arithmetic *)

Lemma threshold_table_true : threshold_table = true.
Proof. vm_compute. reflexivity. Qed.

Lemma passes_default (s m : Z) :
  (1 <= s <= 22)%Z -> (1 <= m <= 22)%Z ->
  passes default_threshold s m = (m <=? 10 * s)%Z.
Proof.
  intros Hs Hm. pose proof threshold_table_true as T.
  unfold threshold_table in T. rewrite forallb_forall in T.
  specialize (T (Z.to_nat s)). rewrite forallb_forall in T.
  assert (Is : In (Z.to_nat s) (seq 1 22)) by (apply in_seq; lia).
  assert (Im : In (Z.to_nat m) (seq 1 22)) by (apply in_seq; lia).
  specialize (T Is (Z.to_nat m) Im).
  rewrite !Z2Nat.id in T by lia. now apply Bool.eqb_prop in T.
Qed.

Lemma ratio_ge_tenth (s m : Z) :
  (0 < m)%Z -> ((1 # 10 <= inject_Z s / inject_Z m)%Q <-> (m <= 10 * s)%Z).
Proof.
  intros Hm. destruct m as [|p|p]; try lia.
  unfold Qle, Qdiv, Qmult, Qinv, inject_Z. cbn [Qnum Qden Pos.mul]. lia.
Qed.

Lemma taxonomy_keywords_short theme keywords :
  In (theme, keywords) theme_keywords -> (List.length keywords <= 11)%nat.
Proof.
  unfold theme_keywords. simpl.
  intros H. repeat (destruct H as [H | H]; [injection H as _ <-; simpl; lia|]).
  destruct H.
Qed.

Lemma taxonomy_names_NoDup : NoDup (map fst theme_keywords).
Proof.
  unfold theme_keywords. simpl.
  repeat (constructor; [simpl; intros H;
                        repeat (destruct H as [H | H]; [discriminate|]); exact H|]).
  constructor.
Qed.

Lemma is_max_score_iff (text_lower : string) (m : Z) :
  score_themes theme_keywords text_lower <> [] ->
  (is_max_score is_blank theme_keywords text_lower m
   <-> m = max_value (score_themes theme_keywords text_lower)).
Proof.
  intros Hne. destruct (max_value_spec _ Hne) as [[k Hk] Hub].
  apply score_themes_In in Hk. destruct Hk as [ks [Hin [Hs Hpos]]].
  split.
  - intros [[t [ks' [Hin' Hs']]] Hall].
    apply is_score_iff in Hs'.
    assert (H1 : (max_value (score_themes theme_keywords text_lower) <= m)%Z).
    { apply (Hall k ks); [exact Hin|]. apply is_score_iff. exact Hs. }
    assert (H2 : (m <= max_value (score_themes theme_keywords text_lower))%Z).
    { apply (Hub t). apply score_themes_In. exists ks'. repeat split; auto. lia. }
    lia.
  - intros ->. split.
    + exists k, ks. split; [exact Hin|]. apply is_score_iff. exact Hs.
    + intros t ks' sc Hin' Hsc. apply is_score_iff in Hsc.
      destruct (Z_lt_le_dec 0 sc) as [Hp|Hp]; [|lia].
      apply (Hub t). apply score_themes_In. exists ks'. auto.
Qed.

Lemma classify_In (text : string) (theme : string) :
  text <> "" ->
  (In theme (classify (Text text))
   <-> exists s,
      In (theme, s) (score_themes theme_keywords (lower text))
      /\ passes default_threshold s
           (max_value (score_themes theme_keywords (lower text))) = true).
Proof.
  intros Hne. unfold classify, classify_review_themes, classify_with.
  destruct text as [|c r]; [congruence|].
  set (ts := score_themes theme_keywords (lower (String c r))).
  assert (Hgen : In theme (map fst (filter (fun x => passes default_threshold (snd x) (max_value ts)) ts))
                 <-> exists s, In (theme, s) ts
                               /\ passes default_threshold s (max_value ts) = true).
  { rewrite in_map_iff. split.
    - intros [[t s] [E Hin]]. simpl in E. subst t.
      apply filter_In in Hin. exists s. exact Hin.
    - intros [s [Hin Hp]]. exists (theme, s). split; [reflexivity|].
      apply filter_In. auto. }
  destruct ts as [|x ts'] eqn:Ets; [|exact Hgen].
  split; [intros [] | intros [s [[] _]]].
Qed.

Lemma score_themes_bounds (text_lower theme : string) (s : Z) :
  In (theme, s) (score_themes theme_keywords text_lower) ->
  (1 <= s <= 22)%Z.
Proof.
  intros H. apply score_themes_In in H. destruct H as [ks [Hin [-> Hpos]]].
  pose proof (theme_score_range text_lower ks).
  pose proof (taxonomy_keywords_short _ _ Hin). lia.
Qed.

(** C1, as amended: for every non-empty text and the fixed taxonomy, the
    score the classifier computes for a theme is the sum over the theme's
    keywords of 2 for a keyword that occurs in the lowercased text as a
    whole word bounded by space characters (U+0020) or the ends of the
    text, 1 for a keyword that occurs only as a substring, 0 otherwise;
    and a theme is returned exactly when its score is positive and, divided
    by the largest score of a theme, at least 0.1. *)
Theorem classify_scores_and_threshold (text : string) :
  text <> "" ->
  (forall theme keywords,
      In (theme, keywords) theme_keywords ->
      is_score is_blank (lower text) keywords
               (theme_score (lower text) keywords))
  /\ (forall theme,
         In theme (classify (Text text))
         <-> exists keywords score max_score,
             In (theme, keywords) theme_keywords
             /\ is_score is_blank (lower text) keywords score
             /\ (0 < score)%Z
             /\ is_max_score is_blank theme_keywords (lower text) max_score
             /\ (1 # 10 <= inject_Z score / inject_Z max_score)%Q).
Proof.
  intros Hne. split.
  - intros theme keywords _. now apply is_score_iff.
  - intros theme. rewrite (classify_In text theme Hne).
    set (ts := score_themes theme_keywords (lower text)). split.
    + intros [s [Hin Hpass]].
      assert (Hts : ts <> []) by (intros E; rewrite E in Hin; destruct Hin).
      destruct (max_value_spec ts Hts) as [[k Hk] Hub].
      pose proof (score_themes_bounds _ _ _ Hin) as Bs.
      pose proof (score_themes_bounds _ _ _ Hk) as Bm.
      pose proof Hin as Hin'. apply score_themes_In in Hin'.
      destruct Hin' as [ks [Hks [Hs Hpos]]].
      exists ks, s, (max_value ts).
      split; [exact Hks|]. split; [now apply is_score_iff|].
      split; [exact Hpos|]. split.
      * apply (proj2 (is_max_score_iff (lower text) (max_value ts) Hts) eq_refl).
      * apply ratio_ge_tenth; [lia|].
        rewrite (passes_default _ _ Bs Bm) in Hpass. now apply Z.leb_le.
    + intros [ks [s [m [Hks [Hs [Hpos [Hmax Hratio]]]]]]].
      apply is_score_iff in Hs.
      assert (Hin : In (theme, s) ts).
      { apply score_themes_In. exists ks. auto. }
      assert (Hts : ts <> []) by (intros E; rewrite E in Hin; destruct Hin).
      apply (is_max_score_iff (lower text) m Hts) in Hmax. fold ts in Hmax.
      destruct (max_value_spec ts Hts) as [[k Hk] Hub].
      pose proof (score_themes_bounds _ _ _ Hin) as Bs.
      pose proof (score_themes_bounds _ _ _ Hk) as Bm.
      exists s. split; [exact Hin|].
      rewrite (passes_default _ _ Bs Bm). apply Z.leb_le.
      rewrite <- Hmax. apply ratio_ge_tenth; [lia | exact Hratio].
Qed.

Lemma classify_scores_and_threshold_witness :
  "slow app" <> ""
  /\ exists keywords score max_score,
      In ("APP_PERFORMANCE", keywords) theme_keywords
      /\ is_score is_blank (lower "slow app") keywords score
      /\ (0 < score)%Z
      /\ is_max_score is_blank theme_keywords (lower "slow app") max_score
      /\ (1 # 10 <= inject_Z score / inject_Z max_score)%Q.
Proof.
  assert (Hne : "slow app" <> "") by discriminate.
  split; [exact Hne|].
  apply (proj1 (proj2 (classify_scores_and_threshold "slow app" Hne)
                      "APP_PERFORMANCE")).
  vm_compute. left. reflexivity.
Defined.

Lemma absent_weight delim text keyword w :
  contains keyword text = false ->
  weight_spec delim text keyword w -> w = 0%Z.
Proof.
  intros Hc [_ [_ C]]. apply C. intros Ho. apply contains_iff in Ho. congruence.
Qed.

Lemma word_weight_two delim text keyword :
  occurs_as_word delim keyword text -> weight_spec delim text keyword 2%Z.
Proof.
  intros Hw. split; [reflexivity|]. split.
  - intros _ Hn. contradiction.
  - intros Hn. exfalso. apply Hn. apply (occurs_as_word_occurs _ _ _ Hw).
Qed.

Lemma absent_weight_zero delim text keyword :
  contains keyword text = false -> weight_spec delim text keyword 0%Z.
Proof.
  intros Hc.
  assert (Hn : ~ occurs keyword text).
  { intros Ho. apply contains_iff in Ho. congruence. }
  split; [|split].
  - intros Hw. exfalso. apply Hn. apply (occurs_as_word_occurs _ _ _ Hw).
  - intros Ho. contradiction.
  - reflexivity.
Qed.

Lemma occurs_as_word_mono (d1 d2 : ascii -> bool) keyword text :
  (forall c, d1 c = true -> d2 c = true) ->
  occurs_as_word d1 keyword text -> occurs_as_word d2 keyword text.
Proof.
  intros Hd [pre [post [E [Hpre Hpost]]]]. exists pre, post.
  split; [exact E|]. split.
  - destruct Hpre as [-> | [p [c [-> Hc]]]]; [now left|].
    right. exists p, c. auto.
  - destruct Hpost as [-> | [c [q [-> Hc]]]]; [now left|].
    right. exists c, q. auto.
Qed.

Lemma blank_is_space (c : ascii) : is_blank c = true -> is_space c = true.
Proof. intros H. apply blank_is in H. now subst. Qed.

(** A word the padded test finds is a whitespace-bounded word. *)
Lemma padded_word_is_space_bounded keyword text :
  contains (" " ++ keyword ++ " ") (" " ++ text ++ " ") = true ->
  occurs_as_word is_space keyword text.
Proof.
  intros H. apply (occurs_as_word_mono is_blank); [exact blank_is_space|].
  now apply padded_contains_iff.
Qed.

(** Determines the weights in a hypothesis [Forall2 (weight_spec ...)]:
    2 for a keyword with a whole-word occurrence among the hypotheses, 0
    for a keyword that the text does not contain. *)
Ltac stated_weights :=
  repeat match goal with
         | H : Forall2 _ (_ :: _) _ |- _ => inversion H; subst; clear H
         | H : Forall2 _ [] _ |- _ => inversion H; subst; clear H
         end;
  repeat match goal with
         | H : weight_spec _ ?t ?k _, Hw : occurs_as_word _ ?k ?t |- _ =>
             rewrite (proj1 H Hw) in *; clear H
         | H : weight_spec _ ?t ?k _ |- _ =>
             rewrite (absent_weight _ t k _ ltac:(vm_compute; reflexivity) H) in *;
             clear H
         end.

(** C1 as stated fails.  In ["slow fast speed loading crash freeze<TAB>error"]
    the keyword "error" is a whole word bounded by whitespace (a tab and the
    end of the text), and so is "freeze": as stated, RELIABILITY_ISSUES
    scores 2 and APP_PERFORMANCE 12, and 2/12 >= 0.1 puts RELIABILITY_ISSUES
    in the result.  The classifier's padded test only sees space characters:
    it scores 1 and 11, and returns APP_PERFORMANCE alone. *)
Lemma tab_bounded_keyword_changes_result :
  six_words_tab_error <> ""
  /\ theme_score (lower six_words_tab_error) performance_keywords = 11%Z
  /\ theme_score (lower six_words_tab_error) reliability_keywords = 1%Z
  /\ classify (Text six_words_tab_error) = ["APP_PERFORMANCE"]
  /\ In ("RELIABILITY_ISSUES", reliability_keywords) theme_keywords
  /\ is_score is_space (lower six_words_tab_error) reliability_keywords 2%Z
  /\ is_max_score is_space theme_keywords (lower six_words_tab_error) 12%Z
  /\ ~ (In "RELIABILITY_ISSUES" (classify (Text six_words_tab_error))
        <-> exists keywords score max_score,
            In ("RELIABILITY_ISSUES", keywords) theme_keywords
            /\ is_score is_space (lower six_words_tab_error) keywords score
            /\ (0 < score)%Z
            /\ is_max_score is_space theme_keywords
                 (lower six_words_tab_error) max_score
            /\ (1 # 10 <= inject_Z score / inject_Z max_score)%Q).
Proof.
  set (t := lower six_words_tab_error).
  assert (Hslow : occurs_as_word is_space "slow" t)
    by (apply padded_word_is_space_bounded; vm_compute; reflexivity).
  assert (Hfast : occurs_as_word is_space "fast" t)
    by (apply padded_word_is_space_bounded; vm_compute; reflexivity).
  assert (Hspeed : occurs_as_word is_space "speed" t)
    by (apply padded_word_is_space_bounded; vm_compute; reflexivity).
  assert (Hloading : occurs_as_word is_space "loading" t)
    by (apply padded_word_is_space_bounded; vm_compute; reflexivity).
  assert (Hcrash : occurs_as_word is_space "crash" t)
    by (apply padded_word_is_space_bounded; vm_compute; reflexivity).
  assert (Hfreeze : occurs_as_word is_space "freeze" t).
  { exists "slow fast speed loading crash ", (String tab "error").
    split; [reflexivity|]. split; right.
    - exists "slow fast speed loading crash", " "%char. split; reflexivity.
    - exists tab, "error". split; reflexivity. }
  assert (Herror : occurs_as_word is_space "error" t).
  { exists ("slow fast speed loading crash freeze" ++ String tab "")%string, "".
    split; [reflexivity|]. split; [right | now left].
    exists "slow fast speed loading crash freeze", tab. split; reflexivity. }
  assert (Hstated : forall theme keywords score,
             In (theme, keywords) theme_keywords ->
             is_score is_space t keywords score ->
             (theme = "APP_PERFORMANCE" /\ score = 12%Z)
             \/ (theme = "RELIABILITY_ISSUES" /\ score = 2%Z)
             \/ score = 0%Z).
  { intros theme keywords score Hin [weights [HF ->]].
    unfold theme_keywords in Hin. cbn [In] in Hin.
    repeat (destruct Hin as [E | Hin];
            [injection E as <- <-; stated_weights; vm_compute; auto|]).
    destruct Hin. }
  assert (Hperf : is_score is_space t performance_keywords 12%Z).
  { exists [2; 2; 2; 2; 2; 2; 0; 0; 0; 0; 0]%Z. split; [|reflexivity].
    unfold performance_keywords.
    repeat (constructor; [apply word_weight_two; assumption|]).
    repeat (constructor; [apply absent_weight_zero; vm_compute; reflexivity|]).
    constructor. }
  assert (Hrel : is_score is_space t reliability_keywords 2%Z).
  { exists [2; 0; 0; 0; 0; 0; 0; 0; 0; 0; 0]%Z. split; [|reflexivity].
    unfold reliability_keywords.
    constructor; [apply word_weight_two; assumption|].
    repeat (constructor; [apply absent_weight_zero; vm_compute; reflexivity|]).
    constructor. }
  assert (Hmax : is_max_score is_space theme_keywords t 12%Z).
  { split.
    - exists "APP_PERFORMANCE", performance_keywords. split; [now left | exact Hperf].
    - intros theme keywords score Hin Hs.
      destruct (Hstated theme keywords score Hin Hs) as [[_ ->] | [[_ ->] | ->]]; lia. }
  assert (Hres : classify (Text six_words_tab_error) = ["APP_PERFORMANCE"])
    by (vm_compute; reflexivity).
  split; [discriminate|]. split; [vm_compute; reflexivity|].
  split; [vm_compute; reflexivity|]. split; [exact Hres|].
  split; [right; now left|]. split; [exact Hrel|]. split; [exact Hmax|].
  intros [_ Hback].
  assert (Hin : In "RELIABILITY_ISSUES" (classify (Text six_words_tab_error))).
  { apply Hback. exists reliability_keywords, 2%Z, 12%Z.
    split; [right; now left|]. split; [exact Hrel|]. split; [lia|].
    split; [exact Hmax|]. unfold Qle. simpl. lia. }
  rewrite Hres in Hin. destruct Hin as [E | []]. discriminate E.
Qed.

(** C9: for the text "app is slow and keeps crashing" the classifier, with
    the fixed taxonomy and the default threshold, returns APP_PERFORMANCE:
    "slow" is a whole word (weight 2), "crash" occurs only inside
    "crashing" (weight 1). *)
Theorem slow_and_crashing_is_performance :
  In "APP_PERFORMANCE" (classify (Text "app is slow and keeps crashing"))
  /\ occurs_as_word is_blank "slow" (lower "app is slow and keeps crashing")
  /\ keyword_weight (lower "app is slow and keeps crashing") "slow" = 2%Z
  /\ occurs "crash" (lower "app is slow and keeps crashing")
  /\ ~ occurs_as_word is_blank "crash" (lower "app is slow and keeps crashing")
  /\ keyword_weight (lower "app is slow and keeps crashing") "crash" = 1%Z.
Proof.
  split; [vm_compute; left; reflexivity|].
  split; [apply padded_contains_iff; reflexivity|].
  split; [reflexivity|].
  split; [apply contains_iff; reflexivity|].
  split; [|reflexivity].
  intros H. apply padded_contains_iff in H. discriminate H.
Qed.

(** *** Order of the returned themes *)

Lemma subseq_incl {A} (l L : list A) : subseq l L -> incl l L.
Proof.
  induction 1 as [L | x l L _ IH | x l L _ IH]; intros y Hy.
  - destruct Hy.
  - destruct Hy as [<- | Hy]; [now left | right; auto].
  - right. auto.
Qed.

Lemma existsb_eqb_In (x : string) (l : list string) :
  existsb (String.eqb x) l = true <-> In x l.
Proof.
  rewrite existsb_exists. split.
  - intros [y [Hy E]]. apply String.eqb_eq in E. now subst.
  - intros H. exists x. split; [exact H | apply String.eqb_refl].
Qed.

(** A duplicate-free list has one enumeration of each of its subsets in
    its own order. *)
Lemma subseq_is_filter (l L : list string) :
  NoDup L -> subseq l L ->
  l = filter (fun t => existsb (String.eqb t) l) L.
Proof.
  intros HL Hs. induction Hs as [L | x l L Hs IH | x l L Hs IH].
  - induction L as [|y L IHL]; simpl; [reflexivity|].
    apply IHL. now inversion HL.
  - inversion HL as [|? ? Hx HL']; subst. simpl.
    rewrite String.eqb_refl. simpl. f_equal.
    rewrite (IH HL') at 1. apply filter_ext_in. intros y Hy.
    destruct (String.eqb y x) eqn:E; [|reflexivity].
    apply String.eqb_eq in E. subst y. contradiction.
  - inversion HL as [|? ? Hx HL']; subst. simpl.
    destruct (existsb (String.eqb x) l) eqn:E; [|auto].
    apply existsb_eqb_In in E. apply (subseq_incl _ _ Hs) in E. contradiction.
Qed.

Lemma score_themes_subseq taxonomy text_lower :
  subseq (map fst (score_themes taxonomy text_lower)) (map fst taxonomy).
Proof.
  induction taxonomy as [|[t ks] rest IH]; simpl; [constructor|].
  destruct (0 <? theme_score text_lower ks)%Z; simpl; now constructor.
Qed.

Lemma filter_subseq {A} (f : A -> bool) (g : A -> string) (l : list A) :
  subseq (map g (filter f l)) (map g l).
Proof.
  induction l as [|x l IH]; simpl; [constructor|].
  destruct (f x); simpl; now constructor.
Qed.

Lemma subseq_trans {A} (a b c : list A) :
  subseq a b -> subseq b c -> subseq a c.
Proof.
  intros Hab Hbc. revert a Hab.
  induction Hbc as [L | x l L _ IH | x l L _ IH]; intros a Hab.
  - inversion Hab; subst. constructor.
  - inversion Hab; subst.
    + constructor.
    + constructor. auto.
    + apply subseq_skip. auto.
  - apply subseq_skip. auto.
Qed.

Lemma classify_subseq taxonomy text threshold :
  subseq (classify_with taxonomy text threshold) (map fst taxonomy).
Proof.
  unfold classify_with. destruct text as [|t]; [constructor|].
  destruct t as [|c r]; [constructor|].
  destruct (score_themes taxonomy (lower (String c r))) eqn:E; [constructor|].
  rewrite <- E. eapply subseq_trans; [apply filter_subseq | apply score_themes_subseq].
Qed.

(** C8: the classifier is a function of the text and the threshold alone
    (it reads nothing but the constant taxonomy), and the list it returns
    is its set of themes enumerated in taxonomy insertion order, whatever
    their scores: in "slow transfer payment" TRANSACTIONS scores 4 and
    APP_PERFORMANCE 2, and APP_PERFORMANCE still comes first. *)
Theorem classify_in_taxonomy_order (text : cell) (threshold : float) :
  let themes := classify_review_themes text threshold in
  map fst theme_keywords = taxonomy_order
  /\ NoDup themes
  /\ themes = filter (fun t => existsb (String.eqb t) themes) taxonomy_order
  /\ score_themes theme_keywords (lower "slow transfer payment")
     = [("APP_PERFORMANCE", 2%Z); ("TRANSACTIONS", 4%Z)]
  /\ classify (Text "slow transfer payment")
     = ["APP_PERFORMANCE"; "TRANSACTIONS"].
Proof.
  intros themes.
  assert (Hs : subseq themes taxonomy_order).
  { apply (classify_subseq theme_keywords text threshold). }
  assert (Hnd : NoDup taxonomy_order) by apply taxonomy_names_NoDup.
  split; [reflexivity|]. split; [|split; [|split]].
  - rewrite (subseq_is_filter _ _ Hnd Hs). now apply NoDup_filter.
  - apply (subseq_is_filter _ _ Hnd Hs).
  - vm_compute. reflexivity.
  - vm_compute. reflexivity.
Qed.

End ThemeFacts.

(** ** Blank text *)

Section BlankText.
Import PyStr ThemeAnalyzer WordMatch SentimentAnalyzer Cases.

Lemma all_space_cons (c : ascii) (r : string) :
  all_space (String c r) = true -> is_space c = true /\ all_space r = true.
Proof.
  unfold all_space. simpl. destruct (is_space c); [auto | discriminate].
Qed.

Lemma all_space_strip (text : string) :
  all_space text = true -> strip text = "".
Proof.
  unfold strip, all_space. destruct (lstrip text); [reflexivity | discriminate].
Qed.

Lemma space_not_upper (c : ascii) : is_space c = true -> is_upper c = false.
Proof.
  unfold is_space, is_upper, in_range. intros H.
  apply orb_true_iff in H.
  destruct H as [H | H]; apply andb_true_iff in H; destruct H as [_ H];
    apply Nat.leb_le in H; apply andb_false_iff; left; apply Nat.leb_gt; lia.
Qed.

Lemma lower_all_space (text : string) :
  all_space text = true -> lower text = text.
Proof.
  induction text as [|c r IH]; [reflexivity|]. intros H.
  apply all_space_cons in H. destruct H as [Hc Hr]. simpl.
  unfold lower_char. rewrite (space_not_upper c Hc). now rewrite IH.
Qed.

(** A keyword that begins with a visible character does not occur in blank
    text. *)
Lemma contains_all_space (text : string) (c : ascii) (k : string) :
  is_space c = false -> all_space text = true ->
  contains (String c k) text = false.
Proof.
  intros Hc. induction text as [|c' r IH]; intros H; [reflexivity|].
  apply all_space_cons in H. destruct H as [Hc' Hr].
  cbn [contains prefix]. destruct (ascii_dec c c') as [->|Hne]; [congruence|].
  simpl. now apply IH.
Qed.

Lemma taxonomy_keywords_visible :
  forallb (fun tk => forallb starts_visible (snd tk)) theme_keywords = true.
Proof. vm_compute. reflexivity. Qed.

Lemma blank_theme_score (text : string) (keywords : list string) :
  forallb starts_visible keywords = true -> all_space text = true ->
  theme_score text keywords = 0%Z.
Proof.
  intros Hk Ht. rewrite theme_score_sum.
  induction keywords as [|kw ks IH]; [reflexivity|].
  simpl in Hk. apply andb_true_iff in Hk. destruct Hk as [Hv Hks].
  simpl. rewrite (IH Hks). unfold keyword_weight.
  destruct kw as [|c k]; [discriminate|]. simpl in Hv.
  apply negb_true_iff in Hv. now rewrite (contains_all_space text c k Hv Ht).
Qed.

Lemma blank_score_themes (taxonomy : dict (list string)) (text : string) :
  forallb (fun tk => forallb starts_visible (snd tk)) taxonomy = true ->
  all_space text = true ->
  score_themes taxonomy text = [].
Proof.
  intros Hk Ht. induction taxonomy as [|[t ks] rest IH]; [reflexivity|].
  simpl in Hk. apply andb_true_iff in Hk. destruct Hk as [Hks Hrest].
  simpl. rewrite (blank_theme_score text ks Hks Ht). simpl. auto.
Qed.

(** The theme classifier returns no theme for empty or whitespace-only
    text. *)
Lemma classify_blank (text : string) (threshold : float) :
  all_space text = true -> classify_review_themes (Text text) threshold = [].
Proof.
  intros Ht. unfold classify_review_themes, classify_with.
  destruct text as [|c r]; [reflexivity|].
  rewrite (lower_all_space _ Ht).
  now rewrite (blank_score_themes theme_keywords _ taxonomy_keywords_visible Ht).
Qed.

(** With the transformer loaded, blank text is answered by the guard: no
    analyzer is called. *)
Lemma primary_blank (B : Backends) (text : string) :
  all_space text = true ->
  SentimentAnalyzer.classify primary B text = (("NEUTRAL", 1 # 2), []).
Proof.
  intros Ht. unfold SentimentAnalyzer.classify, analyze_one, primary. simpl.
  unfold analyze_sentiment_distilbert.
  rewrite (all_space_strip _ Ht). simpl. now rewrite orb_true_r.
Qed.

(** With no analyzer at all every text is neutral and nothing is called. *)
Lemma no_analyzer_any (B : Backends) (text : string) :
  SentimentAnalyzer.classify no_analyzer B text = (("NEUTRAL", 1 # 2), []).
Proof. reflexivity. Qed.

(** C3, where the code departs from it: under the TextBlob strategy there is
    no guard for blank text.  Every text, the empty string included, is
    passed to the lexicon analyzer, and the label and score are whatever its
    polarity gives: a lexicon that reports polarity 1 makes the empty string
    POSITIVE.  The other two strategies and the theme classifier do what the
    claim says. *)
Theorem lexicon_strategy_calls_textblob_on_empty (B : Backends) :
  (forall text, snd (SentimentAnalyzer.classify lexicon B text) = [CallTextBlob text])
  /\ snd (SentimentAnalyzer.classify lexicon B "") = [CallTextBlob ""]
  /\ fst (SentimentAnalyzer.classify lexicon full_polarity "")
     = ("POSITIVE", (1 + 1) / 2)%Q
  /\ SentimentAnalyzer.classify primary B "" = (("NEUTRAL", 1 # 2), [])
  /\ SentimentAnalyzer.classify no_analyzer B "" = (("NEUTRAL", 1 # 2), [])
  /\ ThemeAnalyzer.classify (Text "") = [].
Proof.
  assert (H : forall text,
             snd (SentimentAnalyzer.classify lexicon B text) = [CallTextBlob text]).
  { intros text.
    unfold SentimentAnalyzer.classify, analyze_one, lexicon, analyze_sentiment_textblob.
    cbn [model_loaded use_textblob bind invoke].
    destruct (Pandas.Qgtb _ _); [reflexivity|].
    destruct (Pandas.Qgtb _ _); reflexivity. }
  split; [exact H|]. split; [apply H|]. repeat split.
Qed.

(** ** The lexicon fallback *)

Lemma Qgtb_true (x y : Q) : Pandas.Qgtb x y = true <-> (y < x)%Q.
Proof.
  unfold Pandas.Qgtb. rewrite negb_true_iff. split.
  - intros H. apply Qnot_le_lt. intros Hle. apply Qle_bool_iff in Hle. congruence.
  - intros H. destruct (Qle_bool x y) eqn:E; [|reflexivity].
    apply Qle_bool_iff in E. exfalso. apply (Qlt_not_le _ _ H E).
Qed.

Lemma Qgtb_false (x y : Q) : Pandas.Qgtb x y = false <-> (x <= y)%Q.
Proof.
  unfold Pandas.Qgtb. rewrite negb_false_iff. apply Qle_bool_iff.
Qed.

(** C4: when the transformer is unavailable and TextBlob is, a text whose
    polarity [p] lies in [-1, 1] is POSITIVE with score (p + 1) / 2 when
    p > 0.1, NEGATIVE with score (1 - p) / 2 when p < -0.1, NEUTRAL with
    score 0.5 otherwise; so the label is one of the three and the score lies
    in [0, 1].  (Exact rational arithmetic.) *)
Theorem textblob_fallback_contract (B : Backends) (text : string) :
  (-1 <= polarity B text <= 1)%Q ->
  let p := polarity B text in
  let result := fst (SentimentAnalyzer.classify lexicon B text) in
  ((1 # 10 < p)%Q -> result = ("POSITIVE", (p + 1) / 2)%Q)
  /\ ((p < - (1 # 10))%Q -> result = ("NEGATIVE", (1 - p) / 2)%Q)
  /\ ((- (1 # 10) <= p <= 1 # 10)%Q -> result = ("NEUTRAL", 1 # 2))
  /\ In (fst result) ["POSITIVE"; "NEGATIVE"; "NEUTRAL"]
  /\ (0 <= snd result <= 1)%Q.
Proof.
  intros Hp. cbv zeta.
  unfold SentimentAnalyzer.classify, analyze_one, lexicon, analyze_sentiment_textblob.
  cbn [model_loaded use_textblob bind invoke].
  set (p := polarity B text) in *. clearbody p.
  destruct (Pandas.Qgtb p (1 # 10)) eqn:E1;
    [|destruct (Pandas.Qgtb (- (1 # 10)) p) eqn:E2]; cbn [ret fst snd].
  - apply Qgtb_true in E1. split; [reflexivity|].
    split; [intros H; exfalso; lra|]. split; [intros [_ H]; exfalso; lra|].
    split; [simpl; auto|].
    unfold Qdiv; change (/ 2)%Q with (1 # 2)%Q; split; lra.
  - apply Qgtb_false in E1. apply Qgtb_true in E2.
    split; [intros H; exfalso; lra|]. split; [reflexivity|].
    split; [intros [H _]; exfalso; lra|].
    split; [simpl; auto|].
    unfold Qdiv; change (/ 2)%Q with (1 # 2)%Q; split; lra.
  - apply Qgtb_false in E1. apply Qgtb_false in E2.
    split; [intros H; exfalso; lra|]. split; [intros H; exfalso; lra|].
    split; [reflexivity|].
    split; [simpl; auto|].
    unfold Qdiv; change (/ 2)%Q with (1 # 2)%Q; split; lra.
Qed.

Lemma textblob_fallback_contract_witness :
  (-1 <= polarity half_polarity "great app" <= 1)%Q
  /\ fst (SentimentAnalyzer.classify lexicon half_polarity "great app")
     = ("POSITIVE", ((1 # 2) + 1) / 2)%Q.
Proof.
  assert (H : (-1 <= polarity half_polarity "great app" <= 1)%Q)
    by (split; discriminate).
  split; [exact H|].
  exact (proj1 (textblob_fallback_contract half_polarity "great app" H) eq_refl).
Defined.

End BlankText.

(** ** Counting *)

Section CountingFacts.
Import Pandas.
Context {K : Type} (eqb : K -> K -> bool).
Hypothesis eqb_eq : forall x y, eqb x y = true <-> x = y.

Lemma eqb_refl' (x : K) : eqb x x = true.
Proof. now apply eqb_eq. Qed.

Lemma eqb_neq' (x y : K) : eqb x y = false <-> x <> y.
Proof.
  destruct (eqb x y) eqn:E.
  - apply eqb_eq in E. split; [discriminate | congruence].
  - split; [|reflexivity]. intros _ H. apply eqb_eq in H. congruence.
Qed.

Lemma unique_In (x : K) (l : list K) : In x (unique eqb l) <-> In x l.
Proof.
  induction l as [|y l IH]; simpl; [tauto|].
  rewrite filter_In, IH, negb_true_iff, eqb_neq'. split.
  - intros [E | [H _]]; auto.
  - intros [E | H]; [auto|].
    destruct (eqb x y) eqn:E; [left; symmetry; now apply eqb_eq|].
    right. split; [exact H | now apply eqb_neq'].
Qed.

Lemma unique_NoDup (l : list K) : NoDup (unique eqb l).
Proof.
  induction l as [|y l IH]; simpl; constructor.
  - rewrite filter_In, negb_true_iff, eqb_neq'. intros [_ H]. now apply H.
  - now apply NoDup_filter.
Qed.

Lemma insert_desc_perm (x : K * Z) (l : list (K * Z)) :
  Permutation (insert_desc x l) (x :: l).
Proof.
  induction l as [|y l IH]; simpl; [reflexivity|].
  destruct (snd y <=? snd x)%Z; [reflexivity|].
  rewrite IH. apply perm_swap.
Qed.

Lemma sort_desc_perm (l : list (K * Z)) : Permutation (sort_desc l) l.
Proof.
  induction l as [|x l IH]; simpl; [reflexivity|].
  rewrite insert_desc_perm. now constructor.
Qed.

(** An entry of [value_counts] is a value that occurs, with the number of
    its occurrences. *)
Lemma value_counts_In (k : K) (c : Z) (l : list K) :
  In (k, c) (value_counts eqb l) <-> In k l /\ c = count eqb k l.
Proof.
  unfold value_counts. split.
  - intros H. apply (Permutation_in _ (sort_desc_perm _)) in H.
    apply in_map_iff in H. destruct H as [k' [E H]]. injection E as -> <-.
    split; [now apply unique_In | reflexivity].
  - intros [H ->]. apply (Permutation_in _ (Permutation_sym (sort_desc_perm _))).
    apply in_map_iff. exists k. split; [reflexivity | now apply unique_In].
Qed.

Lemma value_counts_keys (l : list K) :
  Permutation (map fst (value_counts eqb l)) (unique eqb l).
Proof.
  unfold value_counts. rewrite (Permutation_map fst (sort_desc_perm _)).
  rewrite map_map. simpl. now rewrite map_id.
Qed.

Lemma value_counts_NoDup (l : list K) : NoDup (map fst (value_counts eqb l)).
Proof.
  apply (Permutation_NoDup (Permutation_sym (value_counts_keys l))).
  apply unique_NoDup.
Qed.

Lemma get_In {V} (d : list (K * V)) (k : K) (v default : V) :
  NoDup (map fst d) -> In (k, v) d -> get eqb d k default = v.
Proof.
  induction d as [|[k' v'] d IH]; simpl; [tauto|].
  intros Hnd [E | H].
  - injection E as -> ->. now rewrite eqb_refl'.
  - inversion Hnd as [|? ? Hk Hd]; subst.
    destruct (eqb k' k) eqn:E; [|auto].
    apply eqb_eq in E. subst k'. exfalso. apply Hk.
    apply in_map_iff. exists (k, v). auto.
Qed.

Lemma get_absent {V} (d : list (K * V)) (k : K) (default : V) :
  ~ In k (map fst d) -> get eqb d k default = default.
Proof.
  induction d as [|[k' v'] d IH]; simpl; [reflexivity|].
  intros H. destruct (eqb k' k) eqn:E.
  - apply eqb_eq in E. subst k'. exfalso. apply H. now left.
  - apply IH. intros Hin. apply H. now right.
Qed.

Lemma get_map_key {V} (f : K -> V) (ks : list K) (k : K) (default : V) :
  get eqb (map (fun x => (x, f x)) ks) k default
  = if existsb (fun x => eqb x k) ks then f k else default.
Proof.
  induction ks as [|x ks IH]; simpl; [reflexivity|].
  destruct (eqb x k) eqn:E; simpl; [|exact IH].
  apply eqb_eq in E. now subst.
Qed.

Lemma count_absent (k : K) (l : list K) : ~ In k l -> count eqb k l = 0%Z.
Proof.
  intros H. unfold count.
  replace (filter (eqb k) l) with (@nil K); [reflexivity|].
  symmetry. induction l as [|x l IH]; simpl; [reflexivity|].
  destruct (eqb k x) eqn:E.
  - apply eqb_eq in E. subst. exfalso. apply H. now left.
  - apply IH. intros Hin. apply H. now right.
Qed.

Lemma count_nonneg (k : K) (l : list K) : (0 <= count eqb k l)%Z.
Proof. unfold count. lia. Qed.

Lemma count_pos (k : K) (l : list K) : In k l -> (0 < count eqb k l)%Z.
Proof.
  intros H. unfold count. induction l as [|x l IH]; [destruct H|].
  simpl. destruct (eqb k x) eqn:E; simpl List.length; [lia|].
  destruct H as [-> | H]; [now rewrite eqb_refl' in E | auto].
Qed.

(** Looking a value up in [value_counts] gives its number of occurrences,
    zero for a value that does not occur. *)
Lemma get_value_counts (k : K) (l : list K) :
  get eqb (value_counts eqb l) k 0%Z = count eqb k l.
Proof.
  destruct (existsb (eqb k) l) eqn:E.
  - apply existsb_exists in E. destruct E as [x [Hx E]].
    apply eqb_eq in E. subst x.
    apply get_In; [apply value_counts_NoDup|]. now apply value_counts_In.
  - assert (Hn : ~ In k l).
    { intros H. assert (existsb (eqb k) l = true); [|congruence].
      apply existsb_exists. exists k. split; [exact H | apply eqb_refl']. }
    rewrite (count_absent _ _ Hn). apply get_absent.
    intros H. apply in_map_iff in H. destruct H as [[k' c] [E' H]].
    simpl in E'. subst k'. apply value_counts_In in H. tauto.
Qed.

End CountingFacts.

(** ** The aggregator *)

Section AggregatorFacts.
Import PyStr Pandas SentimentReport InsightsAnalyzer Cases.

Lemma filter_map_length {A B} (f : B -> bool) (g : A -> B) (l : list A) :
  List.length (filter f (map g l)) = List.length (filter (fun x => f (g x)) l).
Proof.
  induction l as [|x l IH]; simpl; [reflexivity|].
  destruct (f (g x)); simpl; now rewrite IH.
Qed.

Lemma count_bank_rows (b : string) (df : DataFrame) :
  count String.eqb b (map bank df) = len (where_bank b df).
Proof.
  unfold count, len, where_bank. rewrite filter_map_length. do 2 f_equal.
  apply filter_ext. intros r. apply String.eqb_sym.
Qed.

Lemma count_label_rows (l : string) (df : DataFrame) :
  count String.eqb l (map sentiment_label df) = len (where_label l df).
Proof.
  unfold count, len, where_label. rewrite filter_map_length. do 2 f_equal.
  apply filter_ext. intros r. apply String.eqb_sym.
Qed.

Lemma where_bank_absent (b : string) (df : DataFrame) :
  ~ In b (map bank df) -> where_bank b df = [].
Proof.
  intros H. unfold where_bank. induction df as [|r df IH]; simpl; [reflexivity|].
  destruct (bank r =? b) eqn:E.
  - apply String.eqb_eq in E. exfalso. apply H. now left.
  - apply IH. intros Hin. apply H. now right.
Qed.

Lemma existsb_flip_In (k : string) (l : list string) :
  existsb (fun x => x =? k) l = true <-> In k l.
Proof.
  rewrite existsb_exists. split.
  - intros [x [Hx E]]. apply String.eqb_eq in E. now subst.
  - intros H. exists k. split; [exact H | apply String.eqb_refl].
Qed.

Lemma get_counts_as_option (d : list (string * Z)) (k : string) :
  match get String.eqb (map (fun lc => (fst lc, Some (snd lc))) d) k None with
  | Some n => n
  | None => 0%Z
  end = get String.eqb d k 0%Z.
Proof.
  induction d as [|[k' v] d IH]; simpl; [reflexivity|].
  destruct (k' =? k); [reflexivity | exact IH].
Qed.

(** An entry of the report is the number of the bank's rows that carry the
    label. *)
Lemma label_count_eq (df : DataFrame) (label b : string) :
  label_count df label b = len (where_label label (where_bank b df)).
Proof.
  rewrite <- count_label_rows.
  unfold label_count, sentiment_by_bank, label_counts_by_bank.
  rewrite (get_map_key String.eqb String.eqb_eq). rewrite map_map. cbn [fst snd].
  destruct (existsb (fun x => x =? label) (unique String.eqb (map sentiment_label df))) eqn:El.
  - rewrite (get_map_key String.eqb String.eqb_eq
               (fun x => get String.eqb
                           (map (fun lc => (fst lc, Some (snd lc)))
                                (value_counts String.eqb (map sentiment_label (where_bank x df))))
                           label None)).
    destruct (existsb (fun x => x =? b) (unique String.eqb (map bank df))) eqn:Eb.
    + rewrite get_counts_as_option.
      apply (get_value_counts String.eqb String.eqb_eq).
    + assert (Hb : ~ In b (map bank df)).
      { intros H. apply (unique_In String.eqb String.eqb_eq) in H.
        apply existsb_flip_In in H. congruence. }
      now rewrite (where_bank_absent _ _ Hb).
  - simpl. symmetry. apply (count_absent String.eqb String.eqb_eq).
    intros H. apply in_map_iff in H. destruct H as [r [E H]].
    apply filter_In in H. destruct H as [H _].
    assert (Hl : In label (map sentiment_label df)).
    { apply in_map_iff. exists r. auto. }
    apply (unique_In String.eqb String.eqb_eq) in Hl.
    apply existsb_flip_In in Hl. congruence.
Qed.

Lemma len_where_label_cons (l : string) (r : Review) (rows : DataFrame) :
  len (where_label l (r :: rows))
  = ((if (sentiment_label r =? l)%string then 1 else 0) + len (where_label l rows))%Z.
Proof.
  unfold len, where_label. cbn [filter].
  destruct (sentiment_label r =? l); cbn [List.length]; lia.
Qed.

Lemma three_labels_partition (rows : DataFrame) :
  (forall r, In r rows ->
             In (sentiment_label r) ["POSITIVE"; "NEGATIVE"; "NEUTRAL"]) ->
  (len (where_label "POSITIVE" rows) + len (where_label "NEGATIVE" rows)
   + len (where_label "NEUTRAL" rows) = len rows)%Z.
Proof.
  induction rows as [|r rows IH]; intros H; [reflexivity|].
  assert (IH' := IH (fun r' Hr' => H r' (or_intror Hr'))).
  specialize (H r (or_introl eq_refl)).
  rewrite !len_where_label_cons.
  assert (Hlen : len (r :: rows) = (1 + len rows)%Z).
  { unfold len. cbn [List.length]. lia. }
  rewrite Hlen.
  destruct H as [E | [E | [E | []]]]; rewrite <- E;
    cbn [String.eqb Ascii.eqb Bool.eqb andb]; lia.
Qed.

Lemma firstn_In {A} (n : nat) (l : list A) (x : A) :
  In x (firstn n l) -> In x l.
Proof.
  revert l; induction n as [|n IH]; intros [|y l]; simpl; try tauto.
  intros [E | H]; auto.
Qed.

Lemma retheme_bank g df : map bank (retheme g df) = map bank df.
Proof.
  unfold retheme. rewrite map_map. apply map_ext. intros r.
  now destruct (sentiment_label r =? "NEGATIVE").
Qed.

Lemma where_bank_retheme g b df :
  where_bank b (retheme g df) = retheme g (where_bank b df).
Proof.
  unfold where_bank, retheme. induction df as [|r df IH]; simpl; [reflexivity|].
  destruct (sentiment_label r =? "NEGATIVE") eqn:E; simpl;
    destruct (bank r =? b); simpl; rewrite ?E, IH; reflexivity.
Qed.

Lemma where_negative_retheme g rows :
  where_label "NEGATIVE" (retheme g rows) = where_label "NEGATIVE" rows.
Proof.
  unfold where_label, retheme. induction rows as [|r rows IH]; simpl; [reflexivity|].
  destruct (sentiment_label r =? "NEGATIVE") eqn:E; simpl; rewrite E, IH; reflexivity.
Qed.

Lemma len_retheme g rows : len (retheme g rows) = len rows.
Proof. unfold len, retheme. now rewrite length_map. Qed.

Lemma pain_points_of_retheme g rows :
  pain_points_of (retheme g rows) = pain_points_of rows.
Proof.
  unfold pain_points_of. now rewrite where_negative_retheme, len_retheme.
Qed.

(** C5: in a group whose labels are POSITIVE, NEGATIVE or NEUTRAL, the
    three counts of the per-bank sentiment distribution add up to the number
    of the bank's records; every theme counted among a bank's pain points is
    counted over the bank's NEGATIVE records and occurs in one of them; and
    the pain points do not change when the themes of the other records
    do. *)
Theorem sentiment_counts_and_pain_points (df : DataFrame) (b : string) :
  (forall r, In r (where_bank b df) ->
             In (sentiment_label r) ["POSITIVE"; "NEGATIVE"; "NEUTRAL"]) ->
  (label_count df "POSITIVE" b + label_count df "NEGATIVE" b
   + label_count df "NEUTRAL" b = len (where_bank b df))%Z
  /\ (forall pp theme c,
         In (b, pp) (identify_pain_points df) ->
         In (theme, c) (top_pain_points pp) ->
         c = count String.eqb theme
               (collect_themes (where_label "NEGATIVE" (where_bank b df)))
         /\ (0 < c)%Z
         /\ exists r themes,
             In r df /\ bank r = b /\ sentiment_label r = "NEGATIVE"
             /\ identified_themes r = Text themes
             /\ In theme (theme_list themes))
  /\ (forall g, identify_pain_points (retheme g df) = identify_pain_points df).
Proof.
  intros Hlabels. split; [|split].
  - rewrite !label_count_eq. now apply three_labels_partition.
  - intros pp theme c Hpp Hc. unfold identify_pain_points in Hpp.
    apply in_map_iff in Hpp. destruct Hpp as [b' [E _]]. injection E as -> <-.
    unfold pain_points_of in Hc.
    destruct (0 <? len (where_label "NEGATIVE" (where_bank b df)))%Z; [|destruct Hc].
    cbn [top_pain_points] in Hc. apply firstn_In in Hc.
    apply (value_counts_In String.eqb String.eqb_eq) in Hc.
    destruct Hc as [Hin ->]. split; [reflexivity|].
    split; [now apply (count_pos String.eqb String.eqb_eq)|].
    unfold collect_themes in Hin. apply in_flat_map in Hin.
    destruct Hin as [r [Hr Ht]].
    apply filter_In in Hr. destruct Hr as [Hr Hneg].
    apply filter_In in Hr. destruct Hr as [Hr Hb].
    apply String.eqb_eq in Hneg, Hb.
    destruct (identified_themes r) as [|themes] eqn:Eth; [destruct Ht|].
    exists r, themes. auto.
  - intros g. unfold identify_pain_points. rewrite retheme_bank.
    apply map_ext. intros b'.
    now rewrite where_bank_retheme, pain_points_of_retheme.
Qed.

Lemma sentiment_counts_and_pain_points_witness :
  (forall r, In r (where_bank "A" bank_a_reviews) ->
             In (sentiment_label r) ["POSITIVE"; "NEGATIVE"; "NEUTRAL"])
  /\ (label_count bank_a_reviews "POSITIVE" "A"
      + label_count bank_a_reviews "NEGATIVE" "A"
      + label_count bank_a_reviews "NEUTRAL" "A" = 3)%Z.
Proof.
  assert (H : forall r, In r (where_bank "A" bank_a_reviews) ->
                        In (sentiment_label r) ["POSITIVE"; "NEGATIVE"; "NEUTRAL"]).
  { intros r Hr. vm_compute in Hr.
    destruct Hr as [<- | [<- | [<- | []]]]; simpl; auto. }
  split; [exact H|].
  exact (proj1 (sentiment_counts_and_pain_points bank_a_reviews "A" H)).
Defined.

End AggregatorFacts.

(** ** The bias heuristics *)

Section EthicsFacts.
Import PyStr Pandas InsightsAnalyzer.

Lemma sum_indicator {A} (f : A -> bool) (l : list A) :
  (sum (map (fun r => if f r then 1 else 0) l)
   == inject_Z (Z.of_nat (List.length (filter f l))))%Q.
Proof.
  induction l as [|x l IH]; simpl; [reflexivity|].
  destruct (f x); simpl List.length; rewrite IH.
  - rewrite Nat2Z.inj_succ, <- Z.add_1_l, inject_Z_plus. reflexivity.
  - ring.
Qed.

(** A ratio of two counts exceeds [a/b] when the cross products say so. *)
Lemma ratio_gt (a : Z) (b : positive) (c n : Z) :
  (0 < n)%Z ->
  ((a # b < inject_Z c / inject_Z n)%Q <-> (a * n < Z.pos b * c)%Z).
Proof.
  intros Hn. destruct n as [|p|p]; try lia.
  unfold Qlt, Qdiv, Qmult, Qinv, inject_Z. cbn [Qnum Qden Pos.mul]. lia.
Qed.

Lemma list_eq_dec_nil {A} (l : list A) : {l = []} + {l <> []}.
Proof. destruct l; [now left | right; discriminate]. Qed.

Lemma len_pos (df : DataFrame) : df <> [] -> (0 < len df)%Z.
Proof. destruct df; [congruence|]. intros _. unfold len. simpl List.length. lia. Qed.

Lemma mean_map_nonempty {A} (f : A -> Q) (l : list A) :
  l <> [] ->
  mean (map f l)
  = Some (sum (map f l) / inject_Z (Z.of_nat (List.length l)))%Q.
Proof.
  destruct l as [|x l]; [congruence|]. intros _.
  unfold mean. cbn [map]. now rewrite <- (length_map f (x :: l)).
Qed.

(** The first test: the share of NEGATIVE labels, in percent, against 70. *)
Lemma negative_flag (df : DataFrame) :
  gt_nan (negative_pct df) 70 = true
  <-> (70 * len df < 100 * len (where_label "NEGATIVE" df))%Z.
Proof.
  destruct (list_eq_dec_nil df) as [-> | Hne].
  - simpl. split; [discriminate | unfold len; simpl; lia].
  - pose proof (len_pos df Hne) as Hn.
    unfold negative_pct. rewrite (mean_map_nonempty _ df Hne).
    unfold gt_nan. rewrite Qgtb_true.
    rewrite (sum_indicator (fun r => sentiment_label r =? "NEGATIVE") df).
    fold (where_label "NEGATIVE" df). fold (len (where_label "NEGATIVE" df)).
    fold (len df).
    set (k := len (where_label "NEGATIVE" df)). set (n := len df) in *.
    assert (H : (70 < inject_Z k / inject_Z n * 100
                 <-> (7 # 10) < inject_Z k / inject_Z n)%Q).
    { split; intros H; lra. }
    rewrite H, (ratio_gt 7 10 k n Hn). lia.
Qed.

Lemma get_mapped_In {V W} (f : V -> W) (d : list (Z * V)) (k : Z) (v : V) (default : W) :
  NoDup (map fst d) -> In (k, v) d ->
  get Z.eqb (map (fun kv => (fst kv, f (snd kv))) d) k default = f v.
Proof.
  intros Hnd Hin. apply (get_In Z.eqb Z.eqb_eq).
  - rewrite map_map. simpl. exact Hnd.
  - apply in_map_iff. exists (k, v). auto.
Qed.

(** The second test, for one star rating: its share against 0.4. *)
Lemma rating_flag (df : DataFrame) (stars : Z) :
  Qgtb (get Z.eqb (rating_dist df) stars 0) (4 # 10) = true
  <-> (4 * len df < 10 * count Z.eqb stars (map rating df))%Z.
Proof.
  unfold rating_dist.
  destruct (in_dec Z.eq_dec stars (map rating df)) as [Hin | Hout].
  - assert (Hn : (0 < len df)%Z).
    { apply len_pos. intros ->. destruct Hin. }
    rewrite (get_mapped_In (fun c => (inject_Z c / inject_Z (len df))%Q)
               _ stars (count Z.eqb stars (map rating df))).
    + rewrite Qgtb_true. apply (ratio_gt 4 10 _ _ Hn).
    + apply (value_counts_NoDup Z.eqb Z.eqb_eq).
    + apply (value_counts_In Z.eqb Z.eqb_eq). auto.
  - rewrite (get_absent Z.eqb Z.eqb_eq).
    + rewrite (count_absent Z.eqb Z.eqb_eq _ _ Hout).
      split; [discriminate | unfold len; lia].
    + rewrite map_map. simpl. intros H. apply in_map_iff in H.
      destruct H as [[k c] [E H]]. simpl in E. subst k.
      apply (value_counts_In Z.eqb Z.eqb_eq) in H. tauto.
Qed.

(** *** The coefficient of variation *)

Lemma sum_pos (l : list Q) :
  l <> [] -> (forall x, In x l -> (0 < x)%Q) -> (0 < sum l)%Q.
Proof.
  induction l as [|x l IH]; [congruence|]. intros _ H. simpl.
  pose proof (H x (or_introl eq_refl)) as Hx.
  destruct (list_eq_dec_nil l) as [-> | Hne].
  - simpl. lra.
  - assert (0 < sum l)%Q by (apply IH; [exact Hne | intros y Hy; apply H; now right]).
    lra.
Qed.

Lemma length_pos_Q {A} (l : list A) :
  l <> [] -> (0 < inject_Z (Z.of_nat (List.length l)))%Q.
Proof.
  intros H. rewrite <- (Zlt_Qlt 0). destruct l; [congruence|].
  simpl List.length. lia.
Qed.

Lemma mean_pos (l : list Q) (m : Q) :
  mean l = Some m -> (forall x, In x l -> (0 < x)%Q) -> (0 < m)%Q.
Proof.
  intros Hm H. destruct (list_eq_dec_nil l) as [-> | Hne]; [discriminate|].
  unfold mean in Hm. destruct l as [|x l']; [congruence|].
  injection Hm as <-. apply Qlt_shift_div_l.
  - apply (length_pos_Q (x :: l') Hne).
  - rewrite Qmult_0_l. exact (sum_pos (x :: l') Hne H).
Qed.

Lemma Qsquare_nonneg (y : Q) : (0 <= y * y)%Q.
Proof.
  unfold Qle, Qmult. cbn [Qnum Qden]. rewrite Z.mul_0_l, Z.mul_1_r.
  apply Z.square_nonneg.
Qed.

Lemma sum_squares_nonneg (m : Q) (l : list Q) :
  (0 <= sum (map (fun x => (x - m) * (x - m)) l))%Q.
Proof.
  induction l as [|x l IH]; simpl; [lra|].
  pose proof (Qsquare_nonneg (x - m)). lra.
Qed.

Lemma var_nonneg (l : list Q) (v : Q) : var l = Some v -> (0 <= v)%Q.
Proof.
  unfold var. destruct (mean l) as [m|]; [|discriminate].
  destruct (List.length l <? 2)%nat eqn:E; [discriminate|].
  intros H. injection H as <-. apply Nat.ltb_ge in E.
  apply Qle_shift_div_l.
  - rewrite <- (Zlt_Qlt 0). lia.
  - rewrite Qmult_0_l. apply sum_squares_nonneg.
Qed.

Lemma reviews_per_bank_pos (df : DataFrame) (x : Q) :
  In x (reviews_per_bank df) -> (0 < x)%Q.
Proof.
  unfold reviews_per_bank. intros H. apply in_map_iff in H.
  destruct H as [[b c] [<- H]]. simpl.
  apply (value_counts_In String.eqb String.eqb_eq) in H. destruct H as [Hin ->].
  rewrite <- (Zlt_Qlt 0). now apply (count_pos String.eqb String.eqb_eq).
Qed.

(** The per-bank counts the test reads are the sizes of the groups. *)
Lemma reviews_per_bank_groups (df : DataFrame) :
  Permutation (reviews_per_bank df)
              (map (fun b => inject_Z (len (where_bank b df)))
                   (unique String.eqb (map bank df))).
Proof.
  unfold reviews_per_bank, value_counts.
  rewrite (Permutation_map _ (sort_desc_perm _)). rewrite map_map. simpl.
  erewrite map_ext; [reflexivity|]. intros b. simpl. now rewrite count_bank_rows.
Qed.

End EthicsFacts.

Section RealFacts.
Import Reals Qreals.
Local Open Scope R_scope.

(** For a mean that is positive, the test on the variance decides the test on
    the standard deviation that the code writes: [std / mean > 0.3]. *)
Lemma std_over_mean_real (v m : Q) :
  (0 <= v)%Q -> (0 < m)%Q ->
  (Pandas.Qgtb v ((3 # 10) * m * ((3 # 10) * m)) = true
   <-> 3 / 10 < sqrt (Q2R v) / Q2R m).
Proof.
  intros Hv Hm. rewrite Qgtb_true.
  apply Qle_Rle in Hv. apply Qlt_Rlt in Hm.
  assert (E0 : Q2R 0 = 0) by (unfold Q2R; simpl; Lra.lra).
  rewrite E0 in Hv, Hm.
  assert (E3 : Q2R (3 # 10) = 3 / 10) by (unfold Q2R; simpl; Lra.lra).
  set (M := Q2R m) in *. set (V := Q2R v) in *.
  assert (Hs : 0 <= sqrt V) by apply sqrt_pos.
  assert (Hss : sqrt V * sqrt V = V) by now apply sqrt_sqrt.
  assert (Hdiv : 3 / 10 < sqrt V / M <-> 3 / 10 * M < sqrt V).
  { split; intros H.
    - apply (Rmult_lt_compat_r M) in H; [|exact Hm].
      unfold Rdiv in H at 2. rewrite Rmult_assoc, Rinv_l in H; Lra.lra.
    - apply (Rmult_lt_reg_r M); [exact Hm|].
      unfold Rdiv at 2. rewrite Rmult_assoc, Rinv_l; Lra.lra. }
  rewrite Hdiv. split.
  - intros H. apply Qlt_Rlt in H. rewrite !Q2R_mult, E3 in H. fold M V in H.
    destruct (Rlt_le_dec (3 / 10 * M) (sqrt V)) as [Hlt | Hge]; [exact Hlt|].
    exfalso. assert (sqrt V * sqrt V <= (3 / 10 * M) * (3 / 10 * M)).
    { apply Rmult_le_compat; assumption. }
    Lra.lra.
  - intros H. apply Rlt_Qlt. rewrite !Q2R_mult, E3. fold M V.
    rewrite <- Hss. apply Rmult_le_0_lt_compat; try assumption;
      apply Rmult_le_pos; Lra.lra.
Qed.

Import Pandas InsightsAnalyzer.

Lemma uneven_flag (df : DataFrame) :
  std_over_mean_gt (reviews_per_bank df) (3 # 10) = true
  <-> exists v m,
      var (reviews_per_bank df) = Some v
      /\ mean (reviews_per_bank df) = Some m
      /\ 3 / 10 < sqrt (Q2R v) / Q2R m.
Proof.
  unfold std_over_mean_gt.
  destruct (var (reviews_per_bank df)) as [v|] eqn:Ev;
    [destruct (mean (reviews_per_bank df)) as [m|] eqn:Em|].
  - pose proof (var_nonneg _ _ Ev) as Hv.
    pose proof (mean_pos _ _ Em (reviews_per_bank_pos df)) as Hm.
    rewrite (std_over_mean_real v m Hv Hm). split.
    + intros H. exists v, m. auto.
    + intros [v' [m' [E1 [E2 H]]]]. injection E1 as <-. injection E2 as <-. exact H.
  - split; [discriminate | intros [v' [m' [_ [E _]]]]; discriminate].
  - split; [discriminate | intros [v' [m' [E _]]]; discriminate].
Qed.

(** The list is built from the three tests, in this order, and from nothing
    else. *)
Lemma considerations_shape (df : DataFrame) :
  identify_ethical_considerations df
  = (if gt_nan (negative_pct df) 70
     then [HighNegativeBias (match negative_pct df with Some p => p | None => 0%Q end)]
     else [])
    ++ (if Qgtb (get Z.eqb (rating_dist df) 1%Z 0%Q) (4 # 10)
           || Qgtb (get Z.eqb (rating_dist df) 5%Z 0%Q) (4 # 10)
        then [PolarizedRatings] else [])
    ++ (if std_over_mean_gt (reviews_per_bank df) (3 # 10)
        then [UnevenSampleSizes] else []).
Proof.
  unfold identify_ethical_considerations.
  destruct (gt_nan (negative_pct df) 70);
    destruct (Qgtb (get Z.eqb (rating_dist df) 1%Z 0%Q) (4 # 10)
              || Qgtb (get Z.eqb (rating_dist df) 5%Z 0%Q) (4 # 10));
    destruct (std_over_mean_gt (reviews_per_bank df) (3 # 10)); reflexivity.
Qed.


End RealFacts.


(** ** The keyword extractor *)

Section KeywordFacts.
Import PyStr Pandas KeywordExtractor.

Variable analyzer : string -> list string.
Variables Idf Tfidf Score : Type.
Variable fit_idf : list Column -> Idf.
Variable transform : Idf -> list Column -> Tfidf.
Variable column_means : Tfidf -> list Score.
Variable score_ltb : Score -> Score -> bool.
Variable argsort : list Z -> list nat.

Local Abbreviation extract :=
  (extract_keywords_tfidf analyzer fit_idf transform column_means score_ltb argsort).
Local Abbreviation fit :=
  (fit_transform analyzer fit_idf transform argsort).
Local Abbreviation counts := (count_fit_transform analyzer argsort).
Local Abbreviation banks_loop :=
  (analyze_banks analyzer fit_idf transform column_means score_ltb argsort).
Local Abbreviation ranking_of :=
  (KeywordExtractor.ranking_of analyzer fit_idf transform column_means score_ltb argsort).
Local Abbreviation by_bank :=
  (analyze_themes_by_bank analyzer fit_idf transform column_means score_ltb argsort).

Lemma extract_ranking (self : Fitted Idf) (texts : list string) (top_n : nat) :
  snd (extract self texts top_n) = ranking_of texts top_n.
Proof.
  unfold extract_keywords_tfidf, fit_transform, ranking_of.
  destruct (counts params texts) as [e | cols]; reflexivity.
Qed.

Lemma banks_loop_keywords (self : Fitted Idf) (banks : list string)
      (df : list (string * string)) (b : string) (analysis : BankThemes Score) :
  In (b, analysis) (snd (banks_loop self banks df)) ->
  top_keywords analysis = firstn 10 (ranking_of (texts_of b df) 20).
Proof.
  revert self. induction banks as [|b0 rest IH]; intros self H; [destruct H|].
  cbn [analyze_banks] in H. unfold analyze_bank in H.
  pose proof (extract_ranking self (texts_of b0 df) 20) as Hk.
  destruct (extract self (texts_of b0 df) 20) as [self1 keywords].
  cbn [snd] in Hk. subst keywords.
  pose proof (IH self1) as IH1.
  destruct (banks_loop self1 rest df) as [self2 others].
  cbn [snd] in *. destruct H as [E | H]; [|auto].
  injection E as <- <-. reflexivity.
Qed.

Lemma banks_loop_covers (self : Fitted Idf) (banks : list string)
      (df : list (string * string)) (b : string) :
  In b banks -> exists analysis, In (b, analysis) (snd (banks_loop self banks df)).
Proof.
  revert self. induction banks as [|b0 rest IH]; intros self H; [destruct H|].
  cbn [analyze_banks].
  destruct (analyze_bank analyzer fit_idf transform column_means score_ltb argsort
              self (texts_of b0 df)) as [self1 analysis].
  pose proof (IH self1) as IH1.
  destruct (banks_loop self1 rest df) as [self2 others].
  cbn [snd] in *. destruct H as [<- | H].
  - exists analysis. now left.
  - destruct (IH1 H) as [a Ha]. exists a. now right.
Qed.

(** C2: the ranking [extract_keywords_tfidf] returns is a function of the
    texts it is given: it does not depend on what the shared vectorizer was
    fitted on before, a second call on the same texts returns the same
    ranking, and in the loop over the banks each bank's keywords are those
    of a new vectorizer fitted on that bank's texts, whatever banks came
    first. *)
Theorem keyword_ranking_depends_on_texts_only
        (texts : list string) (top_n : nat) :
  (forall self1 self2 : Fitted Idf,
      snd (extract self1 texts top_n) = snd (extract self2 texts top_n))
  /\ (forall self : Fitted Idf,
         snd (extract (fst (extract self texts top_n)) texts top_n)
         = snd (extract self texts top_n))
  /\ (forall (self : Fitted Idf) banks df b analysis,
         In (b, analysis) (snd (banks_loop self banks df)) ->
         top_keywords analysis
         = firstn 10 (snd (extract (unfitted Idf) (texts_of b df) 20)))
  /\ (forall df b,
         In b (map fst df) ->
         exists analysis,
           In (b, analysis) (by_bank df)
           /\ top_keywords analysis
              = firstn 10 (snd (extract (unfitted Idf) (texts_of b df) 20))).
Proof.
  split; [|split; [|split]].
  - intros self1 self2. now rewrite !extract_ranking.
  - intros self. now rewrite !extract_ranking.
  - intros self banks df b analysis H. rewrite extract_ranking.
    exact (banks_loop_keywords self banks df b analysis H).
  - intros df b Hb. unfold analyze_themes_by_bank.
    apply (unique_In String.eqb String.eqb_eq) in Hb.
    destruct (banks_loop_covers (unfitted Idf) _ df b Hb) as [analysis Ha].
    exists analysis. split; [exact Ha|]. rewrite extract_ranking.
    exact (banks_loop_keywords _ _ df b analysis Ha).
Qed.

(** The themes counted for a bank do not depend on the vectorizer
    either. *)
Lemma theme_distribution_depends_on_texts_only
      (self1 self2 : Fitted Idf) (bank_reviews : list string) :
  theme_distribution
    (snd (analyze_bank analyzer fit_idf transform column_means score_ltb argsort
            self1 bank_reviews))
  = theme_distribution
      (snd (analyze_bank analyzer fit_idf transform column_means score_ltb argsort
              self2 bank_reviews)).
Proof.
  unfold analyze_bank.
  destruct (extract self1 bank_reviews 20), (extract self2 bank_reviews 20).
  reflexivity.
Qed.

(** *** Too few documents *)

Lemma one_document_below_min_df :
  PrimFloat.ltb (PrimFloat.mul (max_df params) (float_of_int 1))
                (float_of_int (min_df params)) = true.
Proof. vm_compute. reflexivity. Qed.

Lemma two_documents_below_min_df :
  PrimFloat.ltb (PrimFloat.mul (max_df params) (float_of_int 2))
                (float_of_int (min_df params)) = true.
Proof. vm_compute. reflexivity. Qed.

Lemma counts_few_documents (texts : list string) :
  (List.length texts <= 2)%nat ->
  exists e, counts params texts = inl e.
Proof.
  intros H. unfold count_fit_transform.
  destruct texts as [|t1 [|t2 [|t3 rest]]]; [| | |simpl in H; lia].
  - exists EmptyVocabulary. reflexivity.
  - destruct (count_vocab analyzer [t1]) as [e | cols]; [now exists e|].
    exists MaxDfBelowMinDf. cbn [List.length Z.of_nat Pos.of_succ_nat].
    now rewrite one_document_below_min_df.
  - destruct (count_vocab analyzer [t1; t2]) as [e | cols]; [now exists e|].
    exists MaxDfBelowMinDf.
    change (Z.of_nat (List.length [t1; t2])) with 2%Z.
    now rewrite two_documents_below_min_df.
Qed.

Lemma limit_features_none (cols : list Column) (high : float) (low : Z)
      (limit : option nat) :
  (forall c, In c cols -> within_df high low c = false) ->
  limit_features argsort cols high low limit = inl NoTermsRemain.
Proof.
  intros H. unfold limit_features.
  assert (E : filter (within_df high low) cols = []).
  { induction cols as [|c cols IH]; [reflexivity|]. simpl.
    rewrite (H c (or_introl eq_refl)). apply IH.
    intros c' Hc'. apply H. now right. }
  rewrite E. destruct limit as [lim|]; reflexivity.
Qed.

(** C6: for a group with fewer than two documents, or one whose every term
    falls outside the document-frequency bounds, [extract_keywords_tfidf]
    returns the empty ranking (the library's error is caught), whatever the
    vectorizer held before; [extract_ngrams] can still return bigram and
    trigram counts for a single document. *)
Theorem degenerate_group_gives_empty_ranking
        (self : Fitted Idf) (texts : list string) (top_n : nat) :
  (List.length texts < 2)%nat
  \/ (exists cols,
         count_vocab analyzer texts = inr cols
         /\ forall c, In c cols ->
                      within_df (PrimFloat.mul (max_df params)
                                   (float_of_int (Z.of_nat (List.length texts))))
                                (min_df params) c = false) ->
  snd (extract self texts top_n) = []
  /\ extract_ngrams ["good app fast"] 2 15
     = [("good app", 1%Z); ("app fast", 1%Z)]
  /\ extract_ngrams ["good app fast"] 3 15 = [("good app fast", 1%Z)]
  /\ snd (extract self ["good app fast"] top_n) = [].
Proof.
  intros H.
  assert (Hfew : forall ts, (List.length ts < 2)%nat -> snd (extract self ts top_n) = []).
  { intros ts Hts. rewrite extract_ranking. unfold ranking_of.
    destruct (counts_few_documents ts) as [e E]; [lia|]. now rewrite E. }
  split; [|split; [|split]].
  - destruct H as [H | [cols [Ev Hout]]]; [now apply Hfew|].
    rewrite extract_ranking. unfold ranking_of, count_fit_transform. rewrite Ev.
    destruct (PrimFloat.ltb _ _); [reflexivity|].
    now rewrite (limit_features_none cols _ _ _ Hout).
  - vm_compute. reflexivity.
  - vm_compute. reflexivity.
  - apply Hfew. simpl. lia.
Qed.

End KeywordFacts.

(** A single document, with stand-ins for the library's weighting. *)
Lemma degenerate_group_gives_empty_ranking_witness :
  (List.length ["good app fast"] < 2)%nat
  /\ snd (KeywordExtractor.extract_keywords_tfidf
            PyStr.split_ws (fun _ => tt) (fun _ cols => cols)
            (map KeywordExtractor.term_frequency) Z.ltb
            (fun l => seq 0 (List.length l))
            (KeywordExtractor.unfitted unit) ["good app fast"] 20) = [].
Proof.
  assert (H : (List.length ["good app fast"] < 2)%nat) by (simpl; lia).
  split; [exact H|].
  exact (proj1 (degenerate_group_gives_empty_ranking
                  PyStr.split_ws unit (list KeywordExtractor.Column) Z
                  (fun _ => tt) (fun _ cols => cols)
                  (map KeywordExtractor.term_frequency) Z.ltb
                  (fun l => seq 0 (List.length l))
                  (KeywordExtractor.unfitted unit) ["good app fast"] 20
                  (or_introl H))).
Defined.

(** ** The normalizer *)

Section CleanFacts.
Import PyStr TextPreprocessor Normal.

Lemma forall_chars_impl (p q : ascii -> bool) (s : string) :
  (forall c, p c = true -> q c = true) ->
  forall_chars p s = true -> forall_chars q s = true.
Proof.
  intros Hpq. induction s as [|c r IH]; [reflexivity|]. simpl.
  rewrite !andb_true_iff. intros [Hc Hr]. auto.
Qed.

Lemma lower_char_not_upper (c : ascii) : is_upper (lower_char c) = false.
Proof. destruct c as [[] [] [] [] [] [] [] []]; reflexivity. Qed.

Lemma lower_not_upper (s : string) :
  forall_chars (fun c => negb (is_upper c)) (lower s) = true.
Proof.
  induction s as [|c r IH]; [reflexivity|]. simpl.
  now rewrite lower_char_not_upper, IH.
Qed.

Lemma lower_fixed (s : string) :
  forall_chars (fun c => negb (is_upper c)) s = true -> lower s = s.
Proof.
  induction s as [|c r IH]; [reflexivity|]. simpl.
  rewrite andb_true_iff, negb_true_iff. intros [Hc Hr].
  unfold lower_char. now rewrite Hc, IH.
Qed.

(** The deleting steps keep what holds of every character. *)
Lemma remove_runs_chars (p : ascii -> bool) starts cont (b : bool) (s : string) :
  forall_chars p s = true ->
  forall_chars p (remove_runs starts cont b s) = true.
Proof.
  revert b. induction s as [|c r IH]; intros b; [reflexivity|].
  cbn [forall_chars remove_runs]. rewrite andb_true_iff. intros [Hc Hr].
  destruct (b && cont c); [auto|]. destruct (starts (String c r)); [auto|].
  cbn [forall_chars]. now rewrite Hc, IH.
Qed.

Lemma remove_numbers_chars (p : ascii -> bool) (s : string) :
  forall_chars p s = true ->
  forall_chars (fun c => p c && negb (is_digit c)) (remove_numbers s) = true.
Proof.
  induction s as [|c r IH]; [reflexivity|].
  cbn [forall_chars remove_numbers]. rewrite andb_true_iff. intros [Hc Hr].
  destruct (is_digit c) eqn:Ed; [auto|].
  cbn [forall_chars]. now rewrite Hc, Ed, IH.
Qed.

(** After the punctuation step: plain characters and whitespace. *)
Lemma punctuation_char (c : ascii) :
  negb (is_upper c) && negb (is_digit c) = true ->
  (plain (if is_word c || is_space c then c else " "%char)
   || is_space (if is_word c || is_space c then c else " "%char)) = true.
Proof. destruct c as [[] [] [] [] [] [] [] []]; vm_compute; auto. Qed.

Lemma remove_punctuation_chars (s : string) :
  forall_chars (fun c => negb (is_upper c) && negb (is_digit c)) s = true ->
  forall_chars (fun c => plain c || is_space c) (remove_punctuation s) = true.
Proof.
  induction s as [|c r IH]; [reflexivity|].
  cbn [forall_chars remove_punctuation]. rewrite andb_true_iff. intros [Hc Hr].
  now rewrite (punctuation_char c Hc), IH.
Qed.

Lemma plain_not_space (c : ascii) : plain c = true -> is_space c = false.
Proof. destruct c as [[] [] [] [] [] [] [] []]; vm_compute; auto. Qed.

Lemma collapse_chars (b : bool) (s : string) :
  forall_chars (fun c => plain c || is_space c) s = true ->
  forall_chars final_char (collapse_spaces b s) = true.
Proof.
  revert b. induction s as [|c r IH]; intros b; [reflexivity|].
  cbn [forall_chars collapse_spaces]. rewrite andb_true_iff. intros [Hc Hr].
  destruct (is_space c) eqn:Es.
  - destruct b; [auto|]. cbn [forall_chars]. now rewrite IH.
  - cbn [forall_chars]. rewrite IH by assumption.
    unfold final_char. rewrite orb_false_r in Hc. now rewrite Hc.
Qed.

Lemma lstrip_chars (p : ascii -> bool) (s : string) :
  forall_chars p s = true -> forall_chars p (lstrip s) = true.
Proof.
  induction s as [|c r IH]; [reflexivity|].
  cbn [lstrip]. destruct (is_space c); [|auto].
  cbn [forall_chars]. rewrite andb_true_iff. intros [_ Hr]. auto.
Qed.

Lemma rstrip_chars (p : ascii -> bool) (s : string) :
  forall_chars p s = true -> forall_chars p (rstrip s) = true.
Proof.
  induction s as [|c r IH]; [reflexivity|].
  cbn [rstrip]. destruct (all_space (String c r)); [reflexivity|].
  cbn [forall_chars]. rewrite !andb_true_iff. intros [Hc Hr]. auto.
Qed.

(** *** Whitespace after the collapsing step and the trim *)

Lemma collapse_spaced (b : bool) (s : string) :
  spaced b (collapse_spaces b s) = true.
Proof.
  revert b. induction s as [|c r IH]; intros b; [reflexivity|].
  cbn [collapse_spaces]. destruct (is_space c) eqn:Es.
  - destruct b; [apply IH|]. cbn [spaced].
    change (is_space " ") with true. cbn. apply IH.
  - cbn [spaced]. rewrite Es. apply IH.
Qed.

Lemma spaced_true_lstrip (s : string) : spaced true s = true -> lstrip s = s.
Proof.
  destruct s as [|c r]; [reflexivity|]. cbn [spaced lstrip].
  destruct (is_space c); [discriminate | reflexivity].
Qed.

Lemma lstrip_spaced (s : string) :
  spaced false s = true -> spaced true (lstrip s) = true.
Proof.
  destruct s as [|c r]; [reflexivity|]. cbn [spaced lstrip].
  destruct (is_space c) eqn:Es.
  - cbn. intros H. now rewrite (spaced_true_lstrip r H).
  - intros H. cbn [spaced]. now rewrite Es.
Qed.

Lemma all_space_cons_space (c : ascii) (r : string) :
  is_space c = true -> all_space (String c r) = all_space r.
Proof. intros H. unfold all_space. cbn [lstrip]. now rewrite H. Qed.

Lemma all_space_cons_visible (c : ascii) (r : string) :
  is_space c = false -> all_space (String c r) = false.
Proof. intros H. unfold all_space. cbn [lstrip]. now rewrite H. Qed.

Lemma rstrip_empty (s : string) : rstrip s = "" -> all_space s = true.
Proof.
  destruct s as [|c r]; [reflexivity|]. cbn [rstrip].
  destruct (all_space (String c r)); [reflexivity | discriminate].
Qed.

Lemma rstrip_tidy (b : bool) (s : string) :
  spaced b s = true -> tidy_from b (rstrip s) = true.
Proof.
  revert b. induction s as [|c r IH]; intros b; [reflexivity|].
  cbn [spaced rstrip]. destruct (is_space c) eqn:Es.
  - rewrite andb_true_iff. intros [Hb Hr].
    rewrite (all_space_cons_space c r Es).
    destruct (all_space r) eqn:Ea; [reflexivity|].
    cbn [tidy_from]. rewrite Es, Hb, (IH true Hr).
    destruct (rstrip r) eqn:Er; [|reflexivity].
    apply rstrip_empty in Er. congruence.
  - intros Hr. rewrite (all_space_cons_visible c r Es).
    cbn [tidy_from]. rewrite Es. now apply IH.
Qed.

Lemma strip_collapse_tidy (s : string) :
  tidy (strip (collapse_spaces false s)) = true.
Proof.
  unfold tidy, strip. apply rstrip_tidy, lstrip_spaced, collapse_spaced.
Qed.

(** The cleaned text: plain characters and single spaces, none at either
    end. *)
Lemma clean_text_normal (text : cell) :
  forall_chars final_char (clean_text text) = true
  /\ tidy (clean_text text) = true.
Proof.
  destruct text as [|t]; [split; reflexivity|]. unfold clean_text. split.
  - unfold strip. apply rstrip_chars, lstrip_chars, collapse_chars.
    apply remove_punctuation_chars.
    apply (forall_chars_impl
             (fun c => negb (is_upper c) && negb (is_digit c))
             (fun c => negb (is_upper c) && negb (is_digit c)));
      [auto|].
    apply remove_numbers_chars.
    unfold remove_hashtags, remove_mentions, remove_urls.
    do 3 apply remove_runs_chars. apply lower_not_upper.
  - apply strip_collapse_tidy.
Qed.

(** *** A second pass over cleaned text *)

Lemma final_char_facts (c : ascii) :
  final_char c = true ->
  is_upper c = false
  /\ Ascii.eqb c "@" = false
  /\ Ascii.eqb c "#" = false
  /\ is_digit c = false
  /\ (is_word c || is_space c) = true
  /\ (is_space c = true -> c = " "%char).
Proof.
  destruct c as [[] [] [] [] [] [] [] []]; vm_compute; intros H;
    try discriminate H; repeat split; intros H'; try discriminate H';
    reflexivity.
Qed.

Lemma never_starts_fixed starts cont (s : string) :
  never_starts starts s = true -> remove_runs starts cont false s = s.
Proof.
  induction s as [|c r IH]; [reflexivity|].
  cbn [never_starts remove_runs]. rewrite andb_true_iff, negb_true_iff.
  intros [Hs Hr]. rewrite Hs. cbn. now rewrite IH.
Qed.

Lemma no_head_never_starts (head : ascii) (s : string) :
  forall_chars (fun c => negb (Ascii.eqb c head)) s = true ->
  never_starts (tag_at head) s = true.
Proof.
  induction s as [|c r IH]; [reflexivity|].
  cbn [forall_chars never_starts]. rewrite andb_true_iff, negb_true_iff.
  intros [Hc Hr]. rewrite (IH Hr), andb_true_r.
  unfold tag_at. destruct r; [reflexivity|]. now rewrite Hc.
Qed.

Lemma remove_numbers_fixed (s : string) :
  forall_chars (fun c => negb (is_digit c)) s = true -> remove_numbers s = s.
Proof.
  induction s as [|c r IH]; [reflexivity|].
  cbn [forall_chars remove_numbers]. rewrite andb_true_iff, negb_true_iff.
  intros [Hc Hr]. now rewrite Hc, IH.
Qed.

Lemma remove_punctuation_fixed (s : string) :
  forall_chars (fun c => is_word c || is_space c) s = true ->
  remove_punctuation s = s.
Proof.
  induction s as [|c r IH]; [reflexivity|].
  cbn [forall_chars remove_punctuation]. rewrite andb_true_iff.
  intros [Hc Hr]. now rewrite Hc, IH.
Qed.

Lemma collapse_fixed (b b' : bool) (s : string) :
  tidy_from b s = true -> forall_chars final_char s = true ->
  (b' = true -> b = true) ->
  collapse_spaces b' s = s.
Proof.
  revert b b'. induction s as [|c r IH]; intros b b'; [reflexivity|].
  cbn [tidy_from forall_chars collapse_spaces]. intros Ht Hc Hb.
  apply andb_true_iff in Hc. destruct Hc as [Hc Hr].
  destruct (is_space c) eqn:Es.
  - apply final_char_facts in Hc.
    destruct Hc as [_ [_ [_ [_ [_ Hc]]]]]. rewrite (Hc Es) in *.
    apply andb_true_iff in Ht. destruct Ht as [Ht Ht3].
    apply andb_true_iff in Ht. destruct Ht as [Ht1 Ht2].
    apply negb_true_iff in Ht1. subst b.
    destruct b'; [now discriminate Hb|].
    now rewrite (IH true true Ht3 Hr).
  - now rewrite (IH false false Ht Hr).
Qed.

Lemma tidy_rstrip (b : bool) (s : string) :
  tidy_from b s = true -> rstrip s = s.
Proof.
  revert b. induction s as [|c r IH]; intros b; [reflexivity|].
  cbn [tidy_from rstrip]. destruct (is_space c) eqn:Es.
  - intros Ht. apply andb_true_iff in Ht. destruct Ht as [Ht Ht3].
    apply andb_true_iff in Ht. destruct Ht as [_ Ht2].
    rewrite (all_space_cons_space c r Es).
    destruct r as [|c' r']; [discriminate|].
    assert (Ev : is_space c' = false).
    { cbn [tidy_from] in Ht3. destruct (is_space c'); [discriminate | reflexivity]. }
    rewrite (all_space_cons_visible c' r' Ev). now rewrite (IH true Ht3).
  - intros Ht. rewrite (all_space_cons_visible c r Es). now rewrite (IH false Ht).
Qed.

Lemma tidy_strip (s : string) : tidy s = true -> strip s = s.
Proof.
  intros Ht. unfold strip.
  assert (El : lstrip s = s).
  { destruct s as [|c r]; [reflexivity|]. unfold tidy in Ht.
    cbn [tidy_from] in Ht. cbn [lstrip].
    destruct (is_space c); [discriminate | reflexivity]. }
  rewrite El. exact (tidy_rstrip true s Ht).
Qed.

(** Cleaned text without a URL-like token is a fixed point of the
    cleaning. *)
Lemma normal_fixed (s : string) :
  forall_chars final_char s = true -> tidy s = true -> url_free s = true ->
  clean_text (Text s) = s.
Proof.
  intros Hc Ht Hu. unfold clean_text.
  rewrite (lower_fixed s)
    by (apply (forall_chars_impl final_char); [|exact Hc];
        intros c H; apply final_char_facts in H;
        destruct H as [H _]; now rewrite H).
  unfold remove_urls. rewrite (never_starts_fixed _ _ s Hu).
  unfold remove_mentions. rewrite never_starts_fixed
    by (apply no_head_never_starts;
        apply (forall_chars_impl final_char); [|exact Hc];
        intros c H; apply final_char_facts in H;
        destruct H as [_ [H _]]; now rewrite H).
  unfold remove_hashtags. rewrite never_starts_fixed
    by (apply no_head_never_starts;
        apply (forall_chars_impl final_char); [|exact Hc];
        intros c H; apply final_char_facts in H;
        destruct H as [_ [_ [H _]]]; now rewrite H).
  rewrite remove_numbers_fixed
    by (apply (forall_chars_impl final_char); [|exact Hc];
        intros c H; apply final_char_facts in H;
        destruct H as [_ [_ [_ [H _]]]]; now rewrite H).
  rewrite remove_punctuation_fixed
    by (apply (forall_chars_impl final_char); [|exact Hc];
        intros c H; apply final_char_facts in H;
        destruct H as [_ [_ [_ [_ [H _]]]]]; exact H).
  rewrite (collapse_fixed true false s Ht Hc) by discriminate.
  now apply tidy_strip.
Qed.

(** *** Lengths: no step makes the text longer *)

Lemma lower_length (s : string) : String.length (lower s) = String.length s.
Proof. induction s as [|c r IH]; simpl; [reflexivity | now rewrite IH]. Qed.

Lemma remove_runs_length starts cont (b : bool) (s : string) :
  (String.length (remove_runs starts cont b s) <= String.length s)%nat.
Proof.
  revert b. induction s as [|c r IH]; intros b; [reflexivity|].
  cbn [remove_runs String.length].
  destruct (b && cont c); [specialize (IH true); lia|].
  destruct (starts (String c r)); [specialize (IH true); lia|].
  cbn [String.length]. specialize (IH false). lia.
Qed.

Lemma remove_urls_shorter (s : string) :
  url_free s = false ->
  (String.length (remove_urls s) < String.length s)%nat.
Proof.
  unfold url_free, remove_urls. induction s as [|c r IH]; [discriminate|].
  cbn [never_starts remove_runs String.length]. cbn [andb].
  destruct (url_at (String c r)) eqn:Eu.
  - intros _.
    pose proof (remove_runs_length url_at (fun c => negb (is_space c)) true r).
    lia.
  - cbn [negb andb]. intros Hr. cbn [String.length]. specialize (IH Hr). lia.
Qed.

Lemma remove_numbers_length (s : string) :
  (String.length (remove_numbers s) <= String.length s)%nat.
Proof.
  induction s as [|c r IH]; [reflexivity|]. cbn [remove_numbers].
  destruct (is_digit c); cbn [String.length]; lia.
Qed.

Lemma remove_punctuation_length (s : string) :
  String.length (remove_punctuation s) = String.length s.
Proof. induction s as [|c r IH]; simpl; [reflexivity | now rewrite IH]. Qed.

Lemma collapse_length (b : bool) (s : string) :
  (String.length (collapse_spaces b s) <= String.length s)%nat.
Proof.
  revert b. induction s as [|c r IH]; intros b; [reflexivity|].
  cbn [collapse_spaces]. destruct (is_space c); [destruct b|];
    cbn [String.length];
    [specialize (IH true) | specialize (IH true) | specialize (IH false)]; lia.
Qed.

Lemma lstrip_length (s : string) :
  (String.length (lstrip s) <= String.length s)%nat.
Proof.
  induction s as [|c r IH]; [reflexivity|]. cbn [lstrip].
  destruct (is_space c); cbn [String.length]; lia.
Qed.

Lemma rstrip_length (s : string) :
  (String.length (rstrip s) <= String.length s)%nat.
Proof.
  induction s as [|c r IH]; [reflexivity|]. cbn [rstrip].
  destruct (all_space (String c r)); cbn [String.length]; lia.
Qed.

Lemma clean_text_shorter (s : string) :
  forall_chars final_char s = true -> url_free s = false ->
  (String.length (clean_text (Text s)) < String.length s)%nat.
Proof.
  intros Hc Hu. unfold clean_text.
  rewrite (lower_fixed s)
    by (apply (forall_chars_impl final_char); [|exact Hc];
        intros c H; apply final_char_facts in H;
        destruct H as [H _]; now rewrite H).
  pose proof (remove_urls_shorter s Hu) as H1.
  set (s1 := remove_urls s) in *.
  pose proof (remove_runs_length (tag_at "@") is_word false s1) as H2.
  fold (remove_mentions s1) in H2. set (s2 := remove_mentions s1) in *.
  pose proof (remove_runs_length (tag_at "#") is_word false s2) as H3.
  fold (remove_hashtags s2) in H3. set (s3 := remove_hashtags s2) in *.
  pose proof (remove_numbers_length s3) as H4.
  set (s4 := remove_numbers s3) in *.
  pose proof (remove_punctuation_length s4) as H5.
  set (s5 := remove_punctuation s4) in *.
  pose proof (collapse_length false s5) as H6.
  set (s6 := collapse_spaces false s5) in *.
  unfold strip.
  pose proof (lstrip_length s6) as H7.
  pose proof (rstrip_length (lstrip s6)) as H8. lia.
Qed.

(** C10, as amended: cleaning cleaned text changes nothing exactly when the
    cleaned text holds no ["http"] followed by a non-space character (which
    the removal of digits after the removal of URLs can produce); missing
    text included. *)
Theorem clean_text_idempotent_iff_url_free (text : cell) :
  clean_text (Text (clean_text text)) = clean_text text
  <-> url_free (clean_text text) = true.
Proof.
  destruct (clean_text_normal text) as [Hc Ht]. split.
  - intros E. destruct (url_free (clean_text text)) eqn:Eu; [reflexivity|].
    pose proof (clean_text_shorter _ Hc Eu) as H. rewrite E in H. lia.
  - intros Hu. now apply normal_fixed.
Qed.

(** C10 as stated fails: the digit in ["htt1px"] hides the URL prefix from
    the first pass, which returns ["httpx"]; the second pass deletes it. *)
Lemma clean_text_not_idempotent :
  clean_text (Text "htt1px") = "httpx"
  /\ clean_text (Text (clean_text (Text "htt1px"))) = ""
  /\ clean_text (Text (clean_text (Text "htt1px"))) <> clean_text (Text "htt1px").
Proof.
  split; [vm_compute; reflexivity|]. split; [vm_compute; reflexivity|].
  vm_compute. discriminate.
Qed.

End CleanFacts.

(** ** The samples of the source files and of the specification *)

Section Samples.
Import PyStr ThemeAnalyzer TextPreprocessor InsightsAnalyzer SentimentReport
       KeywordExtractor Cases.

(** The sample reviews at the end of [theme_analyzer.py]. *)
Example sample_reviews_themes :
  map (fun t => ThemeAnalyzer.classify (Text t))
      ["The app is very slow when transferring money";
       "I love the user interface design";
       "Login keeps failing with error messages";
       "Great customer support team"]
  = [["APP_PERFORMANCE"; "TRANSACTIONS"]; ["USER_INTERFACE"];
     ["RELIABILITY_ISSUES"; "SECURITY_ACCESS"]; ["CUSTOMER_SUPPORT"]].
Proof. vm_compute. reflexivity. Qed.

(** The sample text at the end of [text_preprocessor.py]. *)
Example sample_text_cleaned :
  clean_text (Text "The app is amazing! But it crashes sometimes. ")
  = "the app is amazing but it crashes sometimes"
  /\ tokenize_text (Text "The app is amazing! But it crashes sometimes. ")
     = ["the"; "app"; "amazing"; "but"; "crashes"; "sometimes"].
Proof. split; vm_compute; reflexivity. Qed.

(** The three reviews of the end-to-end example, cleaned and classified. *)
Example end_to_end_themes :
  map (fun t => ThemeAnalyzer.classify (Text (clean_text (Text t))))
      ["Great transfer speed!"; "Login keeps failing"; "Crashes during transfer"]
  = [["APP_PERFORMANCE"; "TRANSACTIONS"]; ["SECURITY_ACCESS"];
     ["APP_PERFORMANCE"; "TRANSACTIONS"]].
Proof. vm_compute. reflexivity. Qed.

(** Bank A of the end-to-end example: one POSITIVE and two NEGATIVE
    records, the pain points drawn from the two NEGATIVE ones, and no bias
    note. *)
Example bank_a_report :
  sentiment_by_bank bank_a_reviews
  = [("POSITIVE", [("A", Some 1%Z)]); ("NEGATIVE", [("A", Some 2%Z)])]
  /\ map (fun bp => top_pain_points (snd bp)) (identify_pain_points bank_a_reviews)
     = [[("SECURITY_ACCESS", 1%Z); ("APP_PERFORMANCE", 1%Z); ("TRANSACTIONS", 1%Z)]]
  /\ identify_ethical_considerations bank_a_reviews = [].
Proof. repeat split; vm_compute; reflexivity. Qed.

Example bigram_counts :
  extract_ngrams ["login keeps failing"; "login keeps crashing"] 2 15
  = [("login keeps", 2%Z); ("keeps failing", 1%Z); ("keeps crashing", 1%Z)].
Proof. vm_compute. reflexivity. Qed.

End Samples.

(** ** When a review gets a theme *)

Section ThemeMoreFacts.
Import PyStr ThemeAnalyzer TextPreprocessor WordMatch Normal Cases.

Lemma sum_Z_pos_exists {A} (f : A -> Z) (l : list A) :
  (forall x, 0 <= f x)%Z -> (0 < sum_Z (map f l))%Z ->
  exists x, In x l /\ (0 < f x)%Z.
Proof.
  intros Hf. induction l as [|a l IH]; simpl; [lia|]. intros H.
  destruct (Z_lt_le_dec 0 (f a)) as [Ha|Ha].
  - exists a. auto.
  - destruct IH as [x [Hx Hp]]; [lia|]. exists x. auto.
Qed.

Lemma sum_Z_ge_member {A} (f : A -> Z) (l : list A) (x : A) :
  (forall y, 0 <= f y)%Z -> In x l -> (f x <= sum_Z (map f l))%Z.
Proof.
  intros Hf. induction l as [|a l IH]; simpl; [tauto|].
  intros [-> | Hin].
  - assert (0 <= sum_Z (map f l))%Z; [|lia].
    clear IH. induction l as [|b l IHl]; simpl; [lia|]. specialize (Hf b). lia.
  - specialize (IH Hin). specialize (Hf a). lia.
Qed.

Lemma keyword_weight_pos_iff (text keyword : string) :
  (0 < keyword_weight text keyword)%Z <-> occurs keyword text.
Proof.
  unfold keyword_weight, occurs. rewrite <- contains_iff.
  destruct (contains keyword text); [destruct (contains _ _)|];
    split; intros H; try reflexivity; try lia; discriminate.
Qed.

Lemma taxonomy_keyword_nonempty theme keywords keyword :
  In (theme, keywords) theme_keywords -> In keyword keywords -> keyword <> "".
Proof.
  intros Ht Hk. pose proof taxonomy_keywords_visible as V.
  rewrite forallb_forall in V. specialize (V _ Ht). cbn [snd] in V.
  rewrite forallb_forall in V. specialize (V _ Hk).
  intros ->. discriminate V.
Qed.

Lemma occurs_in_empty (keyword : string) : occurs keyword "" -> keyword = "".
Proof.
  intros [pre [post H]]. destruct pre; [|discriminate].
  destruct keyword; [reflexivity | discriminate].
Qed.

(** X1: a review is given at least one theme exactly when some keyword of
    the taxonomy occurs in its lowercased text; the theme of largest score
    always passes the threshold. *)
Theorem some_theme_iff_some_keyword (text : string) :
  classify (Text text) <> []
  <-> exists theme keywords keyword,
      In (theme, keywords) theme_keywords /\ In keyword keywords
      /\ occurs keyword (lower text).
Proof.
  split.
  - intros Hne.
    destruct (classify (Text text)) as [|theme rest] eqn:E; [congruence|].
    assert (Htext : text <> "") by (intros ->; discriminate E).
    assert (Hin : In theme (classify (Text text))) by (rewrite E; now left).
    apply (classify_In text theme Htext) in Hin. destruct Hin as [s [Hin _]].
    apply score_themes_In in Hin. destruct Hin as [ks [Hks [-> Hpos]]].
    rewrite theme_score_sum in Hpos.
    apply sum_Z_pos_exists in Hpos;
      [|intros k; apply keyword_weight_range].
    destruct Hpos as [k [Hk Hw]]. exists theme, ks, k.
    split; [exact Hks|]. split; [exact Hk|]. now apply keyword_weight_pos_iff.
  - intros [theme [ks [k [Hks [Hk Ho]]]]].
    assert (Htext : text <> "").
    { intros ->. apply occurs_in_empty in Ho.
      now apply (taxonomy_keyword_nonempty _ _ _ Hks Hk). }
    set (ts := score_themes theme_keywords (lower text)).
    assert (Hin : In (theme, theme_score (lower text) ks) ts).
    { apply score_themes_In. exists ks. split; [exact Hks|]. split; [reflexivity|].
      rewrite theme_score_sum. apply keyword_weight_pos_iff in Ho.
      pose proof (sum_Z_ge_member (keyword_weight (lower text)) ks k
                    (fun y => proj1 (keyword_weight_range (lower text) y)) Hk).
      lia. }
    assert (Hts : ts <> []) by (intros E; rewrite E in Hin; destruct Hin).
    destruct (max_value_spec ts Hts) as [[top Htop] _].
    pose proof (score_themes_bounds _ _ _ Htop) as B.
    assert (Hres : In top (classify (Text text))).
    { apply (classify_In text top Htext). exists (max_value ts).
      split; [exact Htop|]. fold ts. rewrite (passes_default _ _ B B).
      apply Z.leb_le. lia. }
    intros E. rewrite E in Hres. destruct Hres.
Qed.

End ThemeMoreFacts.

(** ** The classifier on cleaned text *)

Section CleanedThemeFacts.
Import PyStr ThemeAnalyzer TextPreprocessor WordMatch Normal Cases.

Lemma forall_chars_app (p : ascii -> bool) (a b : string) :
  forall_chars p (a ++ b)%string = forall_chars p a && forall_chars p b.
Proof.
  induction a as [|c a IH]; simpl; [reflexivity|].
  now rewrite IH, andb_assoc.
Qed.

(** In text whose only whitespace is the space character, a word bounded
    by whitespace is a word bounded by spaces. *)
Lemma occurs_as_word_cleaned (text keyword : string) :
  forall_chars final_char text = true ->
  (occurs_as_word is_space keyword text <-> occurs_as_word is_blank keyword text).
Proof.
  intros Hc. split; [|apply occurs_as_word_mono; exact blank_is_space].
  intros [pre [post [E [Hpre Hpost]]]]. exists pre, post.
  split; [exact E|]. subst text. rewrite !forall_chars_app in Hc.
  apply andb_prop in Hc. destruct Hc as [Hp Hc].
  apply andb_prop in Hc. destruct Hc as [_ Hq]. split.
  - destruct Hpre as [-> | [p [c [-> Hs]]]]; [now left|].
    right. exists p, c. split; [reflexivity|].
    rewrite forall_chars_app in Hp. apply andb_prop in Hp. destruct Hp as [_ Hp].
    simpl in Hp. rewrite andb_true_r in Hp.
    apply final_char_facts in Hp. destruct Hp as [_ [_ [_ [_ [_ Hp]]]]].
    rewrite (Hp Hs). reflexivity.
  - destruct Hpost as [-> | [c [q [-> Hs]]]]; [now left|].
    right. exists c, q. split; [reflexivity|].
    simpl in Hq. apply andb_prop in Hq. destruct Hq as [Hq _].
    apply final_char_facts in Hq. destruct Hq as [_ [_ [_ [_ [_ Hq]]]]].
    rewrite (Hq Hs). reflexivity.
Qed.

Lemma weight_spec_cleaned (text keyword : string) (w : Z) :
  forall_chars final_char text = true ->
  (weight_spec is_space text keyword w <-> weight_spec is_blank text keyword w).
Proof.
  intros Hc. pose proof (occurs_as_word_cleaned text keyword Hc) as E.
  unfold weight_spec. tauto.
Qed.

Lemma is_score_cleaned (text : string) (keywords : list string) (s : Z) :
  forall_chars final_char text = true ->
  (is_score is_space text keywords s <-> is_score is_blank text keywords s).
Proof.
  intros Hc. unfold is_score.
  split; intros [ws [HF E]]; exists ws; (split; [|exact E]);
    revert HF; apply Forall2_impl; intros k w; now apply weight_spec_cleaned.
Qed.

Lemma is_max_score_cleaned taxonomy (text : string) (m : Z) :
  forall_chars final_char text = true ->
  (is_max_score is_space taxonomy text m <-> is_max_score is_blank taxonomy text m).
Proof.
  intros Hc. unfold is_max_score. split; intros [[t [ks [Hin Hs]]] Hall]; split.
  - exists t, ks. split; [exact Hin | now apply is_score_cleaned].
  - intros t' ks' s' Hin' Hs'. apply (Hall t' ks'); [exact Hin'|].
    now apply is_score_cleaned.
  - exists t, ks. split; [exact Hin | now apply is_score_cleaned].
  - intros t' ks' s' Hin' Hs'. apply (Hall t' ks'); [exact Hin'|].
    now apply is_score_cleaned in Hs'.
Qed.

(** Membership in the result, for words bounded by spaces. *)
Lemma classify_member (text theme : string) :
  text <> "" ->
  (In theme (classify (Text text))
   <-> exists keywords score max_score,
       In (theme, keywords) theme_keywords
       /\ is_score is_blank (lower text) keywords score
       /\ (0 < score)%Z
       /\ is_max_score is_blank theme_keywords (lower text) max_score
       /\ (1 # 10 <= inject_Z score / inject_Z max_score)%Q).
Proof.
  intros Hne. rewrite (classify_In text theme Hne).
  set (ts := score_themes theme_keywords (lower text)). split.
  - intros [s [Hin Hpass]].
    assert (Hts : ts <> []) by (intros E; rewrite E in Hin; destruct Hin).
    destruct (max_value_spec ts Hts) as [[k Hk] Hub].
    pose proof (score_themes_bounds _ _ _ Hin) as Bs.
    pose proof (score_themes_bounds _ _ _ Hk) as Bm.
    pose proof Hin as Hin'. apply score_themes_In in Hin'.
    destruct Hin' as [ks [Hks [Hs Hpos]]].
    exists ks, s, (max_value ts).
    split; [exact Hks|]. split; [now apply is_score_iff|].
    split; [exact Hpos|]. split.
    + apply (proj2 (is_max_score_iff (lower text) (max_value ts) Hts) eq_refl).
    + apply ratio_ge_tenth; [lia|].
      rewrite (passes_default _ _ Bs Bm) in Hpass. now apply Z.leb_le.
  - intros [ks [s [m [Hks [Hs [Hpos [Hmax Hratio]]]]]]].
    apply is_score_iff in Hs.
    assert (Hin : In (theme, s) ts).
    { apply score_themes_In. exists ks. auto. }
    assert (Hts : ts <> []) by (intros E; rewrite E in Hin; destruct Hin).
    apply (is_max_score_iff (lower text) m Hts) in Hmax. fold ts in Hmax.
    destruct (max_value_spec ts Hts) as [[k Hk] Hub].
    pose proof (score_themes_bounds _ _ _ Hin) as Bs.
    pose proof (score_themes_bounds _ _ _ Hk) as Bm.
    exists s. split; [exact Hin|].
    rewrite (passes_default _ _ Bs Bm). apply Z.leb_le.
    rewrite <- Hmax. apply ratio_ge_tenth; [lia | exact Hratio].
Qed.

Lemma clean_text_lower (x : cell) : lower (clean_text x) = clean_text x.
Proof.
  apply lower_fixed. destruct (clean_text_normal x) as [Hc _].
  revert Hc. apply forall_chars_impl. intros c Hc.
  apply final_char_facts in Hc. destruct Hc as [-> _]. reflexivity.
Qed.

(** X2: on the text [clean_text] produces, which is what the pipeline
    hands to the classifier, a keyword weighs 2 exactly when it occurs as a
    word bounded by whitespace or the ends of the text, 1 when it occurs
    only inside a word, 0 when it does not occur; a theme is returned
    exactly when its score is positive and at least a tenth of the largest
    score.  Lowercasing changes nothing in such text. *)
Theorem cleaned_text_whole_words (x : cell) (theme : string) :
  let text := clean_text x in
  lower text = text
  /\ (forall keyword,
         weight_spec is_space text keyword (keyword_weight text keyword))
  /\ (In theme (classify (Text text))
      <-> exists keywords score max_score,
          In (theme, keywords) theme_keywords
          /\ is_score is_space text keywords score
          /\ (0 < score)%Z
          /\ is_max_score is_space theme_keywords text max_score
          /\ (1 # 10 <= inject_Z score / inject_Z max_score)%Q).
Proof.
  intros text. pose proof (clean_text_lower x) as Hl. fold text in Hl.
  destruct (clean_text_normal x) as [Hc _]. fold text in Hc.
  split; [exact Hl|]. split.
  - intros keyword. apply weight_spec_cleaned; [exact Hc|].
    apply keyword_weight_spec.
  - destruct (string_dec text "") as [E | Hne].
    + rewrite E. split; [intros []|].
      intros [ks [s [m [Hks [Hs [Hpos _]]]]]].
      rewrite <- E in Hs. apply (is_score_cleaned text ks s Hc) in Hs.
      apply is_score_iff in Hs. rewrite E in Hs.
      pose proof taxonomy_keywords_visible as V.
      rewrite forallb_forall in V. specialize (V _ Hks). cbn [snd] in V.
      rewrite (blank_theme_score "" ks V eq_refl) in Hs. lia.
    + rewrite (classify_member text theme Hne), Hl.
      split; intros [ks [s [m [Hks [Hs [Hpos [Hmax Hr]]]]]]];
        exists ks, s, m; (split; [exact Hks|]); (split; [|split; [exact Hpos|split; [|exact Hr]]]).
      * now apply is_score_cleaned.
      * now apply is_max_score_cleaned.
      * now apply is_score_cleaned in Hs.
      * now apply is_max_score_cleaned in Hmax.
Qed.

End CleanedThemeFacts.

(** ** Sample reviews *)

Section SampleFacts.
Import PyStr ThemeAnalyzer ThemeSamples Cases.

Lemma filter_map_swap {A B} (f : B -> bool) (g : A -> B) (l : list A) :
  filter f (map g l) = map g (filter (fun x => f (g x)) l).
Proof.
  induction l as [|x l IH]; simpl; [reflexivity|].
  destruct (f (g x)); simpl; now rewrite IH.
Qed.

Lemma theme_samples_keys taxonomy df n :
  map fst (get_theme_samples_with taxonomy df n)
  = filter (fun t => (0 <? List.length (with_theme t df))%nat) (map fst taxonomy).
Proof.
  unfold get_theme_samples_with.
  induction taxonomy as [|[t ks] rest IH]; simpl; [reflexivity|].
  rewrite map_app, IH. destruct (0 <? List.length (with_theme t df))%nat; reflexivity.
Qed.

Lemma theme_samples_In taxonomy df n theme samples :
  In (theme, samples) (get_theme_samples_with taxonomy df n)
  <-> In theme (map fst taxonomy)
      /\ with_theme theme df <> []
      /\ samples = map review_cleaned (firstn n (with_theme theme df)).
Proof.
  unfold get_theme_samples_with. rewrite in_flat_map. split.
  - intros [[t ks] [Hin H]]. cbn [fst] in H.
    destruct (0 <? List.length (with_theme t df))%nat eqn:E; [|destruct H].
    destruct H as [H | []]. injection H as <- <-.
    split; [apply in_map_iff; exists (t, ks); auto|]. split; [|reflexivity].
    intros E0. rewrite E0 in E. discriminate E.
  - intros [Hin [Hne ->]]. apply in_map_iff in Hin.
    destruct Hin as [[t ks] [E Hin]]. cbn [fst] in E. subst t.
    exists (theme, ks). split; [exact Hin|]. cbn [fst].
    destruct (with_theme theme df) as [|r rs] eqn:E; [congruence|].
    simpl. now left.
Qed.

Lemma with_theme_bank_df theme rows :
  with_theme theme (bank_df rows)
  = bank_df (filter (fun r => existsb (String.eqb theme) (classify (Text (snd r)))) rows).
Proof. unfold with_theme, bank_df. now rewrite filter_map_swap. Qed.

(** X3: the sample reviews of a bank.  No theme is listed twice; a theme
    is listed exactly when the classifier gives it to one of the bank's
    reviews; and the samples of a listed theme are the first two such
    reviews in frame order (one, when there is only one). *)
Theorem theme_samples_sound_complete (rows : list (cell * string)) (theme : string) :
  let listed := get_theme_samples (bank_df rows) in
  let tagged :=
    filter (fun r => existsb (String.eqb theme) (classify (Text (snd r)))) rows in
  NoDup (map fst listed)
  /\ ((exists samples, In (theme, samples) listed)
      <-> exists r, In r rows /\ In theme (classify (Text (snd r))))
  /\ (forall samples,
         In (theme, samples) listed ->
         samples = map fst (firstn 2 tagged)
         /\ (1 <= List.length samples <= 2)%nat
         /\ forall s, In s samples ->
                      exists r, In r rows /\ fst r = s
                                /\ In theme (classify (Text (snd r)))).
Proof.
  intros listed tagged. unfold listed, get_theme_samples.
  assert (Htag : with_theme theme (bank_df rows) = bank_df tagged)
    by apply with_theme_bank_df.
  split; [|split].
  - rewrite theme_samples_keys. apply NoDup_filter, taxonomy_names_NoDup.
  - split.
    + intros [samples H]. apply theme_samples_In in H.
      destruct H as [_ [Hne _]]. rewrite Htag in Hne.
      destruct tagged as [|r rs] eqn:E; [now destruct Hne|].
      assert (Hr : In r tagged) by (rewrite E; now left).
      apply filter_In in Hr. destruct Hr as [Hr Ht].
      exists r. split; [exact Hr | now apply existsb_eqb_In].
    + intros [r [Hr Ht]].
      exists (map review_cleaned (firstn 2 (with_theme theme (bank_df rows)))).
      apply theme_samples_In. split; [|split; [|reflexivity]].
      * apply (subseq_incl _ _ (classify_subseq theme_keywords (Text (snd r))
                                  default_threshold)). exact Ht.
      * rewrite Htag. intros E.
        assert (Hin : In r tagged).
        { apply filter_In. split; [exact Hr | now apply existsb_eqb_In]. }
        destruct tagged; [destruct Hin | discriminate E].
  - intros samples H. apply theme_samples_In in H.
    destruct H as [_ [Hne ->]]. rewrite Htag in *.
    assert (E : map review_cleaned (firstn 2 (bank_df tagged))
                = map fst (firstn 2 tagged)).
    { unfold bank_df. rewrite firstn_map, map_map. reflexivity. }
    rewrite E. split; [reflexivity|]. split.
    + rewrite length_map, length_firstn.
      assert (0 < List.length tagged)%nat; [|lia].
      destruct tagged as [|r rs]; [now destruct Hne | simpl; lia].
    + intros s Hs. apply in_map_iff in Hs. destruct Hs as [r [<- Hr]].
      apply firstn_In in Hr. apply filter_In in Hr. destruct Hr as [Hr Ht].
      exists r. split; [exact Hr|]. split; [reflexivity|].
      now apply existsb_eqb_In.
Qed.

End SampleFacts.

(** ** The theme column, written and read back *)

Section SavedThemesFacts.
Import PyStr Pandas ThemeAnalyzer TextPreprocessor SentimentAnalyzer.
Import InsightsAnalyzer Pipeline Normal Cases Notions.

Lemma split_on_aux_word (sep : ascii) (w cur rest : string) :
  forall_chars (fun c => negb (Ascii.eqb c sep)) w = true ->
  split_on_aux sep cur (w ++ rest) = split_on_aux sep (cur ++ w) rest.
Proof.
  revert cur. induction w as [|c w IH]; intros cur H; simpl.
  - now rewrite append_empty_r.
  - simpl in H. apply andb_prop in H. destruct H as [Hc Hw].
    apply negb_true_iff in Hc. rewrite Hc, (IH _ Hw), append_assoc. reflexivity.
Qed.

Lemma split_joined (a cur : string) (l : list string) :
  forallb storable (a :: l) = true ->
  split_on_aux "," cur (join ", " (a :: l))
  = (cur ++ a)%string :: map (fun t => (" " ++ t)%string) l.
Proof.
  revert a cur. induction l as [|b l IH]; intros a cur H.
  - cbn [join concat map]. rewrite <- (append_empty_r a) at 1.
    rewrite split_on_aux_word; [reflexivity|].
    cbn [forallb] in H. rewrite andb_true_r in H. unfold storable in H.
    apply andb_prop in H. destruct H as [H _].
    apply andb_prop in H. now destruct H.
  - change (join ", " (a :: b :: l))
      with (a ++ String "," (String " " (join ", " (b :: l))))%string.
    cbn [forallb] in H. apply andb_prop in H. destruct H as [Ha H].
    rewrite split_on_aux_word.
    + cbn [split_on_aux]. rewrite Ascii.eqb_refl.
      change (Ascii.eqb " " ",") with false. cbv iota.
      rewrite (IH b _ H). reflexivity.
    + unfold storable in Ha. apply andb_prop in Ha. destruct Ha as [Ha _].
      apply andb_prop in Ha. now destruct Ha.
Qed.

Lemma strip_after_space (t : string) : strip (" " ++ t) = strip t.
Proof. reflexivity. Qed.

Lemma theme_list_cons_storable (pieces : list string) :
  forallb storable pieces = true ->
  map strip (filter (fun t => negb (strip t =? "No themes"))
                    (map (fun t => (" " ++ t)%string) pieces))
  = pieces.
Proof.
  induction pieces as [|p ps IH]; intros H; [reflexivity|].
  cbn [forallb] in H. apply andb_prop in H. destruct H as [Hp H].
  cbn [map filter]. rewrite strip_after_space.
  unfold storable in Hp. apply andb_prop in Hp. destruct Hp as [Hp Hn].
  apply andb_prop in Hp. destruct Hp as [Hs _]. apply String.eqb_eq in Hs.
  rewrite Hs, Hn. cbn [map]. rewrite strip_after_space, Hs. now rewrite (IH H).
Qed.

(** Joining with [", "] and parsing back gives the list again. *)
Lemma theme_list_join_themes (l : list string) :
  forallb storable l = true -> theme_list (join_themes l) = l.
Proof.
  intros H. destruct l as [|a l]; [reflexivity|].
  unfold join_themes, theme_list, split_on. rewrite (split_joined a "" l H).
  cbn [forallb] in H. apply andb_prop in H. destruct H as [Ha H].
  cbn [append filter].
  unfold storable in Ha. apply andb_prop in Ha. destruct Ha as [Ha Hn].
  apply andb_prop in Ha. destruct Ha as [Hs _]. apply String.eqb_eq in Hs.
  rewrite Hs, Hn. cbn [map]. rewrite Hs. f_equal.
  now apply theme_list_cons_storable.
Qed.

Lemma taxonomy_names_storable : forallb storable (map fst theme_keywords) = true.
Proof. vm_compute. reflexivity. Qed.

Lemma classify_storable (text : cell) (threshold : float) :
  forallb storable (classify_review_themes text threshold) = true.
Proof.
  apply forallb_forall. intros t Ht.
  apply (subseq_incl _ _ (classify_subseq theme_keywords text threshold)) in Ht.
  pose proof taxonomy_names_storable as S. rewrite forallb_forall in S. auto.
Qed.

(** X4: what [save_results] writes to the theme column is read back by the
    insights analyzer as the list the classifier returned: the themes in
    the same order, and no theme for the marker ["No themes"].  The round
    trip holds for any list of names without commas and outer whitespace
    that are not the marker, which the names of the taxonomy are. *)
Theorem saved_themes_round_trip (text : cell) (threshold : float) :
  theme_list (join_themes (classify_review_themes text threshold))
  = classify_review_themes text threshold
  /\ theme_list (join_themes []) = []
  /\ forallb storable (map fst theme_keywords) = true
  /\ forall themes,
      forallb storable themes = true -> theme_list (join_themes themes) = themes.
Proof.
  split; [apply theme_list_join_themes, classify_storable|].
  split; [reflexivity|].
  split; [exact taxonomy_names_storable|].
  exact theme_list_join_themes.
Qed.

End SavedThemesFacts.

(** ** The analyzed frame *)

Section PipelineFacts.
Import PyStr Pandas ThemeAnalyzer TextPreprocessor SentimentAnalyzer.
Import InsightsAnalyzer Pipeline Normal Cases Notions.

Lemma analyze_dataframe_fst self B texts :
  fst (analyze_dataframe self B texts)
  = map (fun t => fst (analyze_one self B t)) texts.
Proof.
  induction texts as [|t ts IH]; [reflexivity|].
  cbn [analyze_dataframe map]. unfold bind, ret.
  destruct (analyze_one self B t) as [r l1].
  destruct (analyze_dataframe self B ts) as [rs l2].
  cbn [fst] in *. now rewrite IH.
Qed.

Lemma analyze_dataframe_snd self B texts :
  snd (analyze_dataframe self B texts)
  = flat_map (fun t => snd (analyze_one self B t)) texts.
Proof.
  induction texts as [|t ts IH]; [reflexivity|].
  cbn [analyze_dataframe flat_map]. unfold bind, ret.
  destruct (analyze_one self B t) as [r l1].
  destruct (analyze_dataframe self B ts) as [rs l2].
  cbn [snd] in *. now rewrite app_nil_r, IH.
Qed.

Lemma distilbert_label B text :
  In (fst (fst (analyze_sentiment_distilbert B text)))
     ["POSITIVE"; "NEGATIVE"; "NEUTRAL"].
Proof.
  unfold analyze_sentiment_distilbert.
  destruct ((text =? "") || (String.length (strip text) =? 0)%nat);
    [simpl; auto|].
  unfold bind, invoke, ret.
  destruct (classifier B (take 512 text)) as [[label score]|]; [|simpl; auto].
  destruct (label =? "POSITIVE"); [simpl; auto|].
  destruct (label =? "NEGATIVE"); simpl; auto.
Qed.

Lemma textblob_label B text :
  In (fst (fst (analyze_sentiment_textblob B text)))
     ["POSITIVE"; "NEGATIVE"; "NEUTRAL"].
Proof.
  unfold analyze_sentiment_textblob, bind, invoke, ret.
  destruct (Qgtb (polarity B text) (1 # 10)); [simpl; auto|].
  destruct (Qgtb (- (1 # 10)) (polarity B text)); simpl; auto.
Qed.

Lemma analyze_one_label self B text :
  In (fst (fst (analyze_one self B text))) ["POSITIVE"; "NEGATIVE"; "NEUTRAL"].
Proof.
  unfold analyze_one. destruct (model_loaded self); [apply distilbert_label|].
  destruct (use_textblob self); [apply textblob_label | simpl; auto].
Qed.

Lemma combine_map_both {A B C} (f : A -> B) (g : A -> C) (l : list A) :
  combine (map f l) (map g l) = map (fun x => (f x, g x)) l.
Proof. induction l as [|x l IH]; simpl; [reflexivity | now rewrite IH]. Qed.

Lemma combine_map_right {A B} (f : A -> B) (l : list A) :
  combine l (map f l) = map (fun x => (x, f x)) l.
Proof. induction l as [|x l IH]; simpl; [reflexivity | now rewrite IH]. Qed.

(** The analyzed frame, row by row. *)
Lemma main_analysis_fst self B df :
  fst (main_analysis self B df)
  = map (fun r =>
           analysis_row r
             (fst (analyze_one self B (clean_text (review_cleaned r))))
             (ThemeAnalyzer.classify (Text (clean_text (review_cleaned r)))))
        df.
Proof.
  unfold main_analysis, bind, ret.
  pose proof (analyze_dataframe_fst self B
                (map (fun r => clean_text (review_cleaned r)) df)) as E.
  destruct (analyze_dataframe self B _) as [sentiments log].
  cbn [fst] in *. subst sentiments. rewrite !map_map.
  rewrite combine_map_both, combine_map_right, map_map. reflexivity.
Qed.

Lemma main_analysis_snd self B df :
  snd (main_analysis self B df)
  = flat_map (fun r => snd (analyze_one self B (clean_text (review_cleaned r)))) df.
Proof.
  unfold main_analysis, bind, ret.
  pose proof (analyze_dataframe_snd self B
                (map (fun r => clean_text (review_cleaned r)) df)) as E.
  destruct (analyze_dataframe self B _) as [sentiments log].
  cbn [snd] in *. subst log. rewrite app_nil_r, flat_map_concat_map, map_map.
  now rewrite <- flat_map_concat_map.
Qed.

(** X5: the analyzed frame has one row per review, in the order of the
    input: the bank and the rating are the review's, the sentiment is the
    one the analyzer gives the processed text, with a label among
    POSITIVE, NEGATIVE and NEUTRAL, and the theme column, parsed the way
    the insights analyzer parses it, gives the themes of the processed
    text.  The analyzers are called in row order. *)
Theorem main_analysis_rows self B (df : list Input) :
  let processed := fun r => clean_text (review_cleaned r) in
  Forall2 (fun r o =>
             bank o = input_bank r
             /\ rating o = input_rating r
             /\ (sentiment_label o, sentiment_score o)
                = fst (analyze_one self B (processed r))
             /\ In (sentiment_label o) ["POSITIVE"; "NEGATIVE"; "NEUTRAL"]
             /\ exists themes,
                 identified_themes o = Text themes
                 /\ theme_list themes
                    = ThemeAnalyzer.classify (Text (processed r)))
          df (fst (main_analysis self B df))
  /\ snd (main_analysis self B df)
     = flat_map (fun r => snd (analyze_one self B (processed r))) df.
Proof.
  intros processed. split; [|apply main_analysis_snd].
  rewrite main_analysis_fst. fold processed.
  induction df as [|r df IH]; [constructor|].
  cbn [map]. constructor; [|exact IH].
  unfold analysis_row. cbn [bank rating sentiment_label sentiment_score identified_themes].
  split; [reflexivity|]. split; [reflexivity|].
  split; [symmetry; apply surjective_pairing|].
  split; [apply analyze_one_label|].
  eexists. split; [reflexivity|].
  apply theme_list_join_themes, classify_storable.
Qed.

Lemma classify_NoDup text threshold :
  NoDup (classify_review_themes text threshold).
Proof.
  pose proof (classify_subseq theme_keywords text threshold) as Hs.
  unfold classify_review_themes.
  rewrite (subseq_is_filter _ _ taxonomy_names_NoDup Hs).
  apply NoDup_filter, taxonomy_names_NoDup.
Qed.

Lemma count_app {K} (eqb : K -> K -> bool) (k : K) (a b : list K) :
  count eqb k (a ++ b) = (count eqb k a + count eqb k b)%Z.
Proof. unfold count. rewrite filter_app, length_app. lia. Qed.

Lemma count_NoDup (k : string) (l : list string) :
  NoDup l ->
  count String.eqb k l = if existsb (String.eqb k) l then 1%Z else 0%Z.
Proof.
  intros H. induction H as [|x l Hx H IH]; [reflexivity|].
  change (x :: l) with ([x] ++ l). rewrite count_app, IH.
  cbn [existsb app]. unfold count. cbn [filter].
  destruct (k =? x) eqn:E; cbn [orb List.length].
  - apply String.eqb_eq in E. subst x.
    destruct (existsb (String.eqb k) l) eqn:E2; [|reflexivity].
    apply existsb_eqb_In in E2. contradiction.
  - destruct (existsb (String.eqb k) l); reflexivity.
Qed.

(** Counting a value in lists without repetition counts the lists that
    hold it. *)
Lemma count_flat_map_NoDup {A} (f : A -> list string) (k : string) (l : list A) :
  (forall x, In x l -> NoDup (f x)) ->
  count String.eqb k (flat_map f l)
  = Z.of_nat (List.length (filter (fun x => existsb (String.eqb k) (f x)) l)).
Proof.
  induction l as [|x l IH]; intros H; [reflexivity|].
  cbn [flat_map filter]. rewrite count_app, IH by (intros y Hy; apply H; now right).
  rewrite (count_NoDup k (f x)) by (apply H; now left).
  destruct (existsb (String.eqb k) (f x)); cbn [List.length]; lia.
Qed.

Lemma pain_points_entry (df : DataFrame) (b : string) (pp : PainPoints) :
  In (b, pp) (identify_pain_points df) -> pp = pain_points_of (where_bank b df).
Proof.
  unfold identify_pain_points. intros H. apply in_map_iff in H.
  destruct H as [b' [E _]]. congruence.
Qed.

Section AnalyzedRows.
Variable sent : Input -> Sentiment.
Variable cls : Input -> list string.
Hypothesis cls_NoDup : forall r, NoDup (cls r).
Hypothesis cls_storable : forall r, forallb storable (cls r) = true.

Let g := fun r => analysis_row r (sent r) (cls r).

Lemma collect_themes_analyzed (rows : list Input) :
  collect_themes (map g rows) = flat_map cls rows.
Proof.
  unfold collect_themes. induction rows as [|r rows IH]; [reflexivity|].
  cbn [map flat_map]. rewrite IH. f_equal.
  unfold g, analysis_row. cbn [identified_themes].
  apply theme_list_join_themes, cls_storable.
Qed.

Lemma where_analyzed (label b : string) (rows : list Input) :
  where_label label (where_bank b (map g rows))
  = map g (filter (fun r => (input_bank r =? b) && (fst (sent r) =? label)) rows).
Proof.
  unfold where_label, where_bank. rewrite !filter_map_swap. f_equal.
  induction rows as [|r rows IH]; [reflexivity|]. cbn [filter].
  change (bank (g r)) with (input_bank r).
  destruct (input_bank r =? b); cbn [filter andb]; [|exact IH].
  change (sentiment_label (g r)) with (fst (sent r)).
  destruct (fst (sent r) =? label); now rewrite IH.
Qed.

Lemma filter_filter_length {A} (p q : A -> bool) (l : list A) :
  List.length (filter q (filter p l))
  = List.length (filter (fun x => p x && q x) l).
Proof.
  induction l as [|x l IH]; [reflexivity|]. cbn [filter].
  destruct (p x); cbn [filter andb]; [|exact IH].
  destruct (q x); cbn [List.length]; now rewrite IH.
Qed.

Lemma analyzed_theme_counts (label b theme : string) (c : Z) (rows : list Input) :
  In (theme, c)
     (value_counts String.eqb
        (collect_themes (where_label label (where_bank b (map g rows))))) ->
  c = Z.of_nat (List.length
        (filter (fun r => (input_bank r =? b) && (fst (sent r) =? label)
                          && existsb (String.eqb theme) (cls r)) rows))
  /\ (0 < c <= len (where_label label (where_bank b (map g rows))))%Z
  /\ exists r, In r rows /\ In theme (cls r).
Proof.
  intros Hc. rewrite where_analyzed in Hc |- *.
  set (sel := filter (fun r => (input_bank r =? b) && (fst (sent r) =? label)) rows) in *.
  rewrite collect_themes_analyzed in Hc.
  apply (value_counts_In String.eqb String.eqb_eq) in Hc. destruct Hc as [Hin ->].
  rewrite count_flat_map_NoDup by (intros; apply cls_NoDup).
  split; [unfold sel; now rewrite filter_filter_length|].
  apply in_flat_map in Hin. destruct Hin as [r [Hr Ht]].
  split; [split|].
  - assert (Hf : In r (filter (fun x => existsb (String.eqb theme) (cls x)) sel)).
    { apply filter_In. split; [exact Hr | now apply existsb_eqb_In]. }
    destruct (filter _ sel); [destruct Hf | simpl; lia].
  - unfold len. rewrite length_map.
    pose proof (filter_length_le (fun x => existsb (String.eqb theme) (cls x)) sel).
    lia.
  - exists r. split; [|exact Ht]. unfold sel in Hr. now apply filter_In in Hr.
Qed.

End AnalyzedRows.

(** X6: end to end, the count of a pain point is a count of reviews: the
    number of the bank's reviews that the analyzer labels NEGATIVE and
    whose processed text the classifier gives the theme.  It is positive,
    no larger than the bank's number of NEGATIVE reviews, and the theme is
    one of the taxonomy. *)
Theorem pain_point_counts_reviews self B (df : list Input)
        (b : string) (pp : PainPoints) (theme : string) (c : Z) :
  let processed := fun r => clean_text (review_cleaned r) in
  In (b, pp) (identify_pain_points (fst (main_analysis self B df))) ->
  In (theme, c) (top_pain_points pp) ->
  c = Z.of_nat (List.length
        (filter (fun r =>
                   (input_bank r =? b)
                   && (fst (fst (analyze_one self B (processed r))) =? "NEGATIVE")
                   && existsb (String.eqb theme)
                              (ThemeAnalyzer.classify (Text (processed r))))
                df))
  /\ (0 < c <= negative_review_count pp)%Z
  /\ In theme taxonomy_order.
Proof.
  intros processed Hpp Hc. apply pain_points_entry in Hpp. subst pp.
  rewrite main_analysis_fst in Hc |- *.
  unfold pain_points_of in Hc |- *. cbv zeta in Hc |- *.
  destruct (0 <? len _)%Z; [|destruct Hc].
  cbn [top_pain_points negative_review_count] in Hc |- *.
  apply firstn_In in Hc.
  apply (analyzed_theme_counts
           (fun r => fst (analyze_one self B (processed r)))
           (fun r => ThemeAnalyzer.classify (Text (processed r)))
           (fun r => classify_NoDup _ _) (fun r => classify_storable _ _)) in Hc.
  destruct Hc as [Hc [Hb [r [_ Ht]]]]. split; [exact Hc|]. split; [exact Hb|].
  apply (subseq_incl _ _ (classify_subseq theme_keywords (Text (processed r))
                            default_threshold)). exact Ht.
Qed.

Lemma pain_point_counts_reviews_witness :
  In ("A", pain_points_of
             (where_bank "A" (fst (main_analysis lexicon gloomy [slow_review]))))
     (identify_pain_points (fst (main_analysis lexicon gloomy [slow_review])))
  /\ In ("APP_PERFORMANCE", 1%Z)
        (top_pain_points
           (pain_points_of
              (where_bank "A" (fst (main_analysis lexicon gloomy [slow_review])))))
  /\ In "APP_PERFORMANCE" taxonomy_order.
Proof.
  assert (H1 : In ("A", pain_points_of
                          (where_bank "A" (fst (main_analysis lexicon gloomy [slow_review]))))
                  (identify_pain_points (fst (main_analysis lexicon gloomy [slow_review]))))
    by (vm_compute; left; reflexivity).
  assert (H2 : In ("APP_PERFORMANCE", 1%Z)
                  (top_pain_points
                     (pain_points_of
                        (where_bank "A" (fst (main_analysis lexicon gloomy [slow_review]))))))
    by (vm_compute; left; reflexivity).
  split; [exact H1|]. split; [exact H2|].
  exact (proj2 (proj2 (pain_point_counts_reviews lexicon gloomy [slow_review]
                         "A" _ "APP_PERFORMANCE" 1%Z H1 H2))).
Defined.

End PipelineFacts.

(** ** N-grams *)

Section NgramFacts.
Import PyStr Pandas KeywordExtractor WordMatch Normal Notions.

Lemma list_eqb_eq (a b : list string) : list_eqb a b = true <-> a = b.
Proof.
  revert b. induction a as [|x a IH]; intros [|y b]; simpl;
    try (split; [discriminate | discriminate]); [tauto|].
  rewrite andb_true_iff, String.eqb_eq, IH. split.
  - intros [-> ->]. reflexivity.
  - intros E. injection E as -> ->. auto.
Qed.

Lemma split_ws_aux_words (s cur : string) :
  forall_chars (fun c => negb (is_space c)) cur = true ->
  forallb word (split_ws_aux cur s) = true.
Proof.
  revert cur. induction s as [|c r IH]; intros cur Hcur; cbn [split_ws_aux].
  - destruct cur as [|x cur]; [reflexivity|].
    cbn [forallb]. unfold word. now rewrite Hcur.
  - destruct (is_space c) eqn:Hc.
    + destruct cur as [|x cur]; [now apply IH|].
      cbn [forallb]. unfold word at 1. rewrite Hcur. now apply IH.
    + apply IH. rewrite forall_chars_app, Hcur. simpl. now rewrite Hc.
Qed.

Lemma split_ws_words (s : string) : forallb word (split_ws s) = true.
Proof. now apply split_ws_aux_words. Qed.

Lemma split_ws_aux_run (w cur rest : string) :
  forall_chars (fun c => negb (is_space c)) w = true ->
  split_ws_aux cur (w ++ rest) = split_ws_aux (cur ++ w) rest.
Proof.
  revert cur. induction w as [|c w IH]; intros cur H; simpl.
  - now rewrite append_empty_r.
  - simpl in H. apply andb_prop in H. destruct H as [Hc Hw].
    apply negb_true_iff in Hc. rewrite Hc, (IH _ Hw), append_assoc. reflexivity.
Qed.

(** Splitting the words joined by single spaces gives the words back. *)
Lemma split_ws_join (ws : list string) :
  forallb word ws = true -> split_ws (join " " ws) = ws.
Proof.
  destruct ws as [|a l]; [reflexivity|]. revert a.
  induction l as [|b l IH]; intros a H; unfold split_ws in *.
  - cbn [join concat]. cbn [forallb] in H. rewrite andb_true_r in H.
    unfold word in H. apply andb_prop in H. destruct H as [Hne Hw].
    rewrite <- (append_empty_r a) at 1. rewrite split_ws_aux_run by exact Hw.
    cbn [append split_ws_aux]. destruct a; [discriminate Hne | reflexivity].
  - change (join " " (a :: b :: l))
      with (a ++ String " " (join " " (b :: l)))%string.
    cbn [forallb] in H. apply andb_prop in H. destruct H as [Ha H].
    unfold word in Ha. apply andb_prop in Ha. destruct Ha as [Hne Hw].
    rewrite split_ws_aux_run by exact Hw. cbn [append split_ws_aux].
    change (is_space " ") with true. cbv iota.
    destruct a; [discriminate Hne|]. now rewrite (IH b H).
Qed.

Lemma skipn_In {A} (i : nat) (l : list A) (x : A) : In x (skipn i l) -> In x l.
Proof.
  revert l. induction i as [|i IH]; intros l H; [exact H|].
  destruct l as [|y l]; [destruct H|]. right. now apply IH.
Qed.

Lemma window_words (n i : nat) (words : list string) :
  forallb word words = true ->
  forallb word (firstn n (skipn i words)) = true.
Proof.
  intros H. apply forallb_forall. intros w Hw.
  apply firstn_In, skipn_In in Hw. rewrite forallb_forall in H. auto.
Qed.

Lemma window_length {A} (n i : nat) (words : list A) :
  In i (seq 0 (List.length words + 1 - n)) ->
  List.length (firstn n (skipn i words)) = n.
Proof.
  intros H. apply in_seq in H. rewrite length_firstn, length_skipn. lia.
Qed.

Lemma count_flat_map {A} (f : A -> list string) (k : string) (l : list A) :
  count String.eqb k (flat_map f l)
  = sum_Z (map (fun x => count String.eqb k (f x)) l).
Proof.
  induction l as [|x l IH]; [reflexivity|].
  cbn [flat_map map sum_Z fold_right]. rewrite count_app, IH. reflexivity.
Qed.

(** *** The order of [most_common] and [value_counts] *)

Lemma insert_desc_sorted {K} (x : K * Z) (l : list (K * Z)) :
  by_count_desc l -> by_count_desc (insert_desc x l).
Proof.
  unfold by_count_desc. intros H. induction H as [|y r Hr IH Hy]; cbn [insert_desc].
  - constructor; constructor.
  - destruct (snd y <=? snd x)%Z eqn:E.
    + apply Z.leb_le in E. constructor; [now constructor|].
      constructor; [exact E|]. revert Hy. apply Forall_impl. intros z Hz. lia.
    + apply Z.leb_gt in E. constructor; [exact IH|].
      apply (Permutation_Forall (Permutation_sym (insert_desc_perm x r))).
      constructor; [lia | exact Hy].
Qed.

Lemma sort_desc_sorted {K} (l : list (K * Z)) : by_count_desc (sort_desc l).
Proof.
  induction l as [|x l IH]; [constructor|]. now apply insert_desc_sorted.
Qed.

Lemma value_counts_sorted {K} (eqb : K -> K -> bool) (l : list K) :
  by_count_desc (value_counts eqb l).
Proof. apply sort_desc_sorted. Qed.

Lemma firstn_sorted {K} (n : nat) (l : list (K * Z)) :
  by_count_desc l -> by_count_desc (firstn n l).
Proof.
  unfold by_count_desc. intros H. revert n.
  induction H as [|y r Hr IH Hy]; intros [|n]; cbn [firstn]; try constructor.
  - apply IH.
  - apply Forall_forall. intros z Hz. apply firstn_In in Hz.
    rewrite Forall_forall in Hy. auto.
Qed.

Lemma firstn_NoDup {A} (n : nat) (l : list A) : NoDup l -> NoDup (firstn n l).
Proof.
  intros H. revert n. induction H as [|x l Hx H IH]; intros [|n]; cbn [firstn];
    try constructor.
  - intros Hin. apply firstn_In in Hin. contradiction.
  - apply IH.
Qed.

Lemma firstn_keys_NoDup {K V} (n : nat) (l : list (K * V)) :
  NoDup (map fst l) -> NoDup (map fst (firstn n l)).
Proof. intros H. rewrite <- firstn_map. now apply firstn_NoDup. Qed.

(** X7: the n-grams [extract_ngrams] returns.  At most [top_n] of them,
    no n-gram twice, larger counts first.  Each is [n] words joined by
    single spaces, and its count is the number of places, over all the
    texts, at which these words follow one another in the text's words;
    the count is positive. *)
Theorem ngrams_count_word_windows (texts : list string) (n top_n : nat) :
  let result := extract_ngrams texts n top_n in
  (List.length result <= top_n)%nat
  /\ NoDup (map fst result)
  /\ by_count_desc result
  /\ forall g c,
      In (g, c) result ->
      let ws := split_ws g in
      List.length ws = n
      /\ g = join " " ws
      /\ c = sum_Z (map (fun text =>
                           Z.of_nat (List.length (occurrences ws (split_ws text))))
                        texts)
      /\ (0 < c)%Z.
Proof.
  intros result. unfold result, extract_ngrams.
  set (F := fun text =>
              map (fun i => join " " (firstn n (skipn i (split_ws text))))
                  (seq 0 (List.length (split_ws text) + 1 - n))).
  change (flat_map _ texts) with (flat_map F texts).
  split; [apply firstn_le_length|].
  split; [apply firstn_keys_NoDup, (value_counts_NoDup String.eqb String.eqb_eq)|].
  split; [apply firstn_sorted, value_counts_sorted|].
  intros g c Hgc. set (ws := split_ws g). apply firstn_In in Hgc.
  apply (value_counts_In String.eqb String.eqb_eq) in Hgc. destruct Hgc as [Hg ->].
  assert (Hws : List.length ws = n /\ g = join " " ws).
  { apply in_flat_map in Hg. destruct Hg as [text [_ Hg]].
    unfold F in Hg. apply in_map_iff in Hg. destruct Hg as [i [<- Hi]].
    unfold ws. rewrite split_ws_join by (apply window_words, split_ws_words).
    split; [now apply window_length | reflexivity]. }
  destruct Hws as [Hlen Hjoin].
  split; [exact Hlen|]. split; [exact Hjoin|].
  split; [|now apply (count_pos String.eqb String.eqb_eq)].
  rewrite count_flat_map. f_equal. apply map_ext. intros text.
  unfold count, F, occurrences. rewrite filter_map_length, Hlen. do 2 f_equal.
  apply filter_ext_in. intros i Hi.
  destruct (list_eqb (firstn n (skipn i (split_ws text))) ws) eqn:E.
  - apply list_eqb_eq in E. rewrite E, <- Hjoin. apply String.eqb_refl.
  - apply String.eqb_neq. intros Eg.
    assert (Ew : firstn n (skipn i (split_ws text)) = ws).
    { unfold ws. rewrite Eg.
      now rewrite split_ws_join by (apply window_words, split_ws_words). }
    apply list_eqb_eq in Ew. congruence.
Qed.

End NgramFacts.

(** ** Theme clusters *)

Section ClusterFacts.
Import PyStr Pandas KeywordExtractor Pipeline Cases Notions.

Variable analyzer : string -> list string.
Variables Idf Tfidf Score : Type.
Variable fit_idf : list Column -> Idf.
Variable transform : Idf -> list Column -> Tfidf.
Variable column_means : Tfidf -> list Score.
Variable score_ltb : Score -> Score -> bool.
Variable argsort : list Z -> list nat.

Local Abbreviation banks_loop :=
  (analyze_banks analyzer fit_idf transform column_means score_ltb argsort).
Local Abbreviation by_bank :=
  (analyze_themes_by_bank analyzer fit_idf transform column_means score_ltb argsort).

Lemma banks_loop_themes (self : Fitted Idf) (banks : list string)
      (df : list (string * string)) (b : string) (analysis : BankThemes Score) :
  In (b, analysis) (snd (banks_loop self banks df)) ->
  In b banks
  /\ theme_distribution analysis
     = value_counts String.eqb
         (flat_map (fun t => ThemeAnalyzer.classify (Text t)) (texts_of b df)).
Proof.
  revert self. induction banks as [|b0 rest IH]; intros self H; [destruct H|].
  cbn [analyze_banks] in H. unfold analyze_bank in H.
  destruct (extract_keywords_tfidf analyzer fit_idf transform column_means
              score_ltb argsort self (texts_of b0 df) 20) as [self1 keywords].
  pose proof (IH self1) as IH1.
  destruct (banks_loop self1 rest df) as [self2 others].
  cbn [snd] in *. destruct H as [E | H].
  - pose proof (f_equal fst E) as E1. pose proof (f_equal snd E) as E2.
    cbn [fst snd] in E1, E2. subst b analysis.
    split; [left; reflexivity|]. cbn [theme_distribution]. reflexivity.
  - destruct (IH1 H) as [Hb Ht]. split; [right; exact Hb | exact Ht].
Qed.

Lemma share_bounds (c n : Z) :
  (0 < c <= n)%Z -> (0 < inject_Z c / inject_Z n * 100 /\ inject_Z c / inject_Z n * 100 <= 100)%Q.
Proof.
  intros [Hc Hn]. destruct c as [|p|p]; try lia. destruct n as [|q|q]; try lia.
  unfold Qlt, Qle, Qdiv, Qmult, Qinv, inject_Z. cbn [Qnum Qden Pos.mul]. lia.
Qed.

(** X8: the rows of the theme-cluster frame.  The bank is one of the
    frame, the theme one of the taxonomy, the count is the number of the
    bank's reviews that the classifier gives the theme, so it is positive
    and at most the bank's number of reviews, and the percentage lies in
    (0, 100]. *)
Theorem theme_cluster_rows (df : list (string * string)) (row : ThemeCluster) :
  In row (theme_clusters df (by_bank df)) ->
  let reviews := texts_of (cluster_bank row) df in
  In (cluster_bank row) (map fst df)
  /\ In (cluster_theme row) taxonomy_order
  /\ review_count row
     = Z.of_nat (List.length
         (filter (fun t => existsb (String.eqb (cluster_theme row))
                                   (ThemeAnalyzer.classify (Text t)))
                 reviews))
  /\ (0 < review_count row <= Z.of_nat (List.length reviews))%Z
  /\ (0 < percentage row /\ percentage row <= 100)%Q.
Proof.
  intros H reviews. unfold theme_clusters in H. apply in_flat_map in H.
  destruct H as [[b analysis] [Hb H]]. cbn [fst snd] in H.
  apply in_map_iff in H. destruct H as [[theme c] [<- Hc]].
  cbn [fst snd cluster_bank cluster_theme review_count percentage] in *.
  unfold analyze_themes_by_bank in Hb. apply banks_loop_themes in Hb.
  destruct Hb as [Hb Hd]. rewrite Hd in Hc.
  apply (value_counts_In String.eqb String.eqb_eq) in Hc. destruct Hc as [Hin ->].
  rewrite count_flat_map_NoDup by (intros; apply classify_NoDup).
  set (tagged := filter _ (texts_of b df)).
  assert (Hpos : (0 < Z.of_nat (List.length tagged)
                  <= Z.of_nat (List.length (texts_of b df)))%Z).
  { apply in_flat_map in Hin. destruct Hin as [t [Ht Hth]].
    assert (Hf : In t tagged).
    { apply filter_In. split; [exact Ht | now apply existsb_eqb_In]. }
    pose proof (filter_length_le
                  (fun t => existsb (String.eqb theme) (ThemeAnalyzer.classify (Text t)))
                  (texts_of b df)) as Hle. fold tagged in Hle.
    destruct tagged; [destruct Hf | simpl List.length in *; lia]. }
  split; [exact (proj1 (unique_In String.eqb String.eqb_eq b _) Hb)|].
  split.
  { apply in_flat_map in Hin. destruct Hin as [t [_ Hth]].
    apply (subseq_incl _ _ (classify_subseq ThemeAnalyzer.theme_keywords (Text t)
                              ThemeAnalyzer.default_threshold)). exact Hth. }
  split; [reflexivity|]. split; [exact Hpos|].
  now apply share_bounds.
Qed.

End ClusterFacts.

(** One review of one bank, with stand-ins for the library's weighting. *)
Lemma theme_cluster_rows_witness :
  let row := {| Pipeline.cluster_bank := "A";
                Pipeline.cluster_theme := "APP_PERFORMANCE";
                Pipeline.review_count := 1;
                Pipeline.percentage := 1 / 1 * 100 |} in
  In row (Pipeline.theme_clusters [("A", "app is slow")]
            (KeywordExtractor.analyze_themes_by_bank
               PyStr.split_ws (fun _ => tt) (fun _ cols => cols)
               (map KeywordExtractor.term_frequency) Z.ltb
               (fun l => seq 0 (List.length l))
               [("A", "app is slow")]))
  /\ (0 < Pipeline.percentage row /\ Pipeline.percentage row <= 100)%Q.
Proof.
  intros row.
  assert (H : In row (Pipeline.theme_clusters [("A", "app is slow")]
            (KeywordExtractor.analyze_themes_by_bank
               PyStr.split_ws (fun _ => tt) (fun _ cols => cols)
               (map KeywordExtractor.term_frequency) Z.ltb
               (fun l => seq 0 (List.length l))
               [("A", "app is slow")]))).
  { vm_compute. left. reflexivity. }
  split; [exact H|].
  exact (proj2 (proj2 (proj2 (proj2
           (theme_cluster_rows
              PyStr.split_ws unit (list KeywordExtractor.Column) Z
              (fun _ => tt) (fun _ cols => cols)
              (map KeywordExtractor.term_frequency) Z.ltb
              (fun l => seq 0 (List.length l))
              [("A", "app is slow")] row H))))).
Defined.

(** ** The sentiment analyzer, call by call *)

Section SentimentFacts.
Import PyStr Pandas SentimentAnalyzer Normal Cases Notions.

Lemma take_length (n : nat) (s : string) : (String.length (take n s) <= n)%nat.
Proof.
  revert s. induction n as [|n IH]; intros [|c s]; simpl; try lia.
  specialize (IH s). lia.
Qed.

Lemma take_prefix (n : nat) (s : string) : prefix (take n s) s = true.
Proof.
  revert s. induction n as [|n IH]; intros [|c s]; simpl; try reflexivity.
  destruct (ascii_dec c c); [apply IH | congruence].
Qed.

Lemma strip_empty_iff (text : string) :
  (String.length (strip text) =? 0)%nat = all_space text.
Proof.
  destruct (all_space text) eqn:E.
  - now rewrite (all_space_strip text E).
  - destruct (strip text) eqn:Es; [|reflexivity].
    unfold strip in Es. apply rstrip_empty in Es.
    unfold all_space in E, Es.
    assert (Hl : lstrip (lstrip text) = lstrip text).
    { clear. induction text as [|c r IH]; [reflexivity|]. simpl.
      destruct (is_space c) eqn:Hc; [exact IH|]. simpl. now rewrite Hc. }
    rewrite Hl in Es. congruence.
Qed.

Lemma blank_guard (text : string) :
  (text =? "") || (String.length (strip text) =? 0)%nat = all_space text.
Proof.
  rewrite strip_empty_iff. destruct text; [reflexivity|]. reflexivity.
Qed.

(** X9: [analyze_sentiment_distilbert].  Blank text is NEUTRAL 0.5 with no
    call.  Any other text costs exactly one call of the classifier, on the
    first 512 characters of the text; the result is the classifier's label
    and score when the label is POSITIVE or NEGATIVE, and NEUTRAL 0.5 when
    the classifier raises or answers anything else.  So the label is
    always one of the three, and NEUTRAL always comes with 0.5. *)
Theorem distilbert_contract (B : Backends) (text : string) :
  let result := fst (analyze_sentiment_distilbert B text) in
  let calls := snd (analyze_sentiment_distilbert B text) in
  let input := take 512 text in
  (all_space text = true -> result = ("NEUTRAL", 1 # 2) /\ calls = [])
  /\ (all_space text = false ->
      calls = [CallClassifier input]
      /\ (String.length input <= 512)%nat
      /\ prefix input text = true
      /\ (forall score, classifier B input = Some ("POSITIVE", score) ->
                        result = ("POSITIVE", score))
      /\ (forall score, classifier B input = Some ("NEGATIVE", score) ->
                        result = ("NEGATIVE", score))
      /\ (classifier B input = None -> result = ("NEUTRAL", 1 # 2))
      /\ (forall label score,
             classifier B input = Some (label, score) ->
             label <> "POSITIVE" -> label <> "NEGATIVE" ->
             result = ("NEUTRAL", 1 # 2)))
  /\ In (fst result) ["POSITIVE"; "NEGATIVE"; "NEUTRAL"]
  /\ (fst result = "NEUTRAL" -> snd result = 1 # 2).
Proof.
  intros result calls input. unfold result, calls, analyze_sentiment_distilbert.
  rewrite blank_guard. fold input.
  destruct (all_space text) eqn:Hb.
  - cbn [ret fst snd]. split; [auto|]. split; [discriminate|].
    split; [simpl; auto | reflexivity].
  - unfold bind, invoke, ret.
    split; [discriminate|]. split.
    + intros _.
      destruct (classifier B input) as [[label score]|] eqn:Ec; cbn [fst snd].
      * assert (Hcalls : snd (if label =? "POSITIVE" then ("POSITIVE", score, @nil Invocation)
                               else if label =? "NEGATIVE" then ("NEGATIVE", score, [])
                               else ("NEUTRAL", 1 # 2, [])) = [])
          by (destruct (label =? "POSITIVE"); [|destruct (label =? "NEGATIVE")]; reflexivity).
        destruct (if label =? "POSITIVE" then _ else _) as [r l] eqn:Er.
        cbn [snd] in Hcalls. subst l. cbn [fst snd app].
        split; [reflexivity|]. split; [apply take_length|].
        split; [apply take_prefix|].
        split; [|split; [|split; [discriminate|]]].
        -- intros s E. injection E as -> ->. simpl in Er. congruence.
        -- intros s E. injection E as -> ->. simpl in Er. congruence.
        -- intros l s E Hp Hn. injection E as -> ->.
           apply String.eqb_neq in Hp, Hn. rewrite Hp, Hn in Er. congruence.
      * split; [reflexivity|]. split; [apply take_length|].
        split; [apply take_prefix|].
        split; [discriminate|]. split; [discriminate|]. split; [reflexivity|].
        discriminate.
    + destruct (classifier B input) as [[label score]|]; cbn [fst snd];
        [|split; [simpl; auto | reflexivity]].
      destruct (label =? "POSITIVE") eqn:Ep; [split; [simpl; auto | discriminate]|].
      destruct (label =? "NEGATIVE") eqn:En; [split; [simpl; auto | discriminate]|].
      split; [simpl; auto | reflexivity].
Qed.


Lemma distilbert_calls (B : Backends) (text : string) :
  snd (analyze_sentiment_distilbert B text)
  = if all_space text then [] else [CallClassifier (take 512 text)].
Proof.
  unfold analyze_sentiment_distilbert. rewrite blank_guard.
  destruct (all_space text); [reflexivity|]. unfold bind, invoke, ret.
  destruct (classifier B (take 512 text)) as [[label score]|]; [|reflexivity].
  destruct (label =? "POSITIVE"); [reflexivity|].
  destruct (label =? "NEGATIVE"); reflexivity.
Qed.

Lemma textblob_calls (B : Backends) (text : string) :
  snd (analyze_sentiment_textblob B text) = [CallTextBlob text].
Proof.
  unfold analyze_sentiment_textblob, bind, invoke, ret.
  destruct (Qgtb (polarity B text) (1 # 10)); [reflexivity|].
  destruct (Qgtb (- (1 # 10)) (polarity B text)); reflexivity.
Qed.

(** X10: [analyze_dataframe] returns one sentiment per text, in order,
    each with one of the three labels.  When the model is loaded the only
    calls are calls of the classifier, one for each text that is not
    blank, in row order, on the text's first 512 characters: TextBlob is
    never consulted, not even for a text on which the classifier raises.
    Without the model and with TextBlob, TextBlob is called once on every
    text, blank or not.  With neither, nothing is called and every row is
    NEUTRAL 0.5. *)
Theorem analyze_dataframe_calls (self : SentimentAnalyzer.t) (B : Backends)
        (texts : list string) :
  let results := fst (analyze_dataframe self B texts) in
  let calls := snd (analyze_dataframe self B texts) in
  List.length results = List.length texts
  /\ Forall (fun r => In (fst r) ["POSITIVE"; "NEGATIVE"; "NEUTRAL"]) results
  /\ (model_loaded self = true ->
      calls = map (fun t => CallClassifier (take 512 t))
                  (filter (fun t => negb (all_space t)) texts))
  /\ (model_loaded self = false -> use_textblob self = true ->
      calls = map CallTextBlob texts)
  /\ (model_loaded self = false -> use_textblob self = false ->
      calls = [] /\ results = map (fun _ => ("NEUTRAL", 1 # 2)) texts).
Proof.
  intros results calls. unfold results, calls.
  rewrite analyze_dataframe_fst, analyze_dataframe_snd.
  split; [apply length_map|].
  split; [apply Forall_forall; intros r Hr; apply in_map_iff in Hr;
          destruct Hr as [t [<- _]]; apply analyze_one_label|].
  unfold analyze_one. split; [|split].
  - intros ->. induction texts as [|t ts IH]; [reflexivity|].
    cbn [flat_map filter]. rewrite IH, distilbert_calls.
    destruct (all_space t); reflexivity.
  - intros -> ->. induction texts as [|t ts IH]; [reflexivity|].
    cbn [flat_map map]. now rewrite IH, textblob_calls.
  - intros -> ->. split; [|reflexivity].
    induction texts as [|t ts IH]; [reflexivity | exact IH].
Qed.

Lemma half_bounds (p : Q) :
  (-1 <= p <= 1)%Q ->
  (0 <= (p + 1) / 2 <= 1 /\ 0 <= (1 - p) / 2 <= 1)%Q.
Proof.
  intros [H1 H2]. unfold Qdiv. change (/ 2)%Q with (1 # 2)%Q. repeat split; lra.
Qed.

(** X11: when the classifier's scores lie in [0, 1] and TextBlob's
    polarity in [-1, 1], every score [analyze_dataframe] stores lies in
    [0, 1].  On the TextBlob path the score is a strength and not a
    direction: it is never below 0.5, and a NEGATIVE row has a score above
    0.55 just as a POSITIVE one has. *)
Theorem sentiment_scores_in_range (self : SentimentAnalyzer.t) (B : Backends)
        (texts : list string) :
  (forall t label score, classifier B t = Some (label, score) ->
                         (0 <= score <= 1)%Q) ->
  (forall t, (-1 <= polarity B t <= 1)%Q) ->
  let results := fst (analyze_dataframe self B texts) in
  Forall (fun r => (0 <= snd r <= 1)%Q) results
  /\ (model_loaded self = false ->
      Forall (fun r => (1 # 2 <= snd r)%Q
                       /\ (fst r <> "NEUTRAL" -> (11 # 20 < snd r)%Q)) results).
Proof.
  intros Hc Hp results. unfold results. rewrite analyze_dataframe_fst. split.
  - apply Forall_forall. intros r Hr. apply in_map_iff in Hr.
    destruct Hr as [t [<- _]]. unfold analyze_one.
    destruct (model_loaded self); [|destruct (use_textblob self)].
    + unfold analyze_sentiment_distilbert.
      destruct (_ || _); [cbn; split; discriminate|].
      unfold bind, invoke, ret.
      destruct (classifier B (take 512 t)) as [[label score]|] eqn:E;
        [|cbn; split; discriminate].
      specialize (Hc _ _ _ E).
      destruct (label =? "POSITIVE"); [exact Hc|].
      destruct (label =? "NEGATIVE"); [exact Hc | cbn; split; discriminate].
    + unfold analyze_sentiment_textblob, bind, invoke, ret.
      destruct (half_bounds _ (Hp t)) as [H1 H2].
      destruct (Qgtb (polarity B t) (1 # 10)); [exact H1|].
      destruct (Qgtb (- (1 # 10)) (polarity B t)); [exact H2|].
      cbn; split; discriminate.
    + cbn; split; discriminate.
  - intros Hm. apply Forall_forall. intros r Hr. apply in_map_iff in Hr.
    destruct Hr as [t [<- _]]. unfold analyze_one. rewrite Hm.
    destruct (use_textblob self);
      [|cbn [ret fst snd]; split; [discriminate | congruence]].
    unfold analyze_sentiment_textblob, bind, invoke, ret.
    destruct (Qgtb (polarity B t) (1 # 10)) eqn:E1;
      [|destruct (Qgtb (- (1 # 10)) (polarity B t)) eqn:E2]; cbn [fst snd].
    + apply Qgtb_true in E1. unfold Qdiv. change (/ 2)%Q with (1 # 2)%Q.
      split; [lra | intros _; lra].
    + apply Qgtb_true in E2. unfold Qdiv. change (/ 2)%Q with (1 # 2)%Q.
      split; [lra | intros _; lra].
    + split; [discriminate | congruence].
Qed.

Lemma sentiment_scores_in_range_witness :
  Forall (fun r => (0 <= snd r <= 1)%Q)
         (fst (analyze_dataframe lexicon half_polarity ["great app"; ""])).
Proof.
  apply (sentiment_scores_in_range lexicon half_polarity ["great app"; ""]).
  - intros t label score H. discriminate H.
  - intros t. split; discriminate.
Defined.

End SentimentFacts.

(** ** Totals of counts *)

Section CountTotals.
Import Pandas WordMatch Notions.
Context {K : Type} (eqb : K -> K -> bool).
Hypothesis eqb_eq : forall x y, eqb x y = true <-> x = y.

Lemma sum_Z_cons (x : Z) (l : list Z) : sum_Z (x :: l) = (x + sum_Z l)%Z.
Proof. reflexivity. Qed.

Lemma sum_Z_app (a b : list Z) : sum_Z (a ++ b) = (sum_Z a + sum_Z b)%Z.
Proof.
  induction a as [|x a IH]; [reflexivity|].
  cbn [app]. rewrite !sum_Z_cons, IH. lia.
Qed.

Lemma sum_Z_perm (a b : list Z) : Permutation a b -> sum_Z a = sum_Z b.
Proof. induction 1; rewrite ?sum_Z_cons; lia. Qed.

Lemma count_cons (k x : K) (l : list K) :
  count eqb k (x :: l) = ((if eqb k x then 1 else 0) + count eqb k l)%Z.
Proof. unfold count. cbn [filter]. destruct (eqb k x); cbn [List.length]; lia. Qed.

(** Leaving one key out of a sum over distinct keys. *)
Lemma sum_without (f : K -> Z) (x : K) (L : list K) :
  NoDup L ->
  sum_Z (map f L)
  = (sum_Z (map f (filter (fun y => negb (eqb y x)) L))
     + if existsb (fun y => eqb y x) L then f x else 0)%Z.
Proof.
  intros H. induction H as [|y L Hy H IH]; [reflexivity|].
  cbn [map filter existsb]. rewrite sum_Z_cons, IH.
  destruct (eqb y x) eqn:E; cbn [negb orb].
  - apply eqb_eq in E. subst y.
    destruct (existsb (fun y => eqb y x) L) eqn:Ex; [|lia].
    apply existsb_exists in Ex. destruct Ex as [z [Hz Ez]].
    apply eqb_eq in Ez. subst z. contradiction.
  - cbn [map]. rewrite sum_Z_cons. lia.
Qed.

(** Every entry is counted under exactly one of the distinct values. *)
Lemma unique_counts_total (l : list K) :
  sum_Z (map (fun k => count eqb k l) (unique eqb l)) = Z.of_nat (List.length l).
Proof.
  induction l as [|x l IH]; [reflexivity|].
  cbn [unique map]. rewrite sum_Z_cons.
  rewrite (sum_without (fun k => count eqb k l) x (unique eqb l)
             (unique_NoDup eqb eqb_eq l)) in IH.
  assert (E : map (fun k => count eqb k (x :: l))
                  (filter (fun y => negb (eqb y x)) (unique eqb l))
              = map (fun k => count eqb k l)
                    (filter (fun y => negb (eqb y x)) (unique eqb l))).
  { apply map_ext_in. intros k Hk. apply filter_In in Hk. destruct Hk as [_ Hk].
    rewrite count_cons. apply negb_true_iff in Hk.
    now rewrite Hk. }
  rewrite E, count_cons, (eqb_refl' eqb eqb_eq).
  destruct (existsb (fun y => eqb y x) (unique eqb l)) eqn:Ex.
  - cbn [List.length]. lia.
  - assert (Hx : ~ In x l).
    { intros Hin. apply (unique_In eqb eqb_eq) in Hin.
      assert (existsb (fun y => eqb y x) (unique eqb l) = true).
      { apply existsb_exists. exists x. split; [exact Hin | apply (eqb_refl' eqb eqb_eq)]. }
      congruence. }
    rewrite (count_absent eqb eqb_eq x l Hx) in *. cbn [List.length]. lia.
Qed.

(** The counts of [value_counts] add up to the number of entries. *)
Lemma value_counts_total (l : list K) :
  sum_Z (map snd (value_counts eqb l)) = Z.of_nat (List.length l).
Proof.
  unfold value_counts.
  rewrite (sum_Z_perm _ _ (Permutation_map snd (sort_desc_perm _))).
  rewrite map_map. cbn [snd]. apply unique_counts_total.
Qed.

Lemma value_counts_length (l : list K) :
  List.length (value_counts eqb l) = List.length (unique eqb l).
Proof.
  unfold value_counts.
  rewrite (Permutation_length (sort_desc_perm _)). apply length_map.
Qed.

Lemma unique_length (l : list K) : (List.length (unique eqb l) <= List.length l)%nat.
Proof.
  induction l as [|x l IH]; [simpl; lia|]. cbn [unique List.length].
  pose proof (filter_length_le (fun y => negb (eqb y x)) (unique eqb l)). lia.
Qed.

Lemma sorted_split (a b : list (K * Z)) (x y : K * Z) :
  by_count_desc (a ++ b) -> In x a -> In y b -> (snd y <= snd x)%Z.
Proof.
  unfold by_count_desc. induction a as [|z a IH]; intros H Hx Hy; [destruct Hx|].
  cbn [app] in H. inversion H as [|? ? Hs Hall]; subst.
  destruct Hx as [<- | Hx]; [|now apply IH].
  rewrite Forall_forall in Hall. apply Hall. apply in_or_app. now right.
Qed.

(** What [head(n)] of the counts leaves out is counted no more often than
    what it keeps. *)
Lemma top_dominates (n : nat) (l : list K) (k : K) (c : Z) (k' : K) :
  In (k, c) (firstn n (value_counts eqb l)) ->
  In k' l -> ~ In k' (map fst (firstn n (value_counts eqb l))) ->
  (count eqb k' l <= c)%Z.
Proof.
  intros Hk Hk' Hout.
  assert (Hin : In (k', count eqb k' l) (value_counts eqb l))
    by (apply (value_counts_In eqb eqb_eq); auto).
  rewrite <- (firstn_skipn n (value_counts eqb l)) in Hin.
  apply in_app_or in Hin. destruct Hin as [Hin | Hin].
  - exfalso. apply Hout. apply in_map_iff. exists (k', count eqb k' l). auto.
  - pose proof (value_counts_sorted eqb l) as Hs.
    rewrite <- (firstn_skipn n (value_counts eqb l)) in Hs.
    apply (sorted_split _ _ _ _ Hs Hk Hin).
Qed.

Lemma sum_Z_nonneg (l : list Z) : (forall x, In x l -> 0 <= x)%Z -> (0 <= sum_Z l)%Z.
Proof.
  induction l as [|x l IH]; intros H; [simpl; lia|]. rewrite sum_Z_cons.
  pose proof (H x (or_introl eq_refl)).
  assert (0 <= sum_Z l)%Z by (apply IH; intros y Hy; apply H; now right).
  lia.
Qed.

Lemma top_total (n : nat) (l : list K) :
  (sum_Z (map snd (firstn n (value_counts eqb l))) <= Z.of_nat (List.length l))%Z.
Proof.
  rewrite <- (value_counts_total l).
  rewrite <- (firstn_skipn n (value_counts eqb l)) at 2.
  rewrite map_app, sum_Z_app.
  assert (0 <= sum_Z (map snd (skipn n (value_counts eqb l))))%Z; [|lia].
  apply sum_Z_nonneg. intros x Hx. apply in_map_iff in Hx.
  destruct Hx as [[k c] [<- Hkc]]. cbn [snd].
  assert (Hin : In (k, c) (value_counts eqb l)).
  { rewrite <- (firstn_skipn n (value_counts eqb l)). apply in_or_app. now right. }
  apply (value_counts_In eqb eqb_eq) in Hin. destruct Hin as [_ ->].
  apply count_nonneg.
Qed.

End CountTotals.

(** ** The per-bank statistics *)

Section BankStatisticsFacts.
Import PyStr Pandas InsightsAnalyzer InsightsReport WordMatch Cases Notions.

Lemma where_bank_present (b : string) (df : DataFrame) :
  In b (map bank df) -> where_bank b df <> [].
Proof.
  intros H E. apply in_map_iff in H. destruct H as [r [Hb Hr]].
  assert (Hin : In r (where_bank b df)).
  { apply filter_In. split; [exact Hr | now apply String.eqb_eq]. }
  rewrite E in Hin. destruct Hin.
Qed.

Lemma sum_bounds (l : list Q) (a b : Q) :
  (forall x, In x l -> a <= x <= b)%Q ->
  (inject_Z (Z.of_nat (List.length l)) * a <= sum l
   /\ sum l <= inject_Z (Z.of_nat (List.length l)) * b)%Q.
Proof.
  induction l as [|x l IH]; intros H.
  - cbn [List.length sum fold_right]. change (inject_Z (Z.of_nat 0)) with 0%Q.
    split; lra.
  - destruct (H x (or_introl eq_refl)) as [Ha Hb].
    destruct IH as [I1 I2]; [intros y Hy; apply H; now right|].
    cbn [List.length sum fold_right]. fold (sum l).
    rewrite Nat2Z.inj_succ. unfold Z.succ. rewrite inject_Z_plus.
    change (inject_Z 1) with 1%Q. split; lra.
Qed.

(** The mean of values in a range lies in the range. *)
Lemma mean_bounds (l : list Q) (a b m : Q) :
  mean l = Some m -> (forall x, In x l -> a <= x <= b)%Q -> (a <= m <= b)%Q.
Proof.
  intros Hm H. destruct (sum_bounds l a b H) as [S1 S2].
  destruct l as [|x l]; [discriminate Hm|].
  unfold mean in Hm. injection Hm as <-.
  assert (Hn : (0 < inject_Z (Z.of_nat (List.length (x :: l))))%Q)
    by (apply length_pos_Q; discriminate).
  split.
  - apply Qle_shift_div_l; [exact Hn|].
    change (a * inject_Z (Z.of_nat (List.length (x :: l))) <= sum (x :: l))%Q. lra.
  - apply Qle_shift_div_r; [exact Hn|].
    change (sum (x :: l) <= b * inject_Z (Z.of_nat (List.length (x :: l))))%Q. lra.
Qed.

Lemma positive_share_bounds (rows : DataFrame) (p : Q) :
  positive_share rows = Some p -> (0 <= p <= 100)%Q.
Proof.
  unfold positive_share.
  destruct (mean _) as [m|] eqn:E; [|discriminate].
  intros Hp. injection Hp as <-.
  assert (Hm : (0 <= m <= 1)%Q).
  { apply (mean_bounds _ 0 1 m E). intros x Hx. apply in_map_iff in Hx.
    destruct Hx as [r [<- _]]. destruct (_ =? _); split; discriminate. }
  split; lra.
Qed.

Lemma sentiment_entry (df : DataFrame) (b : string) (s : BankSentiment) :
  In (b, s) (analyze_sentiment_by_bank df) ->
  In b (map bank df) /\ s = sentiment_of (where_bank b df).
Proof.
  unfold analyze_sentiment_by_bank. intros H. apply in_map_iff in H.
  destruct H as [b' [E Hb]].
  pose proof (f_equal fst E) as E1. pose proof (f_equal snd E) as E2.
  cbn [fst snd] in E1, E2. subst b' s.
  split; [exact (proj1 (unique_In String.eqb String.eqb_eq b _) Hb) | reflexivity].
Qed.

Lemma Z_eqb_eq (x y : Z) : Z.eqb x y = true <-> x = y.
Proof. apply Z.eqb_eq. Qed.

Lemma sentiment_keys (df : DataFrame) :
  map fst (analyze_sentiment_by_bank df) = unique String.eqb (map bank df).
Proof.
  unfold analyze_sentiment_by_bank. rewrite map_map. cbn [fst]. apply map_id.
Qed.

(** The banks' totals add up to the number of rows. *)
Lemma bank_totals_sum (df : DataFrame) :
  sum_Z (map (fun e => total_reviews (snd e)) (analyze_sentiment_by_bank df))
  = len df.
Proof.
  unfold analyze_sentiment_by_bank. rewrite map_map. cbn [snd].
  unfold sentiment_of. cbn [total_reviews].
  rewrite (map_ext _ (fun b => count String.eqb b (map bank df)))
    by (intros b; symmetry; apply count_bank_rows).
  rewrite (unique_counts_total String.eqb String.eqb_eq).
  unfold len. now rewrite length_map.
Qed.

(** X12: [analyze_sentiment_by_bank] partitions the frame.  Each bank of
    the frame has exactly one entry; an entry's total is the number of the
    bank's rows and is positive; the totals add up to the number of rows
    of the frame; and the counts of a bank's rating distribution add up to
    the bank's total, each being the positive number of the bank's rows
    with that rating. *)
Theorem bank_totals_partition (df : DataFrame) :
  let analysis := analyze_sentiment_by_bank df in
  NoDup (map fst analysis)
  /\ (forall b, In b (map fst analysis) <-> In b (map bank df))
  /\ sum_Z (map (fun e => total_reviews (snd e)) analysis) = len df
  /\ forall b s,
      In (b, s) analysis ->
      total_reviews s = len (where_bank b df)
      /\ (0 < total_reviews s)%Z
      /\ sum_Z (map snd (rating_distribution s)) = total_reviews s
      /\ forall stars n,
          In (stars, n) (rating_distribution s) ->
          n = Z.of_nat (List.length
                (filter (fun r => (bank r =? b) && Z.eqb (rating r) stars) df))
          /\ (0 < n)%Z.
Proof.
  intros analysis. unfold analysis.
  split; [rewrite sentiment_keys; apply (unique_NoDup String.eqb String.eqb_eq)|].
  split; [intros b; rewrite sentiment_keys;
          apply (unique_In String.eqb String.eqb_eq)|].
  split; [apply bank_totals_sum|].
  intros b s Hs. apply sentiment_entry in Hs. destruct Hs as [Hb ->].
  unfold sentiment_of. cbn [total_reviews rating_distribution].
  split; [reflexivity|].
  split; [apply len_pos, where_bank_present, Hb|].
  split.
  - rewrite (value_counts_total Z.eqb Z_eqb_eq). unfold len. now rewrite length_map.
  - intros stars n Hn. apply (value_counts_In Z.eqb Z_eqb_eq) in Hn.
    destruct Hn as [Hin ->]. split; [|now apply (count_pos Z.eqb Z_eqb_eq)].
    unfold count, where_bank. rewrite filter_map_length, filter_filter_length.
    do 2 f_equal. apply filter_ext. intros r. now rewrite (Z.eqb_sym stars).
Qed.

(** X13: when the ratings of the frame lie between 1 and 5 and its
    sentiment scores between 0 and 1, every bank's average rating exists
    and lies between 1 and 5, its share of POSITIVE rows between 0 and
    100, and its average sentiment score between 0 and 1. *)
Theorem bank_averages_in_range (df : DataFrame) (b : string) (s : BankSentiment) :
  (forall r, In r df ->
             (1 <= rating r <= 5)%Z /\ (0 <= sentiment_score r <= 1)%Q) ->
  In (b, s) (analyze_sentiment_by_bank df) ->
  (exists m, avg_rating s = Some m /\ (1 <= m <= 5)%Q)
  /\ (exists p, positive_pct s = Some p /\ (0 <= p <= 100)%Q)
  /\ (exists a, avg_sentiment_score s = Some a /\ (0 <= a <= 1)%Q).
Proof.
  intros Hrange Hs. apply sentiment_entry in Hs. destruct Hs as [Hb ->].
  pose proof (where_bank_present b df Hb) as Hne.
  assert (Hrows : forall r, In r (where_bank b df) -> In r df)
    by (intros r Hr; now apply filter_In in Hr).
  unfold sentiment_of. cbn [avg_rating positive_pct avg_sentiment_score].
  split; [|split].
  - unfold ratings. rewrite (mean_map_nonempty _ _ Hne). eexists. split; [reflexivity|].
    apply (mean_bounds (map (fun r => inject_Z (rating r)) (where_bank b df))).
    + apply mean_map_nonempty, Hne.
    + intros x Hx. apply in_map_iff in Hx. destruct Hx as [r [<- Hr]].
      destruct (Hrange r (Hrows r Hr)) as [[H1 H5] _].
      rewrite Zle_Qle in H1, H5. split; assumption.
  - unfold positive_share. rewrite (mean_map_nonempty _ _ Hne).
    eexists. split; [reflexivity|].
    apply (positive_share_bounds (where_bank b df)).
    unfold positive_share. now rewrite (mean_map_nonempty _ _ Hne).
  - rewrite (mean_map_nonempty _ _ Hne). eexists. split; [reflexivity|].
    apply (mean_bounds (map sentiment_score (where_bank b df))).
    + apply mean_map_nonempty, Hne.
    + intros x Hx. apply in_map_iff in Hx. destruct Hx as [r [<- Hr]].
      exact (proj2 (Hrange r (Hrows r Hr))).
Qed.

Lemma bank_averages_in_range_witness :
  exists m, avg_rating (sentiment_of (where_bank "A" bank_a_reviews)) = Some m
            /\ (1 <= m <= 5)%Q.
Proof.
  apply (bank_averages_in_range bank_a_reviews "A").
  - intros r Hr. vm_compute in Hr.
    destruct Hr as [<- | [<- | [<- | []]]]; cbn [rating sentiment_score];
      (split; [lia|]); split; discriminate.
  - vm_compute. left. reflexivity.
Defined.

End BankStatisticsFacts.

(** ** Themes, drivers and recommendations per bank *)

Section RecommendationFacts.
Import PyStr Pandas InsightsAnalyzer InsightsReport WordMatch Cases Notions.

Lemma theme_stats_entry (df : DataFrame) (b : string) (s : BankThemeStats) :
  In (b, s) (InsightsReport.analyze_themes_by_bank df) ->
  In b (map bank df) /\ s = theme_stats_of (where_bank b df).
Proof.
  unfold InsightsReport.analyze_themes_by_bank. intros H. apply in_map_iff in H.
  destruct H as [b' [E Hb]].
  pose proof (f_equal fst E) as E1. pose proof (f_equal snd E) as E2.
  cbn [fst snd] in E1, E2. subst b' s.
  split; [exact (proj1 (unique_In String.eqb String.eqb_eq b _) Hb) | reflexivity].
Qed.

(** X14: the theme statistics of a bank.  [total_theme_mentions] is the
    number of theme tags on the bank's rows and [unique_themes] the number
    of distinct ones, so the second is at most the first; [top_themes]
    holds the five most frequent themes (all of them when there are fewer),
    each once, most frequent first, each with its number of tags; a theme
    left out is not more frequent than any theme kept. *)
Theorem theme_stats_consistent (df : DataFrame) (b : string) (s : BankThemeStats) :
  In (b, s) (InsightsReport.analyze_themes_by_bank df) ->
  let tags := collect_themes (where_bank b df) in
  total_theme_mentions s = Z.of_nat (List.length tags)
  /\ (0 <= unique_themes s <= total_theme_mentions s)%Z
  /\ Z.of_nat (List.length (top_themes s)) = Z.min 5 (unique_themes s)
  /\ NoDup (map fst (top_themes s))
  /\ by_count_desc (top_themes s)
  /\ (sum_Z (map snd (top_themes s)) <= total_theme_mentions s)%Z
  /\ (forall theme c,
         In (theme, c) (top_themes s) ->
         c = count String.eqb theme tags /\ (0 < c)%Z)
  /\ (forall theme c other,
         In (theme, c) (top_themes s) ->
         In other tags -> ~ In other (map fst (top_themes s)) ->
         (count String.eqb other tags <= c)%Z).
Proof.
  intros Hs tags. apply theme_stats_entry in Hs. destruct Hs as [_ ->].
  unfold theme_stats_of. fold tags.
  cbn [total_theme_mentions unique_themes top_themes].
  split; [reflexivity|]. split.
  { rewrite (value_counts_length String.eqb).
    pose proof (unique_length String.eqb tags). lia. }
  split; [rewrite length_firstn; lia|].
  split; [apply firstn_keys_NoDup, (value_counts_NoDup String.eqb String.eqb_eq)|].
  split; [apply firstn_sorted, value_counts_sorted|].
  split; [apply (top_total String.eqb String.eqb_eq)|].
  split.
  - intros theme c Hc. apply firstn_In in Hc.
    apply (value_counts_In String.eqb String.eqb_eq) in Hc. destruct Hc as [Hin ->].
    split; [reflexivity | now apply (count_pos String.eqb String.eqb_eq)].
  - intros theme c other Hc Ho Hout.
    exact (top_dominates String.eqb String.eqb_eq 5 tags theme c other Hc Ho Hout).
Qed.

Lemma theme_stats_consistent_witness :
  total_theme_mentions (theme_stats_of (where_bank "A" bank_a_reviews)) = 4%Z.
Proof.
  assert (H : In ("A", theme_stats_of (where_bank "A" bank_a_reviews))
                 (InsightsReport.analyze_themes_by_bank bank_a_reviews))
    by (vm_compute; left; reflexivity).
  exact (proj1 (theme_stats_consistent bank_a_reviews "A" _ H)).
Defined.

Lemma drivers_entry (df : DataFrame) (b : string) (d : Drivers) :
  In (b, d) (identify_drivers df) ->
  In b (map bank df) /\ d = drivers_of (where_bank b df).
Proof.
  unfold identify_drivers. intros H. apply in_map_iff in H.
  destruct H as [b' [E Hb]].
  pose proof (f_equal fst E) as E1. pose proof (f_equal snd E) as E2.
  cbn [fst snd] in E1, E2. subst b' d.
  split; [exact (proj1 (unique_In String.eqb String.eqb_eq b _) Hb) | reflexivity].
Qed.

Lemma two_labels_le (rows : DataFrame) :
  (len (where_label "POSITIVE" rows) + len (where_label "NEGATIVE" rows)
   <= len rows)%Z.
Proof.
  induction rows as [|r rows IH]; [unfold len; simpl; lia|].
  rewrite !len_where_label_cons. unfold len in *. cbn [List.length].
  destruct (sentiment_label r =? "POSITIVE") eqn:Ep.
  - apply String.eqb_eq in Ep. rewrite Ep. cbn [String.eqb Ascii.eqb Bool.eqb andb]. lia.
  - destruct (sentiment_label r =? "NEGATIVE"); lia.
Qed.

Lemma len_filter_le (l : string) (rows : DataFrame) :
  (0 <= len (where_label l rows) <= len rows)%Z.
Proof.
  unfold len, where_label.
  pose proof (filter_length_le (fun r => sentiment_label r =? l) rows). lia.
Qed.

Lemma shares_bounds (p q n : Z) :
  (0 <= p)%Z -> (0 <= q)%Z -> (p + q <= n)%Z -> (0 < n)%Z ->
  (0 <= inject_Z p / inject_Z n * 100
   /\ inject_Z p / inject_Z n * 100 + inject_Z q / inject_Z n * 100 <= 100)%Q.
Proof.
  intros Hp Hq Hs Hn. destruct n as [|n|n]; try lia.
  unfold Qle, Qplus, Qdiv, Qmult, Qinv, inject_Z. cbn [Qnum Qden Pos.mul].
  split; nia.
Qed.

(** X15: the drivers of a bank mirror its pain points.  A bank of the
    frame has an entry in both; the two counts are the numbers of the
    bank's POSITIVE and of its NEGATIVE rows, so together at most the
    bank's rows, and the two percentages are not negative and together at
    most 100; the average rating of the POSITIVE rows is missing exactly
    when there is none; and each of the at most three top drivers carries
    the positive number of times its theme is tagged on the bank's
    POSITIVE rows. *)
Theorem drivers_mirror_pain_points (df : DataFrame) (b : string) :
  In b (map bank df) ->
  let bank_data := where_bank b df in
  let d := drivers_of bank_data in
  let pp := pain_points_of bank_data in
  In (b, d) (identify_drivers df)
  /\ In (b, pp) (identify_pain_points df)
  /\ positive_review_count d = len (where_label "POSITIVE" bank_data)
  /\ negative_review_count pp = len (where_label "NEGATIVE" bank_data)
  /\ (positive_review_count d + negative_review_count pp <= len bank_data)%Z
  /\ (0 <= positive_percentage d)%Q
  /\ (0 <= negative_percentage pp)%Q
  /\ (positive_percentage d + negative_percentage pp <= 100)%Q
  /\ (avg_rating_positive d = None <-> positive_review_count d = 0%Z)
  /\ (List.length (top_drivers d) <= 3)%nat
  /\ forall theme c,
      In (theme, c) (top_drivers d) ->
      c = count String.eqb theme
            (collect_themes (where_label "POSITIVE" bank_data))
      /\ (0 < c)%Z.
Proof.
  intros Hb bank_data d pp.
  assert (Hu : In b (unique String.eqb (map bank df)))
    by (apply (unique_In String.eqb String.eqb_eq); exact Hb).
  pose proof (len_pos bank_data (where_bank_present b df Hb)) as Hn.
  pose proof (two_labels_le bank_data) as Hle.
  pose proof (len_filter_le "POSITIVE" bank_data) as Hp.
  pose proof (len_filter_le "NEGATIVE" bank_data) as Hq.
  split; [unfold identify_drivers; apply in_map_iff; exists b; auto|].
  split; [unfold identify_pain_points; apply in_map_iff; exists b; auto|].
  assert (Ed : positive_review_count d = len (where_label "POSITIVE" bank_data)).
  { unfold d, drivers_of.
    destruct (0 <? len (where_label "POSITIVE" bank_data))%Z eqn:E;
      cbn [positive_review_count]; [reflexivity|]. apply Z.ltb_ge in E. lia. }
  assert (Ep : negative_review_count pp = len (where_label "NEGATIVE" bank_data)).
  { unfold pp, pain_points_of.
    destruct (0 <? len (where_label "NEGATIVE" bank_data))%Z eqn:E;
      cbn [negative_review_count]; [reflexivity|]. apply Z.ltb_ge in E. lia. }
  split; [exact Ed|]. split; [exact Ep|]. split; [lia|].
  assert (Hshare : (0 <= positive_percentage d /\ 0 <= negative_percentage pp
                    /\ positive_percentage d + negative_percentage pp <= 100)%Q).
  { unfold d, pp, drivers_of, pain_points_of.
    destruct (shares_bounds _ _ _ (proj1 Hp) (proj1 Hq) Hle Hn) as [S1 S2].
    assert (Hle' : (len (where_label "NEGATIVE" bank_data)
                    + len (where_label "POSITIVE" bank_data) <= len bank_data)%Z) by lia.
    destruct (shares_bounds _ _ _ (proj1 Hq) (proj1 Hp) Hle' Hn) as [S3 S4].
    destruct (0 <? len (where_label "POSITIVE" bank_data))%Z;
      destruct (0 <? len (where_label "NEGATIVE" bank_data))%Z;
      cbn [positive_percentage negative_percentage]; repeat split; lra. }
  split; [apply Hshare|]. split; [apply Hshare|]. split; [apply Hshare|].
  split; [|split].
  - unfold d, drivers_of.
    destruct (0 <? len (where_label "POSITIVE" bank_data))%Z eqn:E;
      cbn [avg_rating_positive positive_review_count]; [|tauto].
    apply Z.ltb_lt in E. split; [|lia].
    unfold ratings. rewrite mean_map_nonempty; [discriminate|].
    intros E0. rewrite E0 in E. unfold len in E. simpl in E. lia.
  - unfold d, drivers_of.
    destruct (0 <? len (where_label "POSITIVE" bank_data))%Z;
      cbn [top_drivers]; [apply firstn_le_length | simpl; lia].
  - intros theme c Hc. unfold d, drivers_of in Hc.
    destruct (0 <? len (where_label "POSITIVE" bank_data))%Z; [|destruct Hc].
    cbn [top_drivers] in Hc. apply firstn_In in Hc.
    apply (value_counts_In String.eqb String.eqb_eq) in Hc. destruct Hc as [Hin ->].
    split; [reflexivity | now apply (count_pos String.eqb String.eqb_eq)].
Qed.

Lemma drivers_mirror_pain_points_witness :
  In ("A", drivers_of (where_bank "A" bank_a_reviews))
     (identify_drivers bank_a_reviews).
Proof.
  assert (H : In "A" (map bank bank_a_reviews)) by (simpl; auto).
  exact (proj1 (drivers_mirror_pain_points bank_a_reviews "A" H)).
Defined.

End RecommendationFacts.

(** ** The recommendations *)

Section RecommendationShape.
Import PyStr Pandas InsightsAnalyzer InsightsReport WordMatch Cases Notions.

Lemma lookup_map {V : Type} (f : string -> V) (L : list string) (b : string) :
  In b L -> lookup (map (fun x => (x, f x)) L) b = Some (f b).
Proof.
  induction L as [|x L IH]; intros H; [destruct H|]. cbn [map lookup].
  destruct (x =? b) eqn:E; [apply String.eqb_eq in E; now subst|].
  destruct H as [-> | H]; [now rewrite String.eqb_refl in E | auto].
Qed.

Lemma recommendations_entry (df : DataFrame) (b : string) (recs : list Recommendation) :
  In (b, recs) (generate_recommendations df) ->
  In b (map bank df)
  /\ recs = flat_map (fun tc => pain_point_rec (fst tc) (snd tc))
                     (top_pain_points (pain_points_of (where_bank b df)))
            ++ flat_map (fun tc => driver_rec (fst tc) (snd tc))
                        (top_drivers (drivers_of (where_bank b df))).
Proof.
  unfold generate_recommendations. intros H. apply in_map_iff in H.
  destruct H as [b' [E Hb]].
  pose proof (f_equal fst E) as E1. pose proof (f_equal snd E) as E2.
  cbn [fst snd] in E1, E2. subst b' recs.
  split; [exact (proj1 (unique_In String.eqb String.eqb_eq b _) Hb)|].
  unfold recommendations_of, identify_pain_points, identify_drivers.
  rewrite (lookup_map (fun x => pain_points_of (where_bank x df)) _ b Hb).
  rewrite (lookup_map (fun x => drivers_of (where_bank x df)) _ b Hb).
  destruct (top_pain_points _) as [|p ps]; destruct (top_drivers _) as [|t ts];
    cbn [flat_map app]; rewrite ?app_nil_r; reflexivity.
Qed.

Lemma pain_point_rec_cases (theme : string) (c : Z) :
  (In theme actionable
   /\ exists r, pain_point_rec theme c = [r] /\ priority r = "HIGH"
                /\ exists what, rationale r = (str_of_int c ++ what)%string)
  \/ (~ In theme actionable /\ pain_point_rec theme c = []).
Proof.
  unfold pain_point_rec, actionable.
  destruct (theme =? "TRANSACTIONS") eqn:E1;
    [|destruct (theme =? "APP_PERFORMANCE") eqn:E2;
      [|destruct (theme =? "RELIABILITY_ISSUES") eqn:E3]].
  - apply String.eqb_eq in E1. left. split; [simpl; auto|].
    eexists. split; [reflexivity|]. split; [reflexivity|]. eexists. reflexivity.
  - apply String.eqb_eq in E2. left. split; [simpl; auto|].
    eexists. split; [reflexivity|]. split; [reflexivity|]. eexists. reflexivity.
  - apply String.eqb_eq in E3. left. split; [simpl; auto|].
    eexists. split; [reflexivity|]. split; [reflexivity|]. eexists. reflexivity.
  - right. split; [|reflexivity]. apply String.eqb_neq in E1, E2, E3.
    simpl. intros [H | [H | [H | []]]]; congruence.
Qed.

(** The area a theme's pain point is filed under. *)
Lemma pain_point_rec_area (theme : string) (c : Z) (r : Recommendation) :
  In r (pain_point_rec theme c) ->
  priority r = "HIGH"
  /\ ((theme = "TRANSACTIONS" /\ area r = "Transactions")
      \/ (theme = "APP_PERFORMANCE" /\ area r = "App Performance")
      \/ (theme = "RELIABILITY_ISSUES" /\ area r = "Reliability")).
Proof.
  unfold pain_point_rec.
  destruct (theme =? "TRANSACTIONS") eqn:E1;
    [|destruct (theme =? "APP_PERFORMANCE") eqn:E2;
      [|destruct (theme =? "RELIABILITY_ISSUES") eqn:E3]];
    intros H; try (destruct H as [<- | []]); [| | |destruct H].
  - apply String.eqb_eq in E1. auto.
  - apply String.eqb_eq in E2. auto.
  - apply String.eqb_eq in E3. auto 6.
Qed.

Lemma driver_rec_area (theme : string) (c : Z) (r : Recommendation) :
  In r (driver_rec theme c) ->
  theme = "APP_PERFORMANCE" /\ priority r = "MEDIUM"
  /\ area r = "Performance Maintenance"
  /\ rationale r = (str_of_int c ++ " positive reviews highlight good performance")%string.
Proof.
  unfold driver_rec. destruct (theme =? "APP_PERFORMANCE") eqn:E; [|intros []].
  apply String.eqb_eq in E. intros [<- | []]. auto.
Qed.

Lemma flat_map_length_le {A B} (f : A -> list B) (l : list A) :
  (forall x, List.length (f x) <= 1)%nat ->
  (List.length (flat_map f l) <= List.length l)%nat.
Proof.
  intros H. induction l as [|x l IH]; [simpl; lia|].
  cbn [flat_map]. rewrite length_app. specialize (H x). simpl. lia.
Qed.

Lemma pain_point_rec_short theme c : (List.length (pain_point_rec theme c) <= 1)%nat.
Proof.
  unfold pain_point_rec.
  destruct (_ =? _); [simpl; lia|]. destruct (_ =? _); [simpl; lia|].
  destruct (_ =? _); simpl; lia.
Qed.

(** Distinct themes are filed under distinct areas. *)
Lemma pain_areas_NoDup (top : list (string * Z)) :
  NoDup (map fst top) ->
  NoDup (map area (flat_map (fun tc => pain_point_rec (fst tc) (snd tc)) top)).
Proof.
  induction top as [|[theme c] top IH]; intros H; [constructor|].
  cbn [map fst] in H. inversion H as [|? ? Hout Hrest]; subst.
  cbn [flat_map fst snd]. rewrite map_app.
  specialize (IH Hrest).
  destruct (pain_point_rec theme c) as [|r [|r' rs]] eqn:E.
  - exact IH.
  - cbn [map app]. constructor; [|exact IH].
    intros Hin. apply in_map_iff in Hin. destruct Hin as [r2 [Ea Hr2]].
    apply in_flat_map in Hr2. destruct Hr2 as [[theme2 c2] [Htop Hr2]].
    cbn [fst snd] in Hr2. apply pain_point_rec_area in Hr2.
    assert (Hr : In r (pain_point_rec theme c)) by (rewrite E; now left).
    apply pain_point_rec_area in Hr.
    assert (theme2 = theme).
    { destruct Hr as [_ [[-> Ar] | [[-> Ar] | [-> Ar]]]];
        destruct Hr2 as [_ [[-> Ar2] | [[-> Ar2] | [-> Ar2]]]];
        try reflexivity; rewrite Ar, Ar2 in Ea; discriminate Ea. }
    subst theme2. apply Hout. apply in_map_iff. exists (theme, c2). auto.
  - pose proof (pain_point_rec_short theme c) as Hs. rewrite E in Hs.
    simpl in Hs. lia.
Qed.

Lemma driver_recs_short (top : list (string * Z)) :
  NoDup (map fst top) ->
  (List.length (flat_map (fun tc => driver_rec (fst tc) (snd tc)) top) <= 1)%nat.
Proof.
  induction top as [|[theme c] top IH]; intros H; [simpl; lia|].
  cbn [map fst] in H. inversion H as [|? ? Hout Hrest]; subst.
  cbn [flat_map fst snd]. rewrite length_app. specialize (IH Hrest).
  unfold driver_rec at 1. destruct (theme =? "APP_PERFORMANCE") eqn:E;
    [|simpl; exact IH].
  apply String.eqb_eq in E. subst theme.
  assert (Hnone : flat_map (fun tc => driver_rec (fst tc) (snd tc)) top = []).
  { clear IH Hrest H. induction top as [|[t2 c2] top IH2]; [reflexivity|].
    cbn [flat_map fst snd]. unfold driver_rec at 1.
    destruct (t2 =? "APP_PERFORMANCE") eqn:E2.
    - apply String.eqb_eq in E2. subst t2. exfalso. apply Hout. now left.
    - cbn [app]. apply IH2. intros Hin. apply Hout. now right. }
  rewrite Hnone. simpl. lia.
Qed.

Lemma top_pain_points_keys (rows : DataFrame) :
  NoDup (map fst (top_pain_points (pain_points_of rows))).
Proof.
  unfold pain_points_of. destruct (0 <? _)%Z; cbn [top_pain_points]; [|constructor].
  apply firstn_keys_NoDup, (value_counts_NoDup String.eqb String.eqb_eq).
Qed.

Lemma top_drivers_keys (rows : DataFrame) :
  NoDup (map fst (top_drivers (drivers_of rows))).
Proof.
  unfold drivers_of. destruct (0 <? _)%Z; cbn [top_drivers]; [|constructor].
  apply firstn_keys_NoDup, (value_counts_NoDup String.eqb String.eqb_eq).
Qed.

Lemma top_pain_points_length (rows : DataFrame) :
  (List.length (top_pain_points (pain_points_of rows)) <= 3)%nat.
Proof.
  unfold pain_points_of. destruct (0 <? _)%Z; cbn [top_pain_points];
    [apply firstn_le_length | simpl; lia].
Qed.

(** X16: the shape of a bank's recommendations: first the HIGH ones, at
    most three, then the MEDIUM ones, at most one, so at most four in all,
    and no two for the same area. *)
Theorem recommendations_shape (df : DataFrame) (b : string)
        (recs : list Recommendation) :
  In (b, recs) (generate_recommendations df) ->
  NoDup (map area recs)
  /\ exists high medium,
      recs = high ++ medium
      /\ Forall (fun r => priority r = "HIGH") high
      /\ Forall (fun r => priority r = "MEDIUM") medium
      /\ (List.length high <= 3)%nat
      /\ (List.length medium <= 1)%nat.
Proof.
  intros H. apply recommendations_entry in H. destruct H as [_ ->].
  set (top := top_pain_points (pain_points_of (where_bank b df))).
  set (best := top_drivers (drivers_of (where_bank b df))).
  set (high := flat_map (fun tc => pain_point_rec (fst tc) (snd tc)) top).
  set (medium := flat_map (fun tc => driver_rec (fst tc) (snd tc)) best).
  assert (Hhigh : Forall (fun r => priority r = "HIGH"
                                   /\ In (area r) ["Transactions"; "App Performance";
                                                   "Reliability"]) high).
  { apply Forall_forall. intros r Hr. apply in_flat_map in Hr.
    destruct Hr as [[t c] [_ Hr]]. apply pain_point_rec_area in Hr.
    destruct Hr as [Hp [[_ ->] | [[_ ->] | [_ ->]]]]; simpl; auto. }
  assert (Hmed : Forall (fun r => priority r = "MEDIUM"
                                  /\ area r = "Performance Maintenance") medium).
  { apply Forall_forall. intros r Hr. apply in_flat_map in Hr.
    destruct Hr as [[t c] [_ Hr]]. apply driver_rec_area in Hr. tauto. }
  split.
  - rewrite map_app. apply NoDup_app.
    + apply pain_areas_NoDup, top_pain_points_keys.
    + pose proof (driver_recs_short best (top_drivers_keys _)) as Hs.
      fold medium in Hs. destruct medium as [|m [|m' ms]];
        [constructor | repeat constructor; intros [] | simpl in Hs; lia].
    + intros a Ha Hb. apply in_map_iff in Ha, Hb.
      destruct Ha as [r [<- Hr]]. destruct Hb as [r' [E Hr']].
      rewrite Forall_forall in Hhigh, Hmed.
      destruct (Hhigh r Hr) as [_ Ha]. destruct (Hmed r' Hr') as [_ Hb].
      rewrite <- E, Hb in Ha. simpl in Ha.
      destruct Ha as [Ha | [Ha | [Ha | []]]]; discriminate Ha.
  - exists high, medium. split; [reflexivity|].
    split; [revert Hhigh; apply Forall_impl; tauto|].
    split; [revert Hmed; apply Forall_impl; tauto|].
    split.
    + pose proof (flat_map_length_le (fun tc => pain_point_rec (fst tc) (snd tc)) top
                    (fun tc => pain_point_rec_short _ _)) as Hl.
      pose proof (top_pain_points_length (where_bank b df)) as Ht.
      fold top in Ht. fold high in Hl. lia.
    + apply driver_recs_short, top_drivers_keys.
Qed.

Lemma recommendations_shape_witness :
  NoDup (map area (recommendations_of (identify_pain_points bank_a_reviews)
                                      (identify_drivers bank_a_reviews) "A")).
Proof.
  assert (H : In ("A", recommendations_of (identify_pain_points bank_a_reviews)
                         (identify_drivers bank_a_reviews) "A")
                 (generate_recommendations bank_a_reviews))
    by (vm_compute; left; reflexivity).
  exact (proj1 (recommendations_shape bank_a_reviews "A" _ H)).
Defined.

(** X17: where a recommendation comes from.  A HIGH recommendation
    exists for a theme exactly when the theme is TRANSACTIONS,
    APP_PERFORMANCE or RELIABILITY_ISSUES and is among the bank's three top
    pain points, and its rationale then opens with the number of times the
    theme is tagged on the bank's NEGATIVE rows; the MEDIUM one exists
    exactly when APP_PERFORMANCE is among the three top drivers.  Pain
    points in any other theme, however frequent, give no
    recommendation. *)
Theorem recommendations_trace_to_counts (df : DataFrame) (b : string)
        (recs : list Recommendation) :
  In (b, recs) (generate_recommendations df) ->
  let negative := collect_themes (where_label "NEGATIVE" (where_bank b df)) in
  let positive := collect_themes (where_label "POSITIVE" (where_bank b df)) in
  let top := top_pain_points (pain_points_of (where_bank b df)) in
  let best := top_drivers (drivers_of (where_bank b df)) in
  (forall r, In r recs ->
      (priority r = "HIGH"
       /\ exists theme what,
           In theme actionable
           /\ In (theme, count String.eqb theme negative) top
           /\ (0 < count String.eqb theme negative)%Z
           /\ rationale r
              = (str_of_int (count String.eqb theme negative) ++ what)%string)
      \/ (priority r = "MEDIUM"
          /\ In ("APP_PERFORMANCE", count String.eqb "APP_PERFORMANCE" positive) best
          /\ (0 < count String.eqb "APP_PERFORMANCE" positive)%Z
          /\ rationale r
             = (str_of_int (count String.eqb "APP_PERFORMANCE" positive)
                ++ " positive reviews highlight good performance")%string))
  /\ (forall theme c,
         In theme actionable -> In (theme, c) top ->
         exists r, In r recs /\ pain_point_rec theme c = [r])
  /\ (forall c, In ("APP_PERFORMANCE", c) best ->
                exists r, In r recs /\ driver_rec "APP_PERFORMANCE" c = [r])
  /\ ((forall theme, In theme actionable -> ~ In theme (map fst top)) ->
      Forall (fun r => priority r = "MEDIUM") recs).
Proof.
  intros H negative positive top best.
  apply recommendations_entry in H. destruct H as [_ ->].
  fold top best.
  assert (Htop : forall theme c, In (theme, c) top ->
                   c = count String.eqb theme negative /\ (0 < c)%Z).
  { intros theme c Hc. unfold top, pain_points_of in Hc.
    destruct (0 <? _)%Z; [|destruct Hc]. cbn [top_pain_points] in Hc.
    apply firstn_In in Hc.
    apply (value_counts_In String.eqb String.eqb_eq) in Hc. destruct Hc as [Hin ->].
    split; [reflexivity | now apply (count_pos String.eqb String.eqb_eq)]. }
  assert (Hbest : forall theme c, In (theme, c) best ->
                   c = count String.eqb theme positive /\ (0 < c)%Z).
  { intros theme c Hc. unfold best, drivers_of in Hc.
    destruct (0 <? _)%Z; [|destruct Hc]. cbn [top_drivers] in Hc.
    apply firstn_In in Hc.
    apply (value_counts_In String.eqb String.eqb_eq) in Hc. destruct Hc as [Hin ->].
    split; [reflexivity | now apply (count_pos String.eqb String.eqb_eq)]. }
  split; [|split; [|split]].
  - intros r Hr. apply in_app_or in Hr. destruct Hr as [Hr | Hr].
    + left. apply in_flat_map in Hr. destruct Hr as [[theme c] [Hc Hr]].
      cbn [fst snd] in Hr. destruct (Htop theme c Hc) as [Ec Hpos].
      destruct (pain_point_rec_cases theme c)
        as [[Ha [r' [E [Hp [what Hw]]]]] | [_ E]]; rewrite E in Hr; [|destruct Hr].
      destruct Hr as [<- | []]. split; [exact Hp|].
      exists theme, what. rewrite <- Ec. auto.
    + right. apply in_flat_map in Hr. destruct Hr as [[theme c] [Hc Hr]].
      cbn [fst snd] in Hr. apply driver_rec_area in Hr.
      destruct Hr as [-> [Hp [_ Hw]]]. destruct (Hbest _ c Hc) as [Ec Hpos].
      rewrite <- Ec. auto.
  - intros theme c Ha Hc.
    destruct (pain_point_rec_cases theme c) as [[_ [r [E _]]] | [Hn _]];
      [|contradiction].
    exists r. split; [|exact E]. apply in_or_app. left.
    apply in_flat_map. exists (theme, c). split; [exact Hc|].
    cbn [fst snd]. rewrite E. now left.
  - intros c Hc. eexists. split; [|reflexivity]. apply in_or_app. right.
    apply in_flat_map. exists ("APP_PERFORMANCE", c). split; [exact Hc|]. now left.
  - intros Hnone. apply Forall_app. split.
    + apply Forall_forall. intros r Hr. exfalso.
      apply in_flat_map in Hr. destruct Hr as [[theme c] [Hc Hr]].
      cbn [fst snd] in Hr.
      destruct (pain_point_rec_cases theme c) as [[Ha _] | [_ E]];
        [|rewrite E in Hr; destruct Hr].
      apply (Hnone theme Ha). apply in_map_iff. exists (theme, c). auto.
    + apply Forall_forall. intros r Hr. apply in_flat_map in Hr.
      destruct Hr as [[theme c] [_ Hr]]. apply driver_rec_area in Hr. tauto.
Qed.

Lemma recommendations_trace_to_counts_witness :
  exists r,
    In r (recommendations_of (identify_pain_points bank_a_reviews)
                             (identify_drivers bank_a_reviews) "A")
    /\ pain_point_rec "TRANSACTIONS" 1 = [r].
Proof.
  assert (H : In ("A", recommendations_of (identify_pain_points bank_a_reviews)
                         (identify_drivers bank_a_reviews) "A")
                 (generate_recommendations bank_a_reviews))
    by (vm_compute; left; reflexivity).
  apply (proj1 (proj2 (recommendations_trace_to_counts bank_a_reviews "A" _ H))).
  - simpl. auto.
  - vm_compute. right. right. left. reflexivity.
Defined.

End RecommendationShape.

(** ** The report as a whole *)

Section ReportFacts.
Import PyStr Pandas InsightsAnalyzer InsightsReport WordMatch Cases Notions.

Lemma report_of_sections (df : DataFrame) :
  let report := report_of df in
  let banks := unique String.eqb (map bank df) in
  map fst (sentiment_analysis report) = banks
  /\ map fst (theme_analysis report) = banks
  /\ map fst (pain_points report) = banks
  /\ map fst (drivers report) = banks
  /\ map fst (recommendations report) = banks.
Proof.
  cbv zeta. unfold report_of.
  cbn [sentiment_analysis theme_analysis pain_points drivers recommendations].
  unfold analyze_sentiment_by_bank, InsightsReport.analyze_themes_by_bank,
    identify_pain_points, identify_drivers, generate_recommendations.
  rewrite !map_map. cbn [fst]. rewrite !map_id. auto.
Qed.

(** X18: [generate_insights_report].  It returns the empty report only
    when no frame is held and loading fails, and it does not load when a
    frame is held.  In a report every per-bank section lists the same
    banks in the same order, each bank once; [banks_analyzed] is their
    number; [total_reviews] is the sum of the banks' totals; and for an
    empty frame the sections are empty and both overall averages are
    missing. *)
Theorem insights_report_sections (self_df load_data : option DataFrame) :
  (generate_insights_report self_df load_data = None
   <-> self_df = None /\ load_data = None)
  /\ (forall df, self_df = Some df ->
                 generate_insights_report self_df load_data = Some (report_of df))
  /\ forall report,
      generate_insights_report self_df load_data = Some report ->
      let banks := map fst (sentiment_analysis report) in
      let summary := summary_statistics report in
      NoDup banks
      /\ map fst (theme_analysis report) = banks
      /\ map fst (pain_points report) = banks
      /\ map fst (drivers report) = banks
      /\ map fst (recommendations report) = banks
      /\ banks_analyzed summary = Z.of_nat (List.length banks)
      /\ summary_total_reviews summary
         = sum_Z (map (fun e => total_reviews (snd e)) (sentiment_analysis report))
      /\ (summary_total_reviews summary = 0%Z ->
          banks = [] /\ overall_positive_pct summary = None
          /\ overall_avg_rating summary = None
          /\ ethical_considerations report = []).
Proof.
  split; [|split].
  - unfold generate_insights_report.
    destruct self_df; [|destruct load_data]; split;
      try discriminate; try tauto; intros [? ?]; discriminate.
  - intros df ->. reflexivity.
  - intros report H.
    assert (Hdf : exists df, report = report_of df).
    { unfold generate_insights_report in H.
      destruct self_df as [df|]; [|destruct load_data as [df|]];
        [ | |discriminate]; exists df; congruence. }
    destruct Hdf as [df ->]. clear H.
    destruct (report_of_sections df) as [E1 [E2 [E3 [E4 E5]]]].
    cbv zeta. rewrite E1, E2, E3, E4, E5.
    split; [apply (unique_NoDup String.eqb String.eqb_eq)|].
    split; [reflexivity|]. split; [reflexivity|]. split; [reflexivity|].
    split; [reflexivity|]. split; [reflexivity|].
    split; [symmetry; apply bank_totals_sum|].
    unfold report_of. cbn [summary_statistics summary_total_reviews
                             overall_positive_pct overall_avg_rating
                             ethical_considerations].
    intros H0. destruct df as [|r df]; [|unfold len in H0; simpl in H0; lia].
    repeat split; reflexivity.
Qed.

End ReportFacts.

(** ** Cleaned text and tokens *)

Section TokenFacts.
Import PyStr TextPreprocessor Preprocess Normal WordMatch Notions.

Lemma forall_chars_In (p : ascii -> bool) (s : string) :
  forall_chars p s = true
  <-> forall c, In c (list_ascii_of_string s) -> p c = true.
Proof.
  induction s as [|x s IH]; simpl.
  - split; [intros _ c [] | reflexivity].
  - rewrite andb_true_iff, IH. split.
    + intros [Hx Hs] c [<- | Hc]; auto.
    + intros H. split; [apply H; now left | intros c Hc; apply H; now right].
Qed.

Lemma final_char_cases (c : ascii) :
  final_char c = true ->
  is_lower c = true \/ c = "_"%char \/ c = " "%char.
Proof.
  destruct c as [[] [] [] [] [] [] [] []]; vm_compute; intros H;
    try discriminate H; auto.
Qed.

Lemma tidy_no_double_space (b : bool) (s : string) :
  tidy_from b s = true -> contains "  " s = false.
Proof.
  revert b. induction s as [|c s IH]; intros b H; [reflexivity|].
  cbn [contains].
  destruct (prefix "  " (String c s)) eqn:P.
  - exfalso. apply prefix_iff in P. destruct P as [rest P].
    injection P as -> ->. cbn [tidy_from] in H.
    change (is_space " ") with true in H. cbv iota in H.
    rewrite andb_false_r in H. discriminate H.
  - cbn [orb]. cbn [tidy_from] in H. destruct (is_space c).
    + apply andb_prop in H. destruct H as [_ H]. exact (IH true H).
    + exact (IH false H).
Qed.

Lemma clean_text_length (t : string) :
  (String.length (clean_text (Text t)) <= String.length t)%nat.
Proof.
  unfold clean_text, strip, remove_urls, remove_mentions, remove_hashtags.
  eapply Nat.le_trans; [apply rstrip_length|].
  eapply Nat.le_trans; [apply lstrip_length|].
  eapply Nat.le_trans; [apply collapse_length|].
  rewrite remove_punctuation_length.
  eapply Nat.le_trans; [apply remove_numbers_length|].
  eapply Nat.le_trans; [apply remove_runs_length|].
  eapply Nat.le_trans; [apply remove_runs_length|].
  eapply Nat.le_trans; [apply remove_runs_length|].
  now rewrite lower_length.
Qed.


Lemma split_ws_aux_chars (p : ascii -> bool) (s cur : string) :
  forall_chars p cur = true -> forall_chars p s = true ->
  forallb (forall_chars p) (split_ws_aux cur s) = true.
Proof.
  revert cur. induction s as [|c r IH]; intros cur Hcur Hs; cbn [split_ws_aux].
  - destruct cur; [reflexivity|]. cbn [forallb]. now rewrite Hcur.
  - cbn [forall_chars] in Hs. apply andb_prop in Hs. destruct Hs as [Hc Hr].
    destruct (is_space c).
    + destruct cur as [|x cur]; [now apply IH|].
      cbn [forallb]. rewrite Hcur. now apply IH.
    + apply IH; [|exact Hr]. rewrite forall_chars_app, Hcur. simpl. now rewrite Hc.
Qed.

(** The room the words of a text take: each its length and one
    separator. *)
Lemma split_ws_aux_room (s cur : string) :
  (fold_right (fun w n => String.length w + 1 + n) 0 (split_ws_aux cur s)
   <= String.length cur + String.length s + 1)%nat.
Proof.
  revert cur. induction s as [|c r IH]; intros cur; cbn [split_ws_aux].
  - destruct cur; simpl; lia.
  - destruct (is_space c).
    + destruct cur as [|x cur].
      * specialize (IH ""). simpl in *. lia.
      * cbn [fold_right]. specialize (IH ""). simpl in *. lia.
    + specialize (IH (cur ++ String c "")%string).
      assert (El : String.length (cur ++ String c "") = S (String.length cur)).
      { clear. induction cur as [|x cur IHc]; simpl; [reflexivity | now rewrite IHc]. }
      rewrite El in IH. simpl. lia.
Qed.

Lemma long_words_room (ws : list string) :
  (4 * List.length (filter (fun w => (2 <? String.length w)%nat) ws)
   <= fold_right (fun w n => String.length w + 1 + n) 0 ws)%nat.
Proof.
  induction ws as [|w ws IH]; [simpl; lia|]. cbn [filter fold_right].
  destruct (2 <? String.length w)%nat eqn:E; cbn [List.length]; [|lia].
  apply Nat.ltb_lt in E. lia.
Qed.

Lemma word_plain (w : string) :
  forall_chars final_char w = true -> word w = true -> forall_chars plain w = true.
Proof.
  intros Hf Hw. unfold word in Hw. apply andb_prop in Hw. destruct Hw as [_ Hw].
  induction w as [|c w IH]; [reflexivity|].
  cbn [forall_chars] in *. apply andb_prop in Hf, Hw.
  destruct Hf as [Hc Hf]. destruct Hw as [Hs Hw]. rewrite (IH Hf Hw), andb_true_r.
  unfold final_char in Hc. apply orb_prop in Hc. destruct Hc as [Hc | Hc]; [exact Hc|].
  apply Ascii.eqb_eq in Hc. subst c. discriminate Hs.
Qed.

Lemma tokenize_tokens (text : cell) (t : string) :
  In t (tokenize_text text) ->
  (2 < String.length t)%nat /\ forall_chars plain t = true
  /\ In t (split_ws (clean_text text)).
Proof.
  unfold tokenize_text. intros H. apply filter_In in H. destruct H as [Hin Hl].
  apply Nat.ltb_lt in Hl. split; [exact Hl|]. split; [|exact Hin].
  destruct (clean_text_normal text) as [Hc _].
  pose proof (split_ws_aux_chars final_char (clean_text text) "" eq_refl Hc) as Hf.
  pose proof (split_ws_words (clean_text text)) as Hw.
  rewrite forallb_forall in Hf, Hw. apply word_plain; [apply Hf | apply Hw]; exact Hin.
Qed.


End TokenFacts.

(** ** Whitespace normalization of the scraped reviews *)

Section ContentFacts.
Import PyStr TextPreprocessor ReviewPreprocessor Normal WordMatch Notions.

Lemma join_cons2 (a b : string) (l : list string) :
  join " " (a :: b :: l) = (a ++ " " ++ join " " (b :: l))%string.
Proof. reflexivity. Qed.

Lemma join_words_nonempty (w : string) (ws : list string) :
  w <> "" -> join " " (w :: ws) <> "".
Proof.
  intros Hw. destruct ws as [|b l]; [exact Hw|]. rewrite join_cons2.
  destruct w; [congruence | discriminate].
Qed.

Lemma all_space_rstrip (s : string) : all_space s = true -> rstrip s = "".
Proof. intros H. destruct s; [reflexivity|]. cbn [rstrip]. now rewrite H. Qed.

Lemma rstrip_visible (c : ascii) (s : string) :
  is_space c = false -> rstrip (String c s) = String c (rstrip s).
Proof.
  intros H. cbn [rstrip]. now rewrite (all_space_cons_visible c s H).
Qed.

Lemma rstrip_space (c : ascii) (s : string) :
  is_space c = true ->
  rstrip (String c s) = if all_space s then "" else String c (rstrip s).
Proof.
  intros H. cbn [rstrip]. now rewrite (all_space_cons_space c s H).
Qed.

Lemma split_ws_aux_head (s cur : string) :
  cur <> "" -> forall_chars (fun c => negb (is_space c)) cur = true ->
  exists ws, split_ws_aux cur s = ws /\ ws <> []
             /\ forallb word ws = true.
Proof.
  intros Hne Hc. exists (split_ws_aux cur s). split; [reflexivity|].
  split; [|now apply split_ws_aux_words].
  revert cur Hne Hc. induction s as [|c r IH]; intros cur Hne Hc; cbn [split_ws_aux].
  - destruct cur; [congruence | discriminate].
  - destruct (is_space c) eqn:E.
    + destruct cur; [congruence | discriminate].
    + apply IH.
      * destruct cur; discriminate.
      * rewrite forall_chars_app, Hc. simpl. now rewrite E.
Qed.

(** Collapsing the whitespace and trimming on the right joins the words
    by single spaces. *)
Lemma join_split_ws_aux (s : string) :
  (forall cur, cur <> "" ->
               forall_chars (fun c => negb (is_space c)) cur = true ->
               join " " (split_ws_aux cur s)
               = (cur ++ rstrip (collapse_spaces false s))%string)
  /\ join " " (split_ws_aux "" s) = rstrip (collapse_spaces true s).
Proof.
  induction s as [|c r [IH1 IH2]].
  - split; [|reflexivity]. intros cur Hne _. cbn [split_ws_aux collapse_spaces rstrip].
    destruct cur; [congruence|]. cbn [join concat]. now rewrite append_empty_r.
  - split.
    + intros cur Hne Hc. cbn [split_ws_aux collapse_spaces].
      destruct (is_space c) eqn:E.
      * destruct cur as [|x cur]; [congruence|].
        change (is_space " ") with true.
        rewrite (rstrip_space " " _ eq_refl).
        destruct (split_ws_aux "" r) as [|w ws] eqn:Ew.
        -- cbn [join concat]. cbn [join concat] in IH2.
           symmetry in IH2. apply rstrip_empty in IH2. rewrite IH2.
           now rewrite append_empty_r.
        -- rewrite join_cons2, IH2.
           assert (Hw : w <> "").
           { pose proof (split_ws_aux_words r "" eq_refl) as Hws.
             rewrite Ew in Hws. cbn [forallb] in Hws.
             apply andb_prop in Hws. destruct Hws as [Hws _].
             unfold word in Hws. apply andb_prop in Hws. destruct Hws as [Hws _].
             intros ->. discriminate Hws. }
           destruct (all_space (collapse_spaces true r)) eqn:Ea; [|reflexivity].
           apply all_space_rstrip in Ea. rewrite <- IH2 in Ea.
           now apply join_words_nonempty in Ea.
      * rewrite (rstrip_visible c _ E). rewrite IH1.
        -- now rewrite append_assoc.
        -- destruct cur; discriminate.
        -- rewrite forall_chars_app, Hc. simpl. now rewrite E.
    + cbn [split_ws_aux collapse_spaces]. destruct (is_space c) eqn:E.
      * exact IH2.
      * rewrite (rstrip_visible c _ E). cbn [append].
        rewrite (IH1 (String c "")); [reflexivity | discriminate|].
        simpl. now rewrite E.
Qed.

Lemma lstrip_collapse (s : string) :
  lstrip (collapse_spaces false s) = collapse_spaces true s.
Proof.
  destruct s as [|c r]; [reflexivity|]. cbn [collapse_spaces].
  destruct (is_space c) eqn:E.
  - cbn [lstrip]. change (is_space " ") with true. cbv iota.
    apply spaced_true_lstrip, collapse_spaced.
  - cbn [lstrip]. now rewrite E.
Qed.

Lemma collapse_only_blank (b : bool) (s : string) :
  forall_chars only_blank (collapse_spaces b s) = true.
Proof.
  revert b. induction s as [|c r IH]; intros b; [reflexivity|].
  cbn [collapse_spaces]. destruct (is_space c) eqn:E.
  - destruct b; [apply IH|].
    change (forall_chars only_blank (String " " (collapse_spaces true r)))
      with (only_blank " " && forall_chars only_blank (collapse_spaces true r)).
    now rewrite IH.
  - change (forall_chars only_blank (String c (collapse_spaces false r)))
      with (only_blank c && forall_chars only_blank (collapse_spaces false r)).
    rewrite IH. unfold only_blank. now rewrite E.
Qed.

(** What [clean_text_content] computes: the words of the text, joined by
    single spaces. *)
Lemma clean_text_content_join (t : string) :
  clean_text_content (Text t) = join " " (split_ws t).
Proof.
  unfold clean_text_content, strip, split_ws. rewrite lstrip_collapse.
  symmetry. apply (proj2 (join_split_ws_aux t)).
Qed.

Lemma split_ws_all_space (s : string) :
  all_space s = true <-> split_ws s = [].
Proof.
  unfold split_ws. induction s as [|c r IH]; [simpl; tauto|].
  cbn [split_ws_aux]. destruct (is_space c) eqn:E.
  - rewrite (all_space_cons_space c r E). exact IH.
  - rewrite (all_space_cons_visible c r E). split; [discriminate|].
    intros H.
    destruct (split_ws_aux_head r (String c "")) as [ws [Ew [Hne _]]];
      [discriminate | simpl; now rewrite E |].
    cbn [append] in H. congruence.
Qed.

(** X21: [clean_text_content] returns the words of the review joined by
    single spaces.  So the words are kept, the result has no whitespace
    but single spaces between words, cleaning it again changes nothing, it
    is never longer than the review, and it is empty exactly for a missing
    review and for a review that is all whitespace: the rows dropped as
    empty. *)
Theorem clean_text_content_normalizes (text : cell) :
  let out := clean_text_content text in
  (forall t, text = Text t ->
             out = join " " (split_ws t)
             /\ split_ws out = split_ws t
             /\ (String.length out <= String.length t)%nat)
  /\ clean_text_content (Text out) = out
  /\ strip out = out
  /\ contains "  " out = false
  /\ (forall c, In c (list_ascii_of_string out) ->
                is_space c = true -> c = " "%char)
  /\ (out = "" <-> text = NaN \/ exists t, text = Text t /\ all_space t = true).
Proof.
  intros out. unfold out. destruct text as [|t].
  - cbn [clean_text_content].
    split; [intros t E; discriminate E|]. split; [reflexivity|].
    split; [reflexivity|]. split; [reflexivity|].
    split; [intros c []|]. split; [auto | reflexivity].
  - assert (Hw : split_ws (join " " (split_ws t)) = split_ws t)
      by apply split_ws_join, split_ws_words.
    assert (Ht : tidy (clean_text_content (Text t)) = true)
      by apply strip_collapse_tidy.
    split; [|split; [|split; [|split; [|split]]]].
    + intros t' E. injection E as <-. rewrite clean_text_content_join.
      split; [reflexivity|]. split; [exact Hw|].
      rewrite <- clean_text_content_join. unfold clean_text_content, strip.
      eapply Nat.le_trans; [apply rstrip_length|].
      eapply Nat.le_trans; [apply lstrip_length|]. apply collapse_length.
    + rewrite (clean_text_content_join (clean_text_content (Text t))).
      rewrite (clean_text_content_join t) at 1. now rewrite Hw, clean_text_content_join.
    + now apply tidy_strip.
    + exact (tidy_no_double_space true _ Ht).
    + intros c Hin Hs. unfold clean_text_content, strip in Hin.
      assert (Hc : forall_chars only_blank
                     (rstrip (lstrip (collapse_spaces false t))) = true)
        by apply rstrip_chars, lstrip_chars, collapse_only_blank.
      pose proof (proj1 (forall_chars_In _ _) Hc c Hin) as Hcc.
      unfold only_blank in Hcc. rewrite Hs in Hcc. now apply Ascii.eqb_eq in Hcc.
    + rewrite clean_text_content_join. split.
      * intros E. right. exists t. split; [reflexivity|].
        apply split_ws_all_space.
        destruct (split_ws t) as [|w ws] eqn:Ew; [reflexivity|]. exfalso.
        pose proof (split_ws_words t) as Hws. rewrite Ew in Hws.
        cbn [forallb] in Hws. apply andb_prop in Hws. destruct Hws as [Hws _].
        unfold word in Hws. apply andb_prop in Hws. destruct Hws as [Hws _].
        apply (join_words_nonempty w ws); [intros ->; discriminate Hws | exact E].
      * intros [E | [t' [E Ha]]]; [discriminate E|]. injection E as <-.
        apply split_ws_all_space in Ha. now rewrite Ha.
Qed.

End ContentFacts.

(** ** The preprocessing steps *)

Section PreprocessingFacts.
Import PyStr TextPreprocessor ReviewPreprocessor Normal WordMatch Cases Notions.

Lemma cell_eqb_eq (a b : cell) : cell_eqb a b = true <-> a = b.
Proof.
  destruct a as [|s], b as [|t]; simpl; try (split; [discriminate | discriminate]).
  - tauto.
  - rewrite String.eqb_eq. split; [now intros -> | now intros [= ->]].
Qed.

Lemma seen_In (x : cell) (seen : list cell) :
  existsb (cell_eqb x) seen = true <-> In x seen.
Proof.
  rewrite existsb_exists. split.
  - intros [y [Hy E]]. apply cell_eqb_eq in E. now subst.
  - intros H. exists x. split; [exact H | now apply cell_eqb_eq].
Qed.

Lemma drop_duplicates_In (seen : list cell) (df : list Raw) (r : Raw) :
  In r (drop_duplicates_from seen df) -> In r df /\ ~ In (review r) seen.
Proof.
  revert seen. induction df as [|x df IH]; intros seen H; [destruct H|].
  cbn [drop_duplicates_from] in H.
  destruct (existsb (cell_eqb (review x)) seen) eqn:E.
  - destruct (IH _ H) as [H1 H2]. split; [now right | exact H2].
  - destruct H as [<- | H].
    + split; [now left|]. intros Hin. apply seen_In in Hin. congruence.
    + destruct (IH _ H) as [H1 H2]. split; [now right|].
      intros Hin. apply H2. now right.
Qed.

Lemma drop_duplicates_NoDup (seen : list cell) (df : list Raw) :
  NoDup (map review (drop_duplicates_from seen df)).
Proof.
  revert seen. induction df as [|x df IH]; intros seen; [constructor|].
  cbn [drop_duplicates_from].
  destruct (existsb (cell_eqb (review x)) seen); [apply IH|].
  cbn [map]. constructor; [|apply IH].
  intros Hin. apply in_map_iff in Hin. destruct Hin as [r [E Hr]].
  apply drop_duplicates_In in Hr. destruct Hr as [_ Hr]. apply Hr. left. auto.
Qed.

Lemma drop_duplicates_subseq (seen : list cell) (df : list Raw) :
  subseq (drop_duplicates_from seen df) df.
Proof.
  revert seen. induction df as [|x df IH]; intros seen; [constructor|].
  cbn [drop_duplicates_from].
  destruct (existsb (cell_eqb (review x)) seen); constructor; apply IH.
Qed.

(** A row is kept when its review was not seen, in the frame or before
    it. *)
Lemma drop_duplicates_first (seen : list cell) (a b : list Raw) (r : Raw) :
  ~ In (review r) seen -> ~ In (review r) (map review a) ->
  In r (drop_duplicates_from seen (a ++ r :: b)).
Proof.
  revert seen. induction a as [|x a IH]; intros seen Hs Ha.
  - cbn [app drop_duplicates_from].
    destruct (existsb (cell_eqb (review r)) seen) eqn:E; [|now left].
    apply seen_In in E. contradiction.
  - cbn [app drop_duplicates_from].
    assert (Hx : review r <> review x) by (intros E; apply Ha; left; auto).
    assert (Ha' : ~ In (review r) (map review a)) by (intros H; apply Ha; now right).
    destruct (existsb (cell_eqb (review x)) seen).
    + now apply IH.
    + right. apply IH; [|exact Ha']. intros [E | H]; [congruence | contradiction].
Qed.

Lemma drop_duplicates_covers (seen : list cell) (df : list Raw) (r : Raw) :
  In r df -> ~ In (review r) seen ->
  In (review r) (map review (drop_duplicates_from seen df)).
Proof.
  revert seen. induction df as [|x df IH]; intros seen H Hs; [destruct H|].
  cbn [drop_duplicates_from].
  destruct (existsb (cell_eqb (review x)) seen) eqn:E.
  - destruct H as [-> | H]; [apply seen_In in E; contradiction | now apply IH].
  - cbn [map]. destruct H as [-> | H]; [now left|].
    destruct (cell_eqb (review x) (review r)) eqn:Ex.
    + apply cell_eqb_eq in Ex. now left.
    + right. apply IH; [exact H|]. intros [Hx | Hin]; [|contradiction].
      rewrite Hx in Ex.
      assert (cell_eqb (review r) (review r) = true) by now apply cell_eqb_eq.
      congruence.
Qed.

Lemma drop_duplicates_fixed (seen : list cell) (df : list Raw) :
  NoDup (map review df) -> (forall r, In r df -> ~ In (review r) seen) ->
  drop_duplicates_from seen df = df.
Proof.
  revert seen. induction df as [|x df IH]; intros seen Hn Hs; [reflexivity|].
  cbn [map] in Hn. inversion Hn as [|? ? Hx Hn']; subst.
  cbn [drop_duplicates_from].
  destruct (existsb (cell_eqb (review x)) seen) eqn:E.
  - apply seen_In in E. exfalso. apply (Hs x); [now left | exact E].
  - f_equal. apply IH; [exact Hn'|].
    intros r Hr [Hin | Hin].
    + apply Hx. rewrite Hin. apply in_map. exact Hr.
    + apply (Hs r); [now right | exact Hin].
Qed.

(** X22: [remove_duplicates] keeps, of the rows with the same review, the
    first one.  The rows kept are rows of the frame in the frame's order,
    no review occurs twice among them (two missing reviews count as the
    same), every review of the frame is still present, a row is kept when
    no row before it has its review, and a second pass removes
    nothing. *)
Theorem remove_duplicates_keeps_first (df : list Raw) :
  let kept := remove_duplicates df in
  subseq kept df
  /\ NoDup (map review kept)
  /\ (forall x, In x (map review kept) <-> In x (map review df))
  /\ (forall a r b, df = a ++ r :: b -> ~ In (review r) (map review a) ->
                    In r kept)
  /\ remove_duplicates kept = kept.
Proof.
  intros kept. unfold kept, remove_duplicates.
  split; [apply drop_duplicates_subseq|].
  split; [apply drop_duplicates_NoDup|].
  split; [|split].
  - intros x. split.
    + intros H. apply in_map_iff in H. destruct H as [r [<- Hr]].
      apply drop_duplicates_In in Hr. apply in_map. tauto.
    + intros H. apply in_map_iff in H. destruct H as [r [<- Hr]].
      apply drop_duplicates_covers; [exact Hr | intros []].
  - intros a r b -> Ha. apply drop_duplicates_first; [intros [] | exact Ha].
  - apply drop_duplicates_fixed; [apply drop_duplicates_NoDup | intros r _ []].
Qed.

Lemma validate_data_filter (df : list Cleaned) :
  validate_data df = filter (fun c => between_1_5 (rating (raw c))) df.
Proof.
  unfold validate_data.
  destruct (0 <? List.length (filter (fun c => negb (between_1_5 (rating (raw c)))) df))%nat
    eqn:E; [reflexivity|].
  apply Nat.ltb_ge in E.
  induction df as [|c df IH]; [reflexivity|]. cbn [filter] in *.
  destruct (between_1_5 (rating (raw c))); cbn [negb] in E.
  - f_equal. apply IH. exact E.
  - simpl in E. lia.
Qed.

Lemma process_loaded_rows (df : list Raw) (c : Cleaned) :
  In c (fst (process_loaded df)) ->
  exists r t z b,
    In r (remove_duplicates df)
    /\ review r = Text t /\ rating r = Some z /\ bank r = Some b
    /\ raw c = {| review := Text t; rating := Some z; bank := Some b;
                  source := Some (match source r with
                                  | Some s => s
                                  | None => "Google Play Store"
                                  end) |}
    /\ review_cleaned c = clean_text_content (Text t)
    /\ review_cleaned c <> ""
    /\ (1 <= z <= 5)%Z.
Proof.
  unfold process_loaded. cbn [fst]. rewrite validate_data_filter.
  intros H. apply filter_In in H. destruct H as [H Hv].
  unfold drop_empty in H. apply filter_In in H. destruct H as [H He].
  unfold add_review_cleaned in H. apply in_map_iff in H. destruct H as [r' [<- H]].
  unfold handle_missing_data in H. apply in_map_iff in H. destruct H as [r [<- H]].
  apply filter_In in H. destruct H as [H Hc].
  cbn [raw review_cleaned review rating] in *.
  unfold complete in Hc.
  destruct (review r) as [|t] eqn:Et; [discriminate|].
  destruct (rating r) as [z|] eqn:Ez; [|discriminate].
  destruct (bank r) as [b|] eqn:Eb; [|discriminate].
  exists r, t, z, b. split; [exact H|].
  split; [exact Et|]. split; [exact Ez|]. split; [exact Eb|].
  split; [reflexivity|]. split; [reflexivity|]. split.
  - intros E. rewrite E in He. discriminate He.
  - unfold between_1_5 in Hv. apply andb_prop in Hv. destruct Hv as [H1 H5].
    apply Z.leb_le in H1, H5. lia.
Qed.

Lemma filter_NoDup_map {A B} (key : A -> B) (keep : A -> bool) (rows : list A) :
  NoDup (map key rows) -> NoDup (map key (filter keep rows)).
Proof.
  intros H. induction rows as [|x rows IH]; [constructor|].
  cbn [map] in H. inversion H as [|? ? Hx Hn]; subst. cbn [filter].
  destruct (keep x); [|now apply IH]. cbn [map]. constructor; [|now apply IH].
  intros Hin. apply Hx. apply in_map_iff in Hin. destruct Hin as [y [E Hy]].
  apply filter_In in Hy. rewrite <- E. apply in_map. tauto.
Qed.

(** X23: every row [process] saves is a row of the raw frame with nothing
    missing: a review that is not blank, whose cleaned form is its words
    joined by single spaces and is not empty, a rating from 1 to 5, a
    bank, and a source (the default when the raw one is missing).  No raw
    review occurs twice.  The cleaned reviews can still repeat: two raw
    reviews that differ only in whitespace are both kept. *)
Theorem process_output_valid (df : list Raw) :
  let out := fst (process_loaded df) in
  (forall c, In c out ->
     exists r t z b,
       In r df
       /\ review r = Text t /\ rating r = Some z /\ bank r = Some b
       /\ review (raw c) = Text t /\ rating (raw c) = Some z
       /\ bank (raw c) = Some b
       /\ source (raw c) = Some (match source r with
                                 | Some s => s
                                 | None => "Google Play Store"
                                 end)
       /\ all_space t = false
       /\ review_cleaned c = join " " (split_ws t)
       /\ review_cleaned c <> ""
       /\ (1 <= z <= 5)%Z)
  /\ NoDup (map (fun c => review (raw c)) out)
  /\ map review_cleaned (fst (process_loaded [both_spaced; single_spaced]))
     = ["good app"; "good app"].
Proof.
  intros out. split; [|split].
  - intros c Hc. apply process_loaded_rows in Hc.
    destruct Hc as [r [t [z [b [Hr [Et [Ez [Eb [Eraw [Ec [Hne Hz]]]]]]]]]]].
    exists r, t, z, b.
    split; [apply (subseq_incl _ _ (drop_duplicates_subseq [] df)); exact Hr|].
    rewrite Eraw. cbn [review rating bank source].
    repeat (split; [first [assumption | reflexivity]|]).
    split.
    + destruct (all_space t) eqn:Ea; [|reflexivity]. exfalso. apply Hne.
      rewrite Ec, clean_text_content_join.
      apply split_ws_all_space in Ea. now rewrite Ea.
    + split; [rewrite Ec; apply clean_text_content_join|]. split; assumption.
  - unfold out, process_loaded. cbn [fst]. rewrite validate_data_filter.
    apply (filter_NoDup_map (fun c => review (raw c))).
    unfold drop_empty. apply (filter_NoDup_map (fun c => review (raw c))).
    unfold add_review_cleaned. rewrite map_map. cbn [raw].
    unfold handle_missing_data. rewrite map_map. cbn [review].
    apply filter_NoDup_map. apply drop_duplicates_NoDup.
  - vm_compute. reflexivity.
Qed.

Lemma rows_filter_le {A} (p : A -> bool) (l : list A) :
  (0 <= rows (filter p l) <= rows l)%Z.
Proof. unfold rows. pose proof (filter_length_le p l). lia. Qed.

Lemma subseq_length {A} (l L : list A) :
  subseq l L -> (List.length l <= List.length L)%nat.
Proof. induction 1; simpl; lia. Qed.

(** X24: the counts of [process].  None is negative; the final count and
    the two removal counts the report prints add up to at most the
    original count, and what is missing from the sum is the number of rows
    dropped for a missing review, rating or bank plus the number dropped
    for a rating outside 1 to 5, which the report does not print.  When
    the frame is not empty the retention and the error rate lie between 0
    and 100 and add up to 100, and the quality is called excellent exactly
    when more than 95 rows in 100 are kept; for an empty frame no rate is
    printed. *)
Theorem process_counts (df : list Raw) :
  let s := snd (process_loaded df) in
  let deduplicated := remove_duplicates df in
  let kept := drop_empty (add_review_cleaned (handle_missing_data deduplicated)) in
  let missing := (rows deduplicated - rows (filter complete deduplicated))%Z in
  let invalid := (rows kept - rows (validate_data kept))%Z in
  original_count s = rows df
  /\ final_count s = rows (fst (process_loaded df))
  /\ (0 <= duplicates_removed s)%Z
  /\ (0 <= empty_reviews_removed s)%Z
  /\ (0 <= missing)%Z /\ (0 <= invalid)%Z
  /\ (0 <= final_count s)%Z
  /\ (original_count s
      = final_count s + duplicates_removed s + empty_reviews_removed s
        + missing + invalid)%Z
  /\ (rates s = None <-> df = [])
  /\ forall retention error_rate excellent,
      rates s = Some (retention, error_rate, excellent) ->
      (0 <= retention)%Q /\ (retention <= 100)%Q
      /\ (error_rate == 100 - retention)%Q
      /\ (0 <= error_rate)%Q /\ (error_rate <= 100)%Q
      /\ (excellent = true <-> (95 * rows df < 100 * final_count s)%Z).
Proof.
  intros s deduplicated kept missing invalid.
  unfold s, process_loaded. cbn [snd fst original_count final_count
                                   duplicates_removed empty_reviews_removed].
  fold deduplicated. fold kept.
  pose proof (subseq_length _ _ (drop_duplicates_subseq [] df)) as Hd.
  fold (remove_duplicates df) in Hd. fold deduplicated in Hd.
  pose proof (rows_filter_le complete deduplicated) as Hm.
  assert (Hc : rows (add_review_cleaned (handle_missing_data deduplicated))
               = rows (filter complete deduplicated)).
  { unfold rows, add_review_cleaned, handle_missing_data. now rewrite !length_map. }
  pose proof (rows_filter_le (fun c => (0 <? String.length (review_cleaned c))%nat)
                (add_review_cleaned (handle_missing_data deduplicated))) as He.
  fold (drop_empty (add_review_cleaned (handle_missing_data deduplicated))) in He.
  fold kept in He.
  pose proof (rows_filter_le (fun c => between_1_5 (rating (raw c))) kept) as Hv.
  rewrite <- validate_data_filter in Hv.
  assert (Hrows : (0 <= rows df)%Z) by (unfold rows; lia).
  assert (Hd' : (0 <= rows deduplicated <= rows df)%Z) by (unfold rows; lia).
  unfold missing, invalid.
  split; [reflexivity|]. split; [reflexivity|].
  split; [lia|]. split; [lia|]. split; [lia|]. split; [lia|].
  split; [lia|]. split; [lia|].
  unfold rates. cbn [original_count final_count].
  split.
  - destruct df as [|r df']; [split; reflexivity|].
    assert (Hpos : (0 <? rows (r :: df'))%Z = true)
      by (apply Z.ltb_lt; unfold rows; simpl List.length; lia).
    rewrite Hpos. split; discriminate.
  - intros retention error_rate excellent.
    destruct (0 <? rows df)%Z eqn:Hpos; [|discriminate].
    apply Z.ltb_lt in Hpos. intros E.
    injection E as E1 E2 E3.
    set (final := rows (validate_data kept)) in *.
    assert (Hf : (0 <= final <= rows df)%Z) by (unfold final; lia).
    assert (Hret : (0 <= inject_Z final / inject_Z (rows df) * 100
                    /\ inject_Z final / inject_Z (rows df) * 100 <= 100)%Q).
    { destruct (rows df) as [|n|n]; try lia.
      unfold Qle, Qdiv, Qmult, Qinv, inject_Z. cbn [Qnum Qden Pos.mul]. split; nia. }
    rewrite <- E1, <- E2.
    split; [apply Hret|]. split; [apply Hret|]. split; [reflexivity|].
    split; [lra|]. split; [lra|].
    rewrite <- E3. rewrite Qgtb_true.
    destruct (rows df) as [|n|n]; try lia.
    unfold Qlt, Qminus, Qplus, Qopp, Qdiv, Qmult, Qinv, inject_Z.
    cbn [Qnum Qden Pos.mul]. split; nia.
Qed.

End PreprocessingFacts.

(** ** Cleaning reads the words of a text only *)

Section WordwiseFacts.
Import PyStr TextPreprocessor ReviewPreprocessor Normal WordMatch Notions.

Lemma url_at_eqb (a b c d e : ascii) (r : string) :
  url_at (String a (String b (String c (String d (String e r)))))
  = Ascii.eqb a "h" && Ascii.eqb b "t" && Ascii.eqb c "t" && Ascii.eqb d "p"
    && negb (is_space e).
Proof.
  destruct a as [[] [] [] [] [] [] [] []]; try reflexivity.
  destruct b as [[] [] [] [] [] [] [] []]; try reflexivity.
  destruct c as [[] [] [] [] [] [] [] []]; try reflexivity.
  destruct d as [[] [] [] [] [] [] [] []]; try reflexivity.
Qed.

Lemma url_at_short (s : string) :
  (String.length s < 5)%nat -> url_at s = false.
Proof.
  destruct s as [|a [|b [|c [|d [|e r]]]]]; simpl String.length; intros H;
    try lia; try reflexivity.
  - destruct a as [[] [] [] [] [] [] [] []]; reflexivity.
  - destruct a as [[] [] [] [] [] [] [] []]; try reflexivity.
    destruct b as [[] [] [] [] [] [] [] []]; reflexivity.
  - destruct a as [[] [] [] [] [] [] [] []]; try reflexivity.
    destruct b as [[] [] [] [] [] [] [] []]; try reflexivity.
    destruct c as [[] [] [] [] [] [] [] []]; reflexivity.
  - destruct a as [[] [] [] [] [] [] [] []]; try reflexivity.
    destruct b as [[] [] [] [] [] [] [] []]; try reflexivity.
    destruct c as [[] [] [] [] [] [] [] []]; try reflexivity.
    destruct d as [[] [] [] [] [] [] [] []]; reflexivity.
Qed.

(** A match of [http\S+] begins with the four letters and one more
    character that is not whitespace. *)
Lemma url_at_inv (s : string) :
  url_at s = true <->
  exists e r, s = String "h" (String "t" (String "t" (String "p" (String e r))))
              /\ is_space e = false.
Proof.
  split.
  - intros H. destruct s as [|a [|b [|c [|d [|e r]]]]];
      try (rewrite url_at_short in H by (simpl; lia); discriminate H).
    rewrite url_at_eqb in H.
    repeat (apply andb_prop in H; destruct H as [H ?]).
    apply Ascii.eqb_eq in H. subst a.
    repeat match goal with
           | E : Ascii.eqb _ _ = true |- _ => apply Ascii.eqb_eq in E; subst
           end.
    exists e, r. split; [reflexivity|]. now apply negb_true_iff.
  - intros [e [r [-> He]]]. rewrite url_at_eqb. now rewrite He.
Qed.

Lemma space_not_word (c : ascii) : is_space c = true -> is_word c = false.
Proof.
  destruct c as [[] [] [] [] [] [] [] []]; vm_compute; intros H;
    first [reflexivity | discriminate H].
Qed.

(** *** Steps that go through a text word by word *)

Lemma split_ws_space (c : ascii) (r : string) :
  is_space c = true -> split_ws (String c r) = split_ws r.
Proof. intros H. unfold split_ws. cbn [split_ws_aux]. now rewrite H. Qed.

Lemma word_inv (w : string) :
  word w = true ->
  w <> "" /\ forall_chars (fun c => negb (is_space c)) w = true.
Proof.
  unfold word. intros H. apply andb_prop in H. destruct H as [H1 H2].
  split; [intros ->; discriminate H1 | exact H2].
Qed.

Lemma split_ws_word (w : string) : word w = true -> split_ws w = [w].
Proof.
  intros H. apply word_inv in H. destruct H as [Hne Hc].
  unfold split_ws. rewrite <- (append_empty_r w) at 1.
  rewrite split_ws_aux_run by exact Hc. cbn [append split_ws_aux].
  destruct w; [congruence | reflexivity].
Qed.

Lemma split_ws_aux_app_space (x cur r : string) (c : ascii) :
  is_space c = true ->
  split_ws_aux cur (x ++ String c r)%string
  = split_ws_aux cur x ++ split_ws_aux "" r.
Proof.
  intros Hc. revert cur. induction x as [|y x IH]; intros cur.
  - cbn [append split_ws_aux]. rewrite Hc. destruct cur; reflexivity.
  - cbn [append split_ws_aux]. destruct (is_space y).
    + destruct cur; [apply IH | cbn [app]; now rewrite IH].
    + apply IH.
Qed.

Lemma split_ws_app_space (x r : string) (c : ascii) :
  is_space c = true ->
  split_ws (x ++ String c r)%string = split_ws x ++ split_ws r.
Proof. intros H. now apply split_ws_aux_app_space. Qed.

Lemma word_cons (c : ascii) (w : string) :
  is_space c = false -> word w = true -> word (String c w) = true.
Proof.
  intros Hc Hw. apply word_inv in Hw. destruct Hw as [_ Hw].
  unfold word. cbn [forall_chars]. now rewrite Hc, Hw.
Qed.

Lemma every_text_shape (s : string) : text_shape s.
Proof.
  induction s as [|c r IH]; [constructor|].
  destruct (is_space c) eqn:E; [now constructor|].
  assert (Hc : word (String c "") = true) by (unfold word; simpl; now rewrite E).
  inversion IH as [Er | c' r' Hs Hr Er | w Hw Er | w c' r' Hw Hs Hr Er]; subst.
  - now apply shape_word.
  - exact (shape_word_space (String c "") c' r' Hc Hs Hr).
  - apply shape_word. now apply word_cons.
  - change (String c (w ++ String c' r')) with (String c w ++ String c' r')%string.
    apply shape_word_space; [|exact Hs | exact Hr]. now apply word_cons.
Qed.

(** The words after a wordwise step are the words of the cleaned
    words. *)
Lemma wordwise_words (f : string -> string) (s : string) :
  wordwise f ->
  split_ws (f s) = flat_map (fun w => split_ws (f w)) (split_ws s).
Proof.
  intros [H1 H2 H3]. induction (every_text_shape s) as [|c r Hc _ IH|w Hw|w c r Hw Hc _ IH].
  - now rewrite H1.
  - destruct (H2 c r Hc) as [c' [Hc' ->]].
    now rewrite !split_ws_space by assumption.
  - rewrite (split_ws_word w Hw). cbn [flat_map]. now rewrite app_nil_r.
  - rewrite (H3 w c r Hw Hc). destruct (H2 c r Hc) as [c' [Hc' ->]].
    rewrite !split_ws_app_space by assumption.
    rewrite (split_ws_word w Hw). cbn [flat_map app]. now rewrite IH.
Qed.

Lemma lower_app (a b : string) :
  lower (a ++ b)%string = (lower a ++ lower b)%string.
Proof. induction a as [|c a IH]; simpl; [reflexivity | now rewrite IH]. Qed.

Lemma lower_char_space (c : ascii) : is_space c = true -> lower_char c = c.
Proof. intros H. unfold lower_char. now rewrite (space_not_upper c H). Qed.

Lemma lower_wordwise : wordwise lower.
Proof.
  split; [reflexivity| |].
  - intros c r Hc. exists c. split; [exact Hc|]. cbn [lower].
    now rewrite (lower_char_space c Hc).
  - intros w c r _ _. apply lower_app.
Qed.

Lemma remove_numbers_app (a b : string) :
  remove_numbers (a ++ b)%string
  = (remove_numbers a ++ remove_numbers b)%string.
Proof.
  induction a as [|c a IH]; [reflexivity|]. cbn [append remove_numbers].
  rewrite IH. destruct (is_digit c); reflexivity.
Qed.

Lemma space_not_digit (c : ascii) : is_space c = true -> is_digit c = false.
Proof.
  intros H. apply space_not_word in H. unfold is_word in H.
  destruct (is_digit c); [|reflexivity].
  rewrite orb_true_r in H. discriminate H.
Qed.

Lemma remove_numbers_wordwise : wordwise remove_numbers.
Proof.
  split; [reflexivity| |].
  - intros c r Hc. exists c. split; [exact Hc|]. cbn [remove_numbers].
    now rewrite (space_not_digit c Hc).
  - intros w c r _ _. apply remove_numbers_app.
Qed.

Lemma remove_punctuation_app (a b : string) :
  remove_punctuation (a ++ b)%string
  = (remove_punctuation a ++ remove_punctuation b)%string.
Proof.
  induction a as [|c a IH]; [reflexivity|]. cbn [append remove_punctuation].
  now rewrite IH.
Qed.

Lemma remove_punctuation_wordwise : wordwise remove_punctuation.
Proof.
  split; [reflexivity| |].
  - intros c r Hc. exists c. split; [exact Hc|]. cbn [remove_punctuation].
    now rewrite Hc, orb_true_r.
  - intros w c r _ _. apply remove_punctuation_app.
Qed.

Section Runs.
Variable starts : string -> bool.
Variable cont : ascii -> bool.
Hypothesis cont_space : forall c, is_space c = true -> cont c = false.
Hypothesis starts_space : forall c r, is_space c = true -> starts (String c r) = false.
Hypothesis starts_local : forall u c r,
  u <> "" -> forall_chars (fun x => negb (is_space x)) u = true ->
  is_space c = true -> starts (u ++ String c r)%string = starts u.

Lemma remove_runs_word (w : string) (k : bool) (c : ascii) (r : string) :
  forall_chars (fun x => negb (is_space x)) w = true -> is_space c = true ->
  remove_runs starts cont k (w ++ String c r)%string
  = (remove_runs starts cont k w
     ++ String c (remove_runs starts cont false r))%string.
Proof.
  intros Hw Hc. revert k. induction w as [|x w IH]; intros k.
  - cbn [append remove_runs].
    now rewrite (cont_space c Hc), andb_false_r, (starts_space c r Hc).
  - cbn [forall_chars] in Hw. apply andb_prop in Hw. destruct Hw as [Hx Hw].
    change (String x w ++ String c r)%string with (String x (w ++ String c r)).
    cbn [remove_runs].
    change (String x (w ++ String c r)) with (String x w ++ String c r)%string.
    rewrite (starts_local (String x w) c r); [|discriminate | |exact Hc].
    + destruct (k && cont x); [apply (IH Hw)|].
      destruct (starts (String x w)); [apply (IH Hw)|].
      cbn [append]. now rewrite (IH Hw).
    + cbn [forall_chars]. now rewrite Hx, Hw.
Qed.

Lemma remove_runs_wordwise : wordwise (remove_runs starts cont false).
Proof.
  split; [reflexivity| |].
  - intros c r Hc. exists c. split; [exact Hc|]. cbn [remove_runs andb].
    now rewrite (starts_space c r Hc).
  - intros w c r Hw Hc. apply word_inv in Hw. destruct Hw as [_ Hw].
    rewrite (remove_runs_word w false c r Hw Hc). f_equal.
    cbn [remove_runs andb]. now rewrite (starts_space c r Hc).
Qed.

End Runs.

Lemma url_at_local (u : string) (c : ascii) (r : string) :
  u <> "" -> forall_chars (fun x => negb (is_space x)) u = true ->
  is_space c = true -> url_at (u ++ String c r)%string = url_at u.
Proof.
  intros _ Hu Hc.
  assert (Hn : forall x, is_space x = false -> x <> c) by (intros x Hx ->; congruence).
  destruct (url_at u) eqn:E2.
  - apply url_at_inv in E2. destruct E2 as [e [r' [-> He]]].
    apply url_at_inv. exists e, (r' ++ String c r)%string. auto.
  - destruct (url_at (u ++ String c r)%string) eqn:E1; [|reflexivity].
    apply url_at_inv in E1. destruct E1 as [e [r' [E He]]].
    destruct u as [|a [|b [|c0 [|d [|e' u']]]]]; cbn [append] in E.
    + injection E as -> _. discriminate Hc.
    + injection E as _ -> _. discriminate Hc.
    + injection E as _ _ -> _. discriminate Hc.
    + injection E as _ _ _ -> _. discriminate Hc.
    + injection E as _ _ _ _ -> _. congruence.
    + injection E as -> -> -> -> -> _.
      assert (H : url_at (String "h" (String "t" (String "t" (String "p" (String e u'))))) = true)
        by (apply url_at_inv; eauto).
      congruence.
Qed.

Lemma url_at_space (c : ascii) (r : string) :
  is_space c = true -> url_at (String c r) = false.
Proof.
  intros Hc. destruct (url_at (String c r)) eqn:E; [|reflexivity].
  apply url_at_inv in E. destruct E as [e [r' [E _]]]. injection E as -> _.
  discriminate Hc.
Qed.

Lemma remove_urls_wordwise : wordwise remove_urls.
Proof.
  apply remove_runs_wordwise.
  - intros c Hc. now rewrite Hc.
  - apply url_at_space.
  - apply url_at_local.
Qed.

Lemma tag_wordwise (head : ascii) :
  is_space head = false -> wordwise (remove_runs (tag_at head) is_word false).
Proof.
  intros Hh. apply remove_runs_wordwise.
  - apply space_not_word.
  - intros c r Hc. unfold tag_at. destruct r as [|d r]; [reflexivity|].
    destruct (Ascii.eqb c head) eqn:E; [|reflexivity].
    apply Ascii.eqb_eq in E. congruence.
  - intros u c r Hne Hu Hc. destruct u as [|a [|b u]]; [congruence| |reflexivity].
    cbn [append tag_at]. now rewrite (space_not_word c Hc), andb_false_r.
Qed.

(** The cleaned text, through the words of the text. *)
Lemma clean_text_words (t : string) :
  clean_text (Text t)
  = join " "
      (flat_map (fun w => split_ws (remove_punctuation w))
      (flat_map (fun w => split_ws (remove_numbers w))
      (flat_map (fun w => split_ws (remove_hashtags w))
      (flat_map (fun w => split_ws (remove_mentions w))
      (flat_map (fun w => split_ws (remove_urls w))
      (flat_map (fun w => split_ws (lower w)) (split_ws t))))))).
Proof.
  unfold clean_text.
  change (strip (collapse_spaces false ?x)) with (clean_text_content (Text x)).
  rewrite clean_text_content_join.
  rewrite (wordwise_words _ _ remove_punctuation_wordwise).
  rewrite (wordwise_words _ _ remove_numbers_wordwise).
  rewrite (wordwise_words remove_hashtags _ (tag_wordwise "#" eq_refl)).
  rewrite (wordwise_words remove_mentions _ (tag_wordwise "@" eq_refl)).
  rewrite (wordwise_words _ _ remove_urls_wordwise).
  rewrite (wordwise_words _ _ lower_wordwise).
  reflexivity.
Qed.

(** X25: [clean_text] reads nothing of a text but its words: two texts
    with the same words, whatever whitespace separates them, are cleaned
    to the same text.  So the processed text computed from the column
    [review_cleaned] is the one the raw review itself would give. *)
Theorem cleaning_reads_words_only (review : cell) :
  (forall s s', split_ws s = split_ws s' ->
                clean_text (Text s) = clean_text (Text s'))
  /\ clean_text (Text (clean_text_content review)) = clean_text review.
Proof.
  assert (H : forall s s', split_ws s = split_ws s' ->
                           clean_text (Text s) = clean_text (Text s')).
  { intros s s' E. now rewrite !clean_text_words, E. }
  split; [exact H|]. destruct review as [|t]; [reflexivity|].
  apply H. rewrite clean_text_content_join.
  apply split_ws_join, split_ws_words.
Qed.

End WordwiseFacts.

(** ** The sentiment report and the insights report agree *)

Section AgreementFacts.
Import PyStr Pandas SentimentReport InsightsAnalyzer InsightsReport WordMatch Cases Notions.

(** Counting over a list of distinct keys that holds every entry. *)
Lemma counts_total_over (L l : list string) :
  NoDup L -> (forall x, In x l -> In x L) ->
  sum_Z (map (fun k => count String.eqb k l) L) = Z.of_nat (List.length l).
Proof.
  intros HL. induction l as [|x l IH]; intros Hin.
  - clear. induction L as [|k L IH]; [reflexivity|].
    cbn [map]. rewrite sum_Z_cons, IH. reflexivity.
  - rewrite (map_ext _ (fun k => ((if String.eqb k x then 1 else 0) + count String.eqb k l)%Z))
      by (intros k; apply count_cons).
    assert (Hone : forall L', NoDup L' ->
              sum_Z (map (fun k => ((if String.eqb k x then 1 else 0) + count String.eqb k l)%Z) L')
              = ((if existsb (fun k => String.eqb k x) L' then 1 else 0)
                 + sum_Z (map (fun k => count String.eqb k l) L'))%Z).
    { clear. intros L' H. induction H as [|k L' Hk H IH]; [reflexivity|].
      cbn [map existsb]. rewrite !sum_Z_cons, IH.
      destruct (String.eqb k x) eqn:E; cbn [orb]; [|lia].
      apply String.eqb_eq in E. subst k.
      destruct (existsb (fun k => String.eqb k x) L') eqn:Ex; [|lia].
      apply existsb_flip_In in Ex. contradiction. }
    rewrite (Hone L HL), IH by (intros y Hy; apply Hin; now right).
    assert (Hx : existsb (fun k => String.eqb k x) L = true).
    { apply existsb_flip_In, Hin. now left. }
    rewrite Hx. cbn [List.length]. lia.
Qed.

Lemma positive_share_ratio (rows : DataFrame) :
  rows <> [] ->
  exists p, positive_share rows = Some p
            /\ (p == inject_Z (len (where_label "POSITIVE" rows))
                     / inject_Z (len rows) * 100)%Q.
Proof.
  intros Hne. unfold positive_share. rewrite (mean_map_nonempty _ _ Hne).
  eexists. split; [reflexivity|].
  rewrite (sum_indicator (fun r => sentiment_label r =? "POSITIVE") rows).
  reflexivity.
Qed.

Lemma report_labels_unique (df : DataFrame) :
  report_labels df = unique String.eqb (map sentiment_label df).
Proof.
  unfold report_labels, sentiment_by_bank. rewrite map_map. cbn [fst]. apply map_id.
Qed.

(** X26: the two reports agree on a bank of the frame.  The NEGATIVE and
    POSITIVE counts of the sentiment report are the counts of the pain
    points and of the drivers; the share of POSITIVE rows of the sentiment
    analysis is the percentage of the drivers; and the bank's total is the
    sum, over the labels of the sentiment report, of the bank's counts. *)
Theorem reports_agree (df : DataFrame) (b : string) :
  In b (map bank df) ->
  let pp := pain_points_of (where_bank b df) in
  let d := drivers_of (where_bank b df) in
  let s := sentiment_of (where_bank b df) in
  In (b, pp) (identify_pain_points df)
  /\ In (b, d) (identify_drivers df)
  /\ In (b, s) (analyze_sentiment_by_bank df)
  /\ label_count df "NEGATIVE" b = negative_review_count pp
  /\ label_count df "POSITIVE" b = positive_review_count d
  /\ (exists p, positive_pct s = Some p /\ (p == positive_percentage d)%Q)
  /\ sum_Z (map (fun label => label_count df label b) (report_labels df))
     = total_reviews s.
Proof.
  intros Hb pp d s.
  assert (Hu : In b (unique String.eqb (map bank df)))
    by (apply (unique_In String.eqb String.eqb_eq); exact Hb).
  pose proof (where_bank_present b df Hb) as Hne.
  pose proof (len_filter_le "POSITIVE" (where_bank b df)) as Hp.
  pose proof (len_filter_le "NEGATIVE" (where_bank b df)) as Hq.
  split; [unfold identify_pain_points; apply in_map_iff; exists b; auto|].
  split; [unfold identify_drivers; apply in_map_iff; exists b; auto|].
  split; [unfold analyze_sentiment_by_bank; apply in_map_iff; exists b; auto|].
  rewrite !label_count_eq.
  split; [|split; [|split]].
  - unfold pp, pain_points_of.
    destruct (0 <? len (where_label "NEGATIVE" (where_bank b df)))%Z eqn:E;
      cbn [negative_review_count]; [reflexivity|]. apply Z.ltb_ge in E. lia.
  - unfold d, drivers_of.
    destruct (0 <? len (where_label "POSITIVE" (where_bank b df)))%Z eqn:E;
      cbn [positive_review_count]; [reflexivity|]. apply Z.ltb_ge in E. lia.
  - unfold s, sentiment_of. cbn [positive_pct].
    destruct (positive_share_ratio (where_bank b df) Hne) as [p [Ep Hpq]].
    exists p. split; [exact Ep|]. rewrite Hpq. unfold d, drivers_of.
    destruct (0 <? len (where_label "POSITIVE" (where_bank b df)))%Z eqn:E;
      cbn [positive_percentage]; [reflexivity|].
    apply Z.ltb_ge in E.
    assert (E0 : len (where_label "POSITIVE" (where_bank b df)) = 0%Z) by lia.
    rewrite E0. unfold Qdiv. change (inject_Z 0) with 0%Q. ring.
  - rewrite (map_ext _ (fun label => count String.eqb label
                                       (map sentiment_label (where_bank b df))))
      by (intros label; rewrite label_count_eq; symmetry; apply count_label_rows).
    unfold s, sentiment_of. cbn [total_reviews].
    rewrite report_labels_unique.
    rewrite counts_total_over.
    + unfold len. now rewrite length_map.
    + apply (unique_NoDup String.eqb String.eqb_eq).
    + intros x Hx. apply (unique_In String.eqb String.eqb_eq).
      apply in_map_iff in Hx. destruct Hx as [r [<- Hr]].
      apply in_map. now apply filter_In in Hr.
Qed.

Lemma reports_agree_witness :
  label_count bank_a_reviews "NEGATIVE" "A"
  = negative_review_count (pain_points_of (where_bank "A" bank_a_reviews)).
Proof.
  assert (H : In "A" (map bank bank_a_reviews)) by (simpl; auto).
  exact (proj1 (proj2 (proj2 (proj2 (reports_agree bank_a_reviews "A" H))))).
Defined.

End AgreementFacts.
